(** * A RAG pipeline on Bedrock and OpenSearch: the scripts and their properties

    The repository is a set of sequential Python scripts: text extraction
    from a PDF, one embedding per page, ingestion into a search index, index
    management, secret and endpoint lookup, and a question-answering chain.

    The scripts are embedded as functions in a state-and-exception monad that
    also writes a trace.  The services outside the repository (the embedding
    model, the search cluster, the AWS control plane, the PDF reader) are a
    parameter: a function from a request and the state of the world to a
    response or an exception and the next state of the world.  The trace
    records, in the order they happen, every request sent and every line
    logged or printed.  Creating a client of an AWS service sends nothing;
    it raises for a region name that botocore does not accept.

    The intermediate file is the text of Python's [json] module in the
    encodings of its [codecs]: both are written out here as far as the
    scripts use them, with the printing and the reading of floats as
    parameters. *)

From Stdlib Require Import ZArith NArith Lia DecimalString.
From Stdlib Require Import Floats.PrimFloat.
From stdpp Require Import base option list strings gmap.

Set Warnings "-register-all,-inexact-float".

Open Scope string_scope.
Open Scope list_scope.

(** * Python values *)

(** A Python [str] is a sequence of Unicode code points. *)
Abbreviation pystr := (list N).

(** A string literal of the source, as the [str] of its characters. *)
Definition str (s : string) : pystr :=
  Ascii.N_of_ascii <$> String.list_ascii_of_string s.
Coercion str : string >-> list.
Global Arguments str : simpl never.

(** The values the scripts handle.  A [dict] keeps its keys in insertion
    order, as Python does: [keys()], [items()] and [json.dump] follow it. *)
Inductive pyval : Type :=
| PyNone
| PyBool (b : bool)
| PyInt (z : Z)
| PyFloat (f : float)
| PyStr (s : pystr)
| PyList (l : list pyval)
| PyDict (d : list (pystr * pyval)).

Abbreviation dict := (list (pystr * pyval)).

(** The exceptions that occur.  [ClientError] is botocore's, with the
    service's message; [OtherException] is any other class a library raises
    (a timeout, a connection error, a validation error), with its name. *)
Inductive exn : Type :=
| KeyError (key : pystr)
| TypeError
| AttributeError
| ValueError (msg : string)
| JSONDecodeError
| ClientError (msg : pystr)
| OtherException (cls : string) (msg : pystr).

Definition is_ClientError (e : exn) : bool :=
  match e with ClientError _ => true | _ => false end.

Definition is_JSONDecodeError (e : exn) : bool :=
  match e with JSONDecodeError => true | _ => false end.

(** botocore's [InvalidRegionError], with its message. *)
Definition InvalidRegionError (region_name : pystr) : exn :=
  OtherException "InvalidRegionError"
    (str "Provided region_name '" ++ region_name
     ++ str "' doesn't match a supported format.").

(** ** Dictionaries *)

(** [d.get(k)], as an option: the first binding of [k]. *)
Fixpoint dict_lookup (k : pystr) (d : dict) : option pyval :=
  match d with
  | [] => None
  | (k', v) :: d' => if decide (k' = k) then Some v else dict_lookup k d'
  end.

(** [d[k] = v]: the value of an existing key is replaced where the key
    stands, a new key goes to the end. *)
Fixpoint dict_set (k : pystr) (v : pyval) (d : dict) : dict :=
  match d with
  | [] => [(k, v)]
  | (k', v') :: d' =>
      if decide (k' = k) then (k, v) :: d' else (k', v') :: dict_set k v d'
  end.

Definition dict_keys (d : dict) : list pystr := d.*1.

(** ** Operations on values, with Python's dynamic typing *)

(** [v[k]] for a string key [k]. *)
Definition py_getitem (v : pyval) (k : pystr) : exn + pyval :=
  match v with
  | PyDict d =>
      match dict_lookup k d with Some x => inr x | None => inl (KeyError k) end
  | _ => inl TypeError
  end.

(** [v.get(k, default)]. *)
Definition py_get (v : pyval) (k : pystr) (dflt : pyval) : exn + pyval :=
  match v with
  | PyDict d => inr (default dflt (dict_lookup k d))
  | _ => inl AttributeError
  end.

(** [v.items()]. *)
Definition py_items (v : pyval) : exn + list (pystr * pyval) :=
  match v with PyDict d => inr d | _ => inl AttributeError end.

(** [list(v.keys())]. *)
Definition py_keys (v : pyval) : exn + list pystr :=
  match v with PyDict d => inr (dict_keys d) | _ => inl AttributeError end.

(** [len(v)]. *)
Definition py_len (v : pyval) : exn + nat :=
  match v with
  | PyStr s => inr (length s)
  | PyList l => inr (length l)
  | PyDict d => inr (length d)
  | _ => inl TypeError
  end.

(** [v[:n]] on the sequences; other values are not subscriptable. *)
Definition py_slice_to (n : nat) (v : pyval) : exn + pyval :=
  match v with
  | PyStr s => inr (PyStr (take n s))
  | PyList l => inr (PyList (take n l))
  | _ => inl TypeError
  end.

(** The truth value of [v], as [if v:] and [not v] take it. *)
Definition py_truthy (v : pyval) : bool :=
  match v with
  | PyNone => false
  | PyBool b => b
  | PyInt z => negb (z =? 0)%Z
  | PyFloat f => negb (f =? 0)%float
  | PyStr s => negb (bool_decide (s = []))
  | PyList l => match l with [] => false | _ => true end
  | PyDict d => match d with [] => false | _ => true end
  end.

(** [iter(v)]: the elements of a list, the keys of a dict, the characters of
    a string. *)
Definition py_iter (v : pyval) : exn + list pyval :=
  match v with
  | PyList l => inr l
  | PyDict d => inr (PyStr <$> dict_keys d)
  | PyStr s => inr ((fun c => PyStr [c]) <$> s)
  | _ => inl TypeError
  end.

(** [s.startswith(prefix)]. *)
Fixpoint py_startswith (prefix s : pystr) : bool :=
  match prefix, s with
  | [], _ => true
  | c :: prefix', c' :: s' => bool_decide (c = c') && py_startswith prefix' s'
  | _ :: _, [] => false
  end.

(** [pat in s] on strings: [pat] occurs in [s] as a substring. *)
Fixpoint py_substring (pat s : pystr) : bool :=
  py_startswith pat s ||
  match s with [] => false | _ :: s' => py_substring pat s' end.

(** [pat in v] for a string [pat]: substring of a string, element of a list
    (only a string equals a string), key of a dict. *)
Definition py_contains_str (pat : pystr) (v : pyval) : exn + bool :=
  match v with
  | PyStr s => inr (py_substring pat s)
  | PyList l =>
      inr (existsb (fun x => match x with
                             | PyStr s => bool_decide (s = pat)
                             | _ => false
                             end) l)
  | PyDict d => inr (bool_decide (pat ∈ dict_keys d))
  | _ => inl TypeError
  end.

(** ['*' * n]. *)
Definition stars (n : nat) : pystr := replicate n 42%N.

(** ** [str.strip()] *)

(** [str.isspace] on one character: CPython's table of whitespace code
    points. *)
Definition py_isspace (c : N) : bool :=
  ((9 <=? c) && (c <=? 13) || (28 <=? c) && (c <=? 32)
   || (c =? 133) || (c =? 160) || (c =? 5760)
   || (8192 <=? c) && (c <=? 8202)
   || (c =? 8232) || (c =? 8233) || (c =? 8239) || (c =? 8287)
   || (c =? 12288))%N.

Fixpoint py_lstrip (s : pystr) : pystr :=
  match s with
  | c :: s' => if py_isspace c then py_lstrip s' else s
  | [] => []
  end.

Definition py_rstrip (s : pystr) : pystr := reverse (py_lstrip (reverse s)).

Definition py_strip (s : pystr) : pystr := py_rstrip (py_lstrip s).

(** ** Region names *)

Definition is_ascii_digit (c : N) : bool := ((48 <=? c) && (c <=? 57))%N.

(** The class [[a-zA-Z0-9-]]. *)
Definition is_label_char (c : N) : bool :=
  ((97 <=? c) && (c <=? 122) || (65 <=? c) && (c <=? 90)
   || is_ascii_digit c || (c =? 45))%N.

(** Where [$] matches at the end of a pattern: at the end of the string, and
    before a newline that ends it. *)
Definition before_final_newline (s : pystr) : pystr :=
  match reverse s with
  | 10%N :: body => reverse body
  | _ => s
  end.

(** botocore's [validate_region_name]: the region name matches
    [^(?![0-9]+$)(?!-)[a-zA-Z0-9-]{,63}(?<!-)$], the pattern of a host label:
    not a number, no hyphen first or last, at most 63 letters, digits and
    hyphens. *)
Definition validate_region_name (region_name : pystr) : bool :=
  let label := before_final_newline region_name in
  negb (forallb is_ascii_digit label && negb (bool_decide (label = [])))
  && negb (bool_decide (head label = Some 45%N))
  && forallb is_label_char label && bool_decide (length label <= 63)
  && negb (bool_decide (last label = Some 45%N)).

(** * Text encodings *)

Module codecs.
Abbreviation bytes := (list Byte.byte).

(** The encodings a text file is read or written in: UTF-8, and Windows
    code page 1252. *)
Inductive encoding : Type := utf_8 | cp1252.

(** The byte of a number below 256. *)
Definition byte_of (n : N) : Byte.byte :=
  default Byte.x00 (Byte.of_N n).

(** One code point in UTF-8, strictly: no surrogate, nothing above
    U+10FFFF. *)
Definition utf_8_encode_char (c : N) : option bytes :=
  if (c <? 0x80)%N then Some [byte_of c]
  else if (c <? 0x800)%N then
    Some [byte_of (N.lor 0xC0 (N.shiftr c 6));
          byte_of (N.lor 0x80 (N.land c 0x3F))]
  else if (c <? 0x10000)%N then
    if (0xD800 <=? c)%N && (c <=? 0xDFFF)%N then None
    else
      Some [byte_of (N.lor 0xE0 (N.shiftr c 12));
            byte_of (N.lor 0x80 (N.land (N.shiftr c 6) 0x3F));
            byte_of (N.lor 0x80 (N.land c 0x3F))]
  else if (c <? 0x110000)%N then
    Some [byte_of (N.lor 0xF0 (N.shiftr c 18));
          byte_of (N.lor 0x80 (N.land (N.shiftr c 12) 0x3F));
          byte_of (N.lor 0x80 (N.land (N.shiftr c 6) 0x3F));
          byte_of (N.lor 0x80 (N.land c 0x3F))]
  else None.

(** [s.encode("utf-8")]; [None] is [UnicodeEncodeError]. *)
Fixpoint utf_8_encode (s : pystr) : option bytes :=
  match s with
  | [] => Some []
  | c :: s' =>
      match utf_8_encode_char c, utf_8_encode s' with
      | Some b, Some bs => Some (b ++ bs)
      | _, _ => None
      end
  end.

(** A continuation byte between [lo] and [hi], and its six bits. *)
Definition continuation (lo hi : N) (b : Byte.byte) : option N :=
  let n := Byte.to_N b in
  if (lo <=? n)%N && (n <=? hi)%N then Some (N.land n 0x3F) else None.

(** [b.decode("utf-8")], strictly: no overlong form, no surrogate, nothing
    above U+10FFFF; [None] is [UnicodeDecodeError]. *)
Fixpoint utf_8_decode (b : bytes) : option pystr :=
  match b with
  | [] => Some []
  | b0 :: r0 =>
      let n0 := Byte.to_N b0 in
      if (n0 <? 0x80)%N then cons n0 <$> utf_8_decode r0
      else if (0xC2 <=? n0)%N && (n0 <=? 0xDF)%N then
        match r0 with
        | b1 :: r1 =>
            c1 ← continuation 0x80 0xBF b1;
            cons (N.lor (N.shiftl (N.land n0 0x1F) 6) c1) <$> utf_8_decode r1
        | _ => None
        end
      else if (0xE0 <=? n0)%N && (n0 <=? 0xEF)%N then
        match r0 with
        | b1 :: b2 :: r2 =>
            c1 ← continuation (if (n0 =? 0xE0)%N then 0xA0 else 0x80)
                              (if (n0 =? 0xED)%N then 0x9F else 0xBF) b1;
            c2 ← continuation 0x80 0xBF b2;
            cons (N.lor (N.shiftl (N.land n0 0x0F) 12)
                        (N.lor (N.shiftl c1 6) c2)) <$> utf_8_decode r2
        | _ => None
        end
      else if (0xF0 <=? n0)%N && (n0 <=? 0xF4)%N then
        match r0 with
        | b1 :: b2 :: b3 :: r3 =>
            c1 ← continuation (if (n0 =? 0xF0)%N then 0x90 else 0x80)
                              (if (n0 =? 0xF4)%N then 0x8F else 0xBF) b1;
            c2 ← continuation 0x80 0xBF b2;
            c3 ← continuation 0x80 0xBF b3;
            cons (N.lor (N.shiftl (N.land n0 0x07) 18)
                        (N.lor (N.shiftl c1 12) (N.lor (N.shiftl c2 6) c3)))
              <$> utf_8_decode r3
        | _ => None
        end
      else None
  end.

(** The characters of code page 1252 from 0x80 to 0x9F; five bytes have
    none. *)
Definition cp1252_high : list (option N) :=
  [Some 0x20AC; None; Some 0x201A; Some 0x0192; Some 0x201E; Some 0x2026;
   Some 0x2020; Some 0x2021; Some 0x02C6; Some 0x2030; Some 0x0160;
   Some 0x2039; Some 0x0152; None; Some 0x017D; None;
   None; Some 0x2018; Some 0x2019; Some 0x201C; Some 0x201D; Some 0x2022;
   Some 0x2013; Some 0x2014; Some 0x02DC; Some 0x2122; Some 0x0161;
   Some 0x203A; Some 0x0153; None; Some 0x017E; Some 0x0178]%N.

Definition cp1252_decode_byte (b : Byte.byte) : option N :=
  let n := Byte.to_N b in
  if (0x80 <=? n)%N && (n <=? 0x9F)%N then
    mjoin (cp1252_high !! N.to_nat (n - 0x80))
  else Some n.

(** [b.decode("cp1252")]. *)
Definition cp1252_decode (b : bytes) : option pystr :=
  mapM cp1252_decode_byte b.

(** [b.decode(encoding)]. *)
Definition decode (enc : encoding) (b : bytes) : option pystr :=
  match enc with
  | utf_8 => utf_8_decode b
  | cp1252 => cp1252_decode b
  end.
End codecs.

(** * The json module *)

Module json.

(** [int.__repr__]: the decimal digits, with a minus sign for a negative
    number. *)
Definition int_repr (z : Z) : pystr :=
  str (NilZero.string_of_int (Z.to_int z)).

(** [chr(c)] is one of the digits of base [base] (10 or 16): its value. *)
Definition digit (base : N) (c : N) : option N :=
  (if (48 <=? c)%N && (c <=? 57)%N then Some (c - 48)
   else if (base =? 16)%N && (97 <=? c)%N && (c <=? 102)%N then Some (c - 87)
   else if (base =? 16)%N && (65 <=? c)%N && (c <=? 70)%N then Some (c - 55)
   else None)%N.

Definition is_digit (c : N) : bool := bool_decide (is_Some (digit 10 c)).

(** The number that a string of digits writes in base [base]. *)
Definition of_digits (base : N) (ds : pystr) : option N :=
  foldl (fun acc c => a ← acc; d ← digit base c; Some (a * base + d)%N)
        (Some 0%N) ds.

(** The digit of a value below 16, in lower case. *)
Definition hex_digit (d : N) : N := (if d <? 10 then 48 + d else 87 + d)%N.

Section codec.
(** [float.__repr__], and [float] on a JSON number that has a fraction or an
    exponent. *)
Variable float_repr : float -> pystr.
Variable float_of_literal : pystr -> float.

(** ** Encoding, with [ensure_ascii=False] and [indent=2] *)

(** What [py_encode_basestring] writes for one character: the quote, the
    backslash and the control characters are escaped, everything else stands
    for itself. *)
Definition escape (c : N) : pystr :=
  if (c =? 34)%N then str "\" ++ [34%N]
  else if (c =? 92)%N then str "\\"
  else if (c =? 10)%N then str "\n"
  else if (c =? 13)%N then str "\r"
  else if (c =? 9)%N then str "\t"
  else if (c =? 8)%N then str "\b"
  else if (c =? 12)%N then str "\f"
  else if (c <? 32)%N then
    str "\u00" ++ [hex_digit (c / 16)%N; hex_digit (c mod 16)%N]
  else [c].

Definition encode_basestring (s : pystr) : pystr :=
  [34%N] ++ mbind escape s ++ [34%N].

(** [floatstr], with [allow_nan] as it is by default. *)
Definition floatstr (f : float) : pystr :=
  if negb (f =? f)%float then str "NaN"
  else if (f =? infinity)%float then str "Infinity"
  else if (f =? neg_infinity)%float then str "-Infinity"
  else float_repr f.

(** A new line and the indentation of a nesting level. *)
Definition newline_indent (level : nat) : pystr :=
  [10%N] ++ replicate (2 * level) 32%N.

(** The text of a value at a nesting level. *)
Fixpoint encode (level : nat) (v : pyval) : pystr :=
  match v with
  | PyNone => str "null"
  | PyBool true => str "true"
  | PyBool false => str "false"
  | PyInt z => int_repr z
  | PyFloat f => floatstr f
  | PyStr s => encode_basestring s
  | PyList [] => str "[]"
  | PyList items =>
      str "[" ++ newline_indent (S level)
      ++ (fix items_text (l : list pyval) : pystr :=
            match l with
            | [] => []
            | [x] => encode (S level) x
            | x :: l' =>
                encode (S level) x ++ str "," ++ newline_indent (S level)
                ++ items_text l'
            end) items
      ++ newline_indent level ++ str "]"
  | PyDict [] => str "{}"
  | PyDict members =>
      str "{" ++ newline_indent (S level)
      ++ (fix members_text (d : list (pystr * pyval)) : pystr :=
            match d with
            | [] => []
            | [(k, x)] => encode_basestring k ++ str ": " ++ encode (S level) x
            | (k, x) :: d' =>
                encode_basestring k ++ str ": " ++ encode (S level) x
                ++ str "," ++ newline_indent (S level) ++ members_text d'
            end) members
      ++ newline_indent level ++ str "}"
  end.

(** [json.dumps(v, ensure_ascii=False, indent=2)], which is also what
    [json.dump] writes. *)
Definition dumps (v : pyval) : pystr := encode 0 v.

(** ** Decoding *)

Definition is_whitespace (c : N) : bool :=
  ((c =? 32) || (c =? 9) || (c =? 10) || (c =? 13))%N.

Fixpoint skip_whitespace (s : pystr) : pystr :=
  match s with
  | c :: s' => if is_whitespace c then skip_whitespace s' else s
  | [] => []
  end.

(** The character a backslash escape stands for. *)
Definition backslash (c : N) : option N :=
  (if c =? 34 then Some 34 else if c =? 92 then Some 92
   else if c =? 47 then Some 47 else if c =? 98 then Some 8
   else if c =? 102 then Some 12 else if c =? 110 then Some 10
   else if c =? 114 then Some 13 else if c =? 116 then Some 9
   else None)%N.

(** Four hexadecimal digits: their value, and the rest of the text. *)
Definition hex4 (s : pystr) : option (N * pystr) :=
  if decide (length (take 4 s) = 4) then
    n ← of_digits 16 (take 4 s); Some (n, drop 4 s)
  else None.

(** [scanstring] after the opening quote: the string, and the text after
    the closing quote. *)
Fixpoint scanstring (fuel : nat) (s : pystr) (acc : pystr)
    : option (pystr * pystr) :=
  match fuel with
  | O => None
  | S fuel =>
      match s with
      | [] => None
      | c :: r =>
          if (c =? 34)%N then Some (acc, r)
          else if (c =? 92)%N then
            match r with
            | [] => None
            | esc :: r' =>
                if (esc =? 117)%N then
                  '(uni, r'') ← hex4 r';
                  if (0xD800 <=? uni)%N && (uni <=? 0xDBFF)%N then
                    match r'' with
                    | 92%N :: 117%N :: r3 =>
                        match hex4 r3 with
                        | Some (uni2, r4) =>
                            if (0xDC00 <=? uni2)%N && (uni2 <=? 0xDFFF)%N then
                              scanstring fuel r4
                                (acc ++ [(0x10000
                                          + N.lor (N.shiftl (uni - 0xD800) 10)
                                                  (uni2 - 0xDC00))%N])
                            else scanstring fuel r'' (acc ++ [uni])
                        | None => None
                        end
                    | _ => scanstring fuel r'' (acc ++ [uni])
                    end
                  else scanstring fuel r'' (acc ++ [uni])
                else
                  ch ← backslash esc;
                  scanstring fuel r' (acc ++ [ch])
            end
          else if (c <? 32)%N then None
          else scanstring fuel r (acc ++ [c])
      end
  end.

(** The longest run of digits a text starts with, and the rest. *)
Fixpoint digits (s : pystr) : pystr * pystr :=
  match s with
  | c :: s' =>
      if is_digit c then let '(ds, r) := digits s' in (c :: ds, r)
      else ([], s)
  | [] => ([], [])
  end.

(** [NUMBER_RE]: the integer part, the fraction and the exponent (empty when
    absent) a text starts with, and the rest. *)
Definition match_number (s : pystr)
    : option (pystr * pystr * pystr * pystr) :=
  let '(sign, s1) :=
    match s with 45%N :: r => ([45%N], r) | _ => ([], s) end in
  let '(int_digits, s2) :=
    match s1 with
    | 48%N :: r => ([48%N], r)
    | _ => digits s1
    end in
  match int_digits with
  | [] => None
  | _ =>
      let '(frac, s3) :=
        match s2 with
        | 46%N :: r =>
            match digits r with
            | ([], _) => ([], s2)
            | (ds, r') => (46%N :: ds, r')
            end
        | _ => ([], s2)
        end in
      let '(exp, s4) :=
        match s3 with
        | e :: r =>
            if (e =? 101)%N || (e =? 69)%N then
              let '(esign, r1) :=
                match r with
                | c :: r' =>
                    if (c =? 45)%N || (c =? 43)%N then ([c], r') else ([], r)
                | [] => ([], r)
                end in
              match digits r1 with
              | ([], _) => ([], s3)
              | (ds, r') => (e :: esign ++ ds, r')
              end
            else ([], s3)
        | [] => ([], s3)
        end in
      Some (sign ++ int_digits, frac, exp, s4)
  end.

(** [int] on the integer part of a number. *)
Definition parse_int (text : pystr) : option Z :=
  match text with
  | 45%N :: ds => n ← of_digits 10 ds; Some (- Z.of_N n)%Z
  | ds => n ← of_digits 10 ds; Some (Z.of_N n)
  end.

(** [text] starts with the characters of [word]: the rest. *)
Definition after_word (word : string) (text : pystr) : option pystr :=
  if py_startswith (str word) text then Some (drop (String.length word) text)
  else None.

(** [dict(pairs)]: a later value of a key replaces the earlier one. *)
Definition dict_of_pairs (pairs : list (pystr * pyval)) : dict :=
  foldl (fun d kv => dict_set kv.1 kv.2 d) [] pairs.

(** [scan_once]: the value a text starts with, and the rest.  [json_object]
    takes the text after the opening quote of a key, [json_array] the text
    of the next element; both with what they have read so far. *)
Fixpoint scan_once (fuel : nat) (s : pystr) {struct fuel}
    : option (pyval * pystr) :=
  match fuel with
  | O => None
  | S fuel =>
      match s with
      | [] => None
      | c :: r =>
          if (c =? 34)%N then
            '(text, r') ← scanstring (S (length r)) r [];
            Some (PyStr text, r')
          else if (c =? 123)%N then
            match skip_whitespace r with
            | 125%N :: r' => Some (PyDict [], r')
            | 34%N :: r' =>
                '(pairs, r'') ← json_object fuel r' [];
                Some (PyDict (dict_of_pairs pairs), r'')
            | _ => None
            end
          else if (c =? 91)%N then
            match skip_whitespace r with
            | 93%N :: r' => Some (PyList [], r')
            | r' =>
                '(values, r'') ← json_array fuel r' [];
                Some (PyList values, r'')
            end
          else
            match after_word "null" s, after_word "true" s, after_word "false" s with
            | Some r', _, _ => Some (PyNone, r')
            | _, Some r', _ => Some (PyBool true, r')
            | _, _, Some r' => Some (PyBool false, r')
            | None, None, None =>
                match match_number s with
                | Some (integer, [], [], r') =>
                    z ← parse_int integer; Some (PyInt z, r')
                | Some (integer, frac, exp, r') =>
                    Some (PyFloat (float_of_literal (integer ++ frac ++ exp)), r')
                | None =>
                    match after_word "NaN" s, after_word "Infinity" s,
                          after_word "-Infinity" s with
                    | Some r', _, _ => Some (PyFloat nan, r')
                    | _, Some r', _ => Some (PyFloat infinity, r')
                    | _, _, Some r' => Some (PyFloat neg_infinity, r')
                    | None, None, None => None
                    end
                end
            end
      end
  end
with json_object (fuel : nat) (s : pystr) (pairs : list (pystr * pyval))
    {struct fuel} : option (list (pystr * pyval) * pystr) :=
  match fuel with
  | O => None
  | S fuel =>
      '(key, r) ← scanstring (S (length s)) s [];
      match skip_whitespace r with
      | 58%N :: r1 =>
          '(value, r2) ← scan_once fuel (skip_whitespace r1);
          let pairs := pairs ++ [(key, value)] in
          match skip_whitespace r2 with
          | 125%N :: r3 => Some (pairs, r3)
          | 44%N :: r3 =>
              match skip_whitespace r3 with
              | 34%N :: r4 => json_object fuel r4 pairs
              | _ => None
              end
          | _ => None
          end
      | _ => None
      end
  end
with json_array (fuel : nat) (s : pystr) (values : list pyval)
    {struct fuel} : option (list pyval * pystr) :=
  match fuel with
  | O => None
  | S fuel =>
      '(value, r) ← scan_once fuel s;
      let values := values ++ [value] in
      match skip_whitespace r with
      | 93%N :: r1 => Some (values, r1)
      | 44%N :: r1 => json_array fuel (skip_whitespace r1) values
      | _ => None
      end
  end.

(** [json.loads] on a string; [None] is [JSONDecodeError]. *)
Definition loads (s : pystr) : option pyval :=
  match s with
  | 0xFEFF%N :: _ => None
  | _ =>
      '(v, r) ← scan_once (2 * length s + 2) (skip_whitespace s);
      match skip_whitespace r with
      | [] => Some v
      | _ => None
      end
  end.
End codec.
End json.

(** * Effects *)

(** The requests the scripts send to services, with the arguments the source
    passes.  [IndexDocument] is opensearch-py's [client.index(index, body,
    id=None)]: [doc_id] is the document ID the caller chose, if any. *)
Inductive request : Type :=
| EmbedQuery (model_id : pystr) (text : pyval)
| IndexDocument (index : pystr) (doc_id : option pystr) (body : dict)
| IndicesCreate (index : pystr) (body : pyval)
| IndicesDelete (index : pystr)
| IndicesGetAlias (name : pystr)
| Search (index : pystr) (body : pyval)
| InvokeModel (model_id : pystr) (model_kwargs : dict) (context : pyval)
    (input : pystr)
| DescribeElasticsearchDomain (region : pystr) (domain_name : pystr)
| ListSecrets (region : pystr)
| GetSecretValue (region : pystr) (secret_id : pyval).

Inductive level : Type := DEBUG | INFO | WARNING | ERROR.

(** An f-string is the list of its pieces: the literal text of the source,
    and what it interpolates: a value [{v}], its type [{type(v)}], a prefix
    of its text [{str(v)[:n]}], an exception [{e}]. *)
Inductive fragment : Type :=
| Lit (s : string)
| Fmt (v : pyval)
| FmtType (v : pyval)
| FmtTake (n : nat) (v : pyval)
| FmtExn (e : exn).

Inductive stream : Type := stdout | stderr.

(** What a run does that can be observed from outside, in order. *)
Inductive event : Type :=
| Call (r : request)
| Log (lvl : level) (msg : list fragment)
| Print (to : stream) (msg : list fragment).

(** The requests of a trace, in the order they were sent. *)
Definition requests (t : list event) : list request :=
  omap (fun ev => match ev with Call r => Some r | _ => None end) t.

(** The lines of a trace at a log level. *)
Definition logged (lvl : level) (t : list event) : list (list fragment) :=
  omap (fun ev => match ev with
                  | Log l msg => match lvl, l with
                                 | DEBUG, DEBUG | INFO, INFO
                                 | WARNING, WARNING | ERROR, ERROR => Some msg
                                 | _, _ => None
                                 end
                  | _ => None
                  end) t.

(** A location of a [dict] object in the heap. *)
Abbreviation loc := nat.

Section Monad.
Context {W : Type}.

(** The state of a run: the world outside the process, and the [dict]
    objects the process has created and may update in place. *)
Record state : Type := State { world : W; heap : list dict }.

Record outcome (A : Type) : Type :=
  Outcome { value : exn + A; final : state; trace : list event }.
Global Arguments Outcome {A} _ _ _.
Global Arguments value {A} _.
Global Arguments final {A} _.
Global Arguments trace {A} _.

Definition M (A : Type) : Type := state -> outcome A.

Definition ret {A} (a : A) : M A := fun s => Outcome (inr a) s [].

Definition raise {A} (e : exn) : M A := fun s => Outcome (inl e) s [].

(** An outcome that comes after the trace [t1]. *)
Definition after {A} (t1 : list event) (o : outcome A) : outcome A :=
  Outcome (value o) (final o) (t1 ++ trace o).

Definition bind {A B} (m : M A) (f : A -> M B) : M B :=
  fun s =>
    match m s with
    | Outcome (inr a) s1 t1 => after t1 (f a s1)
    | Outcome (inl e) s1 t1 => Outcome (inl e) s1 t1
    end.

(** [try: m  except Exception as e: h e] *)
Definition try_except {A} (m : M A) (h : exn -> M A) : M A :=
  fun s =>
    match m s with
    | Outcome (inl e) s1 t1 => after t1 (h e s1)
    | o => o
    end.

(** [try: m  except C as e: h e], for the class [C] that [is_C] tells. *)
Definition try_except_only {A} (is_C : exn -> bool) (m : M A)
    (h : exn -> M A) : M A :=
  try_except m (fun e => if is_C e then h e else raise e).

(** A value computed without effect, or the exception it raises. *)
Definition lift {A} (r : exn + A) : M A :=
  match r with inr a => ret a | inl e => raise e end.

Definition emit (ev : event) : M unit := fun s => Outcome (inr tt) s [ev].

(** [logger.debug], [logger.info], [logger.warning], [logger.error] *)
Definition log (lvl : level) (msg : list fragment) : M unit :=
  emit (Log lvl msg).

(** [print(..)] and [print(.., file=sys.stderr)] *)
Definition print (to : stream) (msg : list fragment) : M unit :=
  emit (Print to msg).

(** ** The heap of page dictionaries *)

(** A new [dict] object. *)
Definition alloc (d : dict) : M loc :=
  fun s =>
    Outcome (inr (length (heap s))) (State (world s) (heap s ++ [d])) [].

(** The object at a location.  A location outside the heap does not occur
    in a run; the model raises there, so that every function is total. *)
Definition deref (l : loc) : M dict :=
  fun s =>
    match heap s !! l with
    | Some d => Outcome (inr d) s []
    | None => Outcome (inl (OtherException "ReferenceError" [])) s []
    end.

(** [page[k]] *)
Definition getitem (page : loc) (k : pystr) : M pyval :=
  bind (deref page) (fun d => lift (py_getitem (PyDict d) k)).

(** [page[k] = v], in place *)
Definition setitem (page : loc) (k : pystr) (v : pyval) : M unit :=
  bind (deref page) (fun d =>
    fun s =>
      Outcome (inr tt)
              (State (world s) (<[page := dict_set k v d]> (heap s))) []).

(** ** Services *)

(** The services: what the world answers to a request, an exception or a
    response, and the world after it. *)
Definition service : Type := request -> W -> (exn + pyval) * W.

Definition call (respond : service) (r : request) : M pyval :=
  fun s =>
    match respond r (world s) with
    | (res, w) => Outcome res (State w (heap s)) [Call r]
    end.

(** [for x in xs: body x] *)
Fixpoint for_ {A} (xs : list A) (body : A -> M unit) : M unit :=
  match xs with
  | [] => ret tt
  | x :: xs' => bind (body x) (fun _ => for_ xs' body)
  end.

(** ** AWS clients *)

(** [boto3.client(service_name, region_name=region_name)], for the services
    the scripts name.  Creating a client sends no request; botocore checks
    the region name and raises [InvalidRegionError] for one that is not a
    host label. *)
Definition boto3_client (service_name : string) (region_name : pystr)
    : M unit :=
  if validate_region_name region_name then ret tt
  else raise (InvalidRegionError region_name).
End Monad.

Global Arguments state : clear implicits.
Global Arguments outcome : clear implicits.
Global Arguments M : clear implicits.
Global Arguments service : clear implicits.

Global Instance M_ret {W} : MRet (M W) := fun A => ret.
Global Instance M_bind {W} : MBind (M W) := fun A B f m => bind m f.

(** * generate_embeddings.py *)

Module generate_embeddings.
(** A PDF opened by PyMuPDF: [len(doc)] pages, and
  [doc.load_page(i).get_text()] the text of page [i], in document order. *)
Abbreviation document := (list pystr).

Section with_world.
Context {W : Type}.

(** [fitz.open(path)]: the document, or the exception PyMuPDF raises. *)
Variable fitz_open : pystr -> W -> exn + document.

Variable respond : service W.

Definition open_pdf (pdf_path : pystr) : M W document :=
  fun s => lift (fitz_open pdf_path (world s)) s.

(** [doc.load_page(page_num).get_text()] *)
Definition get_text (doc : document) (page_num : nat) : M W pystr :=
  match doc !! page_num with
  | Some text => mret text
  | None => raise (ValueError "page not in document")
  end.

(** The loop of [extract_text_from_pdf] over [range(len(doc))], with the
    list [pages] built so far. *)
Fixpoint extract_pages (doc : document) (page_nums : list nat)
    (pages : list loc) : M W (list loc) :=
  match page_nums with
  | [] => mret pages
  | page_num :: rest =>
      text ← get_text doc page_num;
      page ← alloc [(str "page_number", PyInt (Z.of_nat page_num + 1));
                    (str "text", PyStr (py_strip text))];
      let pages := pages ++ [page] in
      log DEBUG [Lit "Extracted text from page ";
                 Fmt (PyInt (Z.of_nat page_num + 1)); Lit ": ";
                 Fmt (PyStr (take 100 text)); Lit "..."];;
      extract_pages doc rest pages
  end.

Definition extract_text_from_pdf (pdf_path : pystr) : M W (list loc) :=
  log INFO [Lit "Opening PDF file: "; Fmt (PyStr pdf_path)];;
  doc ← try_except
          (doc ← open_pdf pdf_path;
           log INFO [Lit "PDF file opened successfully."];;
           mret doc)
          (fun e => log ERROR [Lit "Failed to open PDF: "; FmtExn e];;
                    raise e);
  let pages := [] in
  log INFO [Lit "Extracting text from ";
            Fmt (PyInt (Z.of_nat (length doc))); Lit " pages."];;
  pages ← extract_pages doc (seq 0 (length doc)) pages;
  log INFO [Lit "Text extraction completed for ";
            Fmt (PyInt (Z.of_nat (length pages))); Lit " pages."];;
  mret pages.

(** One turn of the loop of [create_embeddings].  The f-string of the
    first [logger.debug] is evaluated outside the [try]. *)
Definition embed_page (model_id : pystr) (page : loc) : M W unit :=
  page_number ← getitem page "page_number";
  log DEBUG [Lit "Generating embedding for page "; Fmt page_number];;
  try_except
    (text ← getitem page "text";
     embedding ← call respond (EmbedQuery model_id text);
     setitem page "vector_field" embedding;;
     page_number ← getitem page "page_number";
     first5 ← lift (py_slice_to 5 embedding);
     log DEBUG [Lit "Embedding created for page "; Fmt page_number;
                Lit ": "; Fmt first5; Lit "..."])
    (fun e =>
       page_number ← getitem page "page_number";
       log ERROR [Lit "Error creating embedding for page ";
                  Fmt page_number; Lit ": "; FmtExn e]).

Definition create_embeddings (pages : list loc) (model_id : pystr)
    : M W (list loc) :=
  log INFO [Lit "Creating embeddings using model: "; Fmt (PyStr model_id)];;
  for_ pages (embed_page model_id);;
  log INFO [Lit "Embeddings creation completed."];;
  mret pages.
End with_world.

(** The file [main] writes: [json.dump(pages, f, ensure_ascii=False,
    indent=2)] on a file opened for writing with [encoding="utf-8"]. *)
Definition save (float_repr : float -> pystr) (pages : pyval)
    : exn + codecs.bytes :=
  match codecs.utf_8_encode (json.dumps float_repr pages) with
  | Some file => inr file
  | None => inl (OtherException "UnicodeEncodeError" [])
  end.
End generate_embeddings.

(** * ingest_docs_with_embeddings.py *)

Module ingest_docs_with_embeddings.
Section with_world.
Context {W : Type}.
Variable respond : service W.

(** The document [ingest_data] builds from a page. *)
Definition document_of (text vector_field : pyval) : dict :=
  [(str "text", text); (str "vector_field", vector_field)].

(** One turn of the loop of [ingest_data]. *)
Definition ingest_page (index_name : pystr) (page : pyval) : M W unit :=
  try_except
    (text ← lift (py_get page "text" PyNone);
     vector_field ← lift (py_get page "vector_field" PyNone);
     let document := document_of text vector_field in
     response ← call respond (IndexDocument index_name None document);
     page_number ← lift (py_get page "page_number" PyNone);
     result ← lift (py_getitem response "result");
     log INFO [Lit "Indexed page "; Fmt page_number; Lit ": "; Fmt result])
    (fun e =>
       page_number ← lift (py_get page "page_number" PyNone);
       log ERROR [Lit "Error indexing page "; Fmt page_number; Lit ": ";
                  FmtExn e];;
       log ERROR [Lit "Problematic page data: "; Fmt page]).

Definition ingest_data (index_name : pystr) (data : pyval) : M W unit :=
  match data with
  | PyList pages => for_ pages (ingest_page index_name)
  | _ =>
      log ERROR [Lit "Error: Expected a list of dictionaries, but got ";
                 FmtType data];;
      log ERROR [Lit "Data sample: "; FmtTake 200 data; Lit "..."];;
      raise (ValueError "Invalid data format")
  end.
End with_world.

(** What [main] loads: [json.load(f)] on the file opened by [open(path,
    'r')].  No encoding is given there, so the text is decoded in the
    encoding of the platform, [locale]. *)
Definition load (locale : codecs.encoding) (float_of_literal : pystr -> float)
    (file : codecs.bytes) : exn + pyval :=
  match codecs.decode locale file with
  | Some text =>
      match json.loads float_of_literal text with
      | Some data => inr data
      | None => inl JSONDecodeError
      end
  | None => inl (OtherException "UnicodeDecodeError" [])
  end.
End ingest_docs_with_embeddings.

(** * delete_index.py *)

Module delete_index.
Section with_world.
Context {W : Type}.
Variable respond : service W.

Definition delete_opensearch_index (index_name : pystr) : M W pyval :=
  log INFO [Lit "Trying to delete index "; Fmt (PyStr index_name)];;
  try_except
    (response ← call respond (IndicesDelete index_name);
     log INFO [Lit "Index "; Fmt (PyStr index_name); Lit " deleted"];;
     lift (py_getitem response "acknowledged"))
    (fun e =>
       log ERROR [Lit "Error deleting index "; Fmt (PyStr index_name);
                  Lit ": "; FmtExn e];;
       mret (PyBool false)).

Definition list_all_indices : M W (list pystr) :=
  try_except
    (indices ← call respond (IndicesGetAlias "*");
     lift (py_keys indices))
    (fun e =>
       log ERROR [Lit "Error listing indices: "; FmtExn e];;
       mret []).

(** One turn of the loop of [delete_all_indices]. *)
Definition delete_unless_system (index : pystr) : M W unit :=
  if py_startswith "." index then
    log INFO [Lit "Skipping system index: "; Fmt (PyStr index)]
  else
    success ← delete_opensearch_index index;
    if negb (py_truthy success) then
      log WARNING [Lit "Failed to delete index: "; Fmt (PyStr index)]
    else mret tt.

Definition delete_all_indices : M W unit :=
  indices ← list_all_indices;
  log INFO [Lit "Found "; Fmt (PyInt (Z.of_nat (length indices)));
            Lit " indices"];;
  for_ indices delete_unless_system;;
  remaining_indices ← list_all_indices;
  log INFO [Lit "Remaining indices after deletion: ";
            Fmt (PyList (PyStr <$> remaining_indices))].
End with_world.
End delete_index.

(** * retrieve_endpoint.py *)

Module retrieve_endpoint.
Section with_world.
Context {W : Type}.
Variable respond : service W.

(** A Python function that reaches its end returns [None]: so do the two
    [except] branches. *)
Definition get_opensearch_endpoint (domain_name region : pystr)
    : M W pyval :=
  boto3_client "es" region;;
  try_except
    (print stdout [Lit "Attempting to describe OpenSearch domain: ";
                   Fmt (PyStr domain_name)];;
     response ← call respond (DescribeElasticsearchDomain region domain_name);
     print stdout [Lit "Domain description retrieved successfully"];;
     domain_status ← lift (py_getitem response "DomainStatus");
     endpoint ← lift (py_get domain_status "Endpoint" PyNone);
     if py_truthy endpoint then
       print stdout [Lit "Endpoint: "; Fmt endpoint];;
       mret endpoint
     else
       print stderr [Lit "No endpoint found for the domain."];;
       mret PyNone)
    (fun e =>
       if is_ClientError e then
         print stderr [Lit "ClientError: "; FmtExn e];;
         mret PyNone
       else
         print stderr [Lit "An error occurred during script execution: ";
                       FmtExn e];;
         mret PyNone).

Definition main (domain_name region_name : pystr) : M W bool :=
  try_except
    (endpoint ← get_opensearch_endpoint domain_name region_name;
     if py_truthy endpoint then
       print stdout [Lit "Script executed successfully"];;
       mret true
     else
       print stderr [Lit "No endpoint returned."];;
       mret false)
    (fun e =>
       print stderr [Lit "An error occurred during script execution: ";
                     FmtExn e];;
       mret false).
End with_world.
End retrieve_endpoint.

(** * retrieve_secret.py *)

Module retrieve_secret.
Section with_world.
Context {W : Type}.
Variable respond : service W.

(** [json.loads] on a string: the decoded value, or [None] where it raises
    [JSONDecodeError]. *)
Variable json_loads : pystr -> option pyval.

(** [json.loads(v)] for any value: only a string can be decoded. *)
Definition loads (v : pyval) : exn + pyval :=
  match v with
  | PyStr s =>
      match json_loads s with
      | Some x => inr x
      | None => inl JSONDecodeError
      end
  | _ => inl TypeError
  end.

(** The loop of [get_secret_name], which returns at the first match. *)
Fixpoint find_secret (secret_pattern : pystr) (secrets : list pyval)
    : M W pyval :=
  match secrets with
  | [] =>
      log WARNING [Lit "No secret found matching pattern: ";
                   Fmt (PyStr secret_pattern)];;
      mret PyNone
  | secret :: rest =>
      name ← lift (py_getitem secret "Name");
      found ← lift (py_contains_str secret_pattern name);
      if found : bool then
        log INFO [Lit "Found matching secret: "; Fmt name];;
        mret name
      else find_secret secret_pattern rest
  end.

Definition get_secret_name (region_name domain_name : pystr) : M W pyval :=
  boto3_client "secretsmanager" region_name;;
  try_except_only is_ClientError
    (log INFO [Lit "Attempting to list secrets in region ";
               Fmt (PyStr region_name)];;
     response ← call respond (ListSecrets region_name);
     secrets ← lift (py_getitem response "SecretList");
     let secret_pattern := domain_name in
     secrets ← lift (py_iter secrets);
     find_secret secret_pattern secrets)
    (fun e =>
       log ERROR [Lit "An error occurred while listing secrets: "; FmtExn e];;
       raise e).

(** The line logged for one key of a JSON secret. *)
Definition masked_line (key : pystr) (n : nat) : list fragment :=
  [Lit "  "; Fmt (PyStr key); Lit ": "; Fmt (PyStr (stars n))].

(** The inner [try] of [get_secret]: what is logged about a retrieved
    secret. *)
Definition log_masked (secret : pyval) : M W unit :=
  try_except_only is_JSONDecodeError
    (secret_dict ← lift (loads secret);
     log INFO [Lit "Secret contents (key-value pairs):"];;
     items ← lift (py_items secret_dict);
     for_ items (fun '(key, value) =>
       n ← lift (py_len value);
       log INFO (masked_line key n)))
    (fun _ =>
       log INFO [Lit "Secret is not in JSON format. Raw secret (masked):"];;
       n ← lift (py_len secret);
       log INFO [Fmt (PyStr (stars n))]).

Definition get_secret : M W pyval :=
  let region_name : pystr := "eu-central-1" in
  let domain_name : pystr := "rag" in
  secret_name ← get_secret_name region_name domain_name;
  boto3_client "secretsmanager" region_name;;
  get_secret_value_response ←
    try_except_only is_ClientError
      (log INFO [Lit "Attempting to retrieve secret: "; Fmt secret_name];;
       call respond (GetSecretValue region_name secret_name))
      (fun e =>
         log ERROR [Lit "An error occurred: "; FmtExn e];;
         raise e);
  secret ← lift (py_getitem get_secret_value_response "SecretString");
  log INFO [Lit "Secret retrieved successfully"];;
  log_masked secret;;
  mret secret.
End with_world.
End retrieve_secret.

(** * create_index.py *)

Module create_index.
Section with_world.
Context {W : Type}.
Variable respond : service W.

(** The index settings and mappings. *)
Definition index_body : pyval :=
  PyDict [
    (str "settings", PyDict [
      (str "index", PyDict [
        (str "number_of_shards", PyInt 3);
        (str "number_of_replicas", PyInt 2);
        (str "knn", PyBool true);
        (str "knn.space_type", PyStr "cosinesimil")])]);
    (str "mappings", PyDict [
      (str "properties", PyDict [
        (str "text", PyDict [
          (str "type", PyStr "text");
          (str "analyzer", PyStr "standard")]);
        (str "vector_field", PyDict [
          (str "type", PyStr "knn_vector");
          (str "dimension", PyInt 1536)])])])].

Definition create_index (host index_name username : pystr)
    (password : pyval) : M W unit :=
  try_except
    (response ← call respond (IndicesCreate index_name index_body);
     log INFO [Lit "Index '"; Fmt (PyStr index_name);
               Lit "' created successfully: "; Fmt response])
    (fun e =>
       log ERROR [Lit "Error creating index: "; FmtExn e];;
       raise e).
End with_world.

(** The dimension the mapping declares for [vector_field]. *)
Definition dimension : Z := 1536.
End create_index.

(** * ask_question.py *)

Module ask_question.
Section with_world.
Context {W : Type}.
Variable respond : service W.
Variable json_loads : pystr -> option pyval.

(** The LangChain embeddings client: it holds the model ID. *)
Definition bedrock_embeddings (bedrock_embedding_model_id : pystr)
    : M W pystr :=
  log INFO [Lit "Creating LangChain vector embedding using Bedrock model: ";
            Fmt (PyStr bedrock_embedding_model_id)];;
  mret bedrock_embedding_model_id.

(** The LangChain vector store: what [OpenSearchVectorSearch] is built
    from. *)
Record vector_store : Type := VectorStore {
  store_index_name : pystr;
  embedding_function : pystr;
  opensearch_url : list fragment;
  http_auth : pystr * pyval;
  timeout : Z;
  retry_on_timeout : bool;
  max_retries : Z
}.

Definition opensearch_vectorstore (index_name : pystr)
    (opensearch_password : pyval) (bedrock_embeddings_client : pystr)
    (opensearch_endpoint : pyval) : M W vector_store :=
  log INFO [Lit "Creating OpenSearch vector search client for index: ";
            Fmt (PyStr index_name)];;
  mret (VectorStore index_name bedrock_embeddings_client
          [Lit "https://"; Fmt opensearch_endpoint]
          (index_name, opensearch_password) 30 true 3).

(** The LangChain chat model: the model ID and its arguments. *)
Definition model_kwargs : dict :=
  [(str "temperature", PyInt 0); (str "topP", PyFloat 0.3)].

Definition bedrock_llm (bedrock_model_id : pystr) : M W (pystr * dict) :=
  log INFO [Lit "Creating Bedrock LLM with model: ";
            Fmt (PyStr bedrock_model_id)];;
  mret (bedrock_model_id, model_kwargs).

(** The query LangChain's OpenSearch store sends for a similarity search:
    the [k] nearest neighbours of [vector] in the field [vector_field]. *)
Definition knn_query (vector : pyval) (k : Z) : pyval :=
  PyDict [
    (str "size", PyInt k);
    (str "query", PyDict [
      (str "knn", PyDict [
        (str "vector_field", PyDict [
          (str "vector", vector); (str "k", PyInt k)])])])].

(** [vectorstore.as_retriever()], invoked: LangChain embeds the query with
    the store's embedding function and searches the index by that vector,
    for its default of four documents. *)
Definition retrieve (store : vector_store) (query : pystr) : M W pyval :=
  embedding ← call respond (EmbedQuery (embedding_function store)
                                       (PyStr query));
  call respond (Search (store_index_name store) (knn_query embedding 4)).

(** [retrieval_chain.invoke({"input": question})]: LangChain retrieves,
    fills [{context}] and [{input}] of the prompt, and invokes the model. *)
Definition retrieval_chain_invoke (store : vector_store)
    (llm : pystr * dict) (input : pystr) : M W pyval :=
  context ← retrieve store input;
  answer ← call respond (InvokeModel llm.1 llm.2 context input);
  mret (PyDict [(str "input", PyStr input); (str "context", context);
                (str "answer", answer)]).

Definition question : pystr := " Can you describe the React approach?".

Definition main : M W unit :=
  log INFO [Lit "Starting the LangChain with Bedrock and OpenSearch workflow..."];;
  let bedrock_model_id : pystr := "amazon.titan-text-lite-v1" in
  let bedrock_embedding_model_id : pystr := "amazon.titan-embed-text-v1" in
  let region : pystr := "eu-central-1" in
  let index_name : pystr := "rag" in
  let domain_name : pystr := "rag" in
  log INFO [Lit "Creating Bedrock client with model ";
            Fmt (PyStr bedrock_model_id); Lit ", and embeddings with ";
            Fmt (PyStr bedrock_embedding_model_id)];;
  boto3_client "bedrock-runtime" region;;
  llm ← bedrock_llm bedrock_model_id;
  embeddings ← bedrock_embeddings bedrock_embedding_model_id;
  host ← retrieve_endpoint.get_opensearch_endpoint respond domain_name region;
  password ← retrieve_secret.get_secret respond json_loads;
  vectorstore ← opensearch_vectorstore index_name password embeddings host;
  response ← retrieval_chain_invoke vectorstore llm question;
  answer ← lift (py_get response "answer" PyNone);
  log INFO [Lit "The answer from Bedrock "; Fmt (PyStr bedrock_model_id);
            Lit " is: "; Fmt answer].
End with_world.
End ask_question.

(** * Worlds to run the scripts in *)

(** A service that answers from a script, as a mock with a [side_effect]
    list does in the tests: each request takes the next entry, whatever the
    request is; past the end of the script the connection fails. *)
Definition side_effect : service (list (exn + pyval)) :=
  fun _ script =>
    match script with
    | answer :: script' => (answer, script')
    | [] => (inl (OtherException "ConnectionError" []), [])
    end.

(** A search cluster, as far as the scripts use one: each index holds its
    documents in the order they arrived.  A document indexed without an ID
    gets a new one; a document indexed under an ID replaces the document of
    that ID, if there is one.  [accepts] is the validation of a body against
    the mapping. *)
Module cluster.
Inductive doc_id : Type := AutoId (n : nat) | GivenId (s : pystr).

Global Instance doc_id_eq_dec : EqDecision doc_id.
Proof. solve_decision. Defined.

Record t : Type := Cluster {
  indices : gmap pystr (list (doc_id * dict));
  next_id : nat
}.

Definition empty : t := Cluster ∅ 0.

Definition documents (index : pystr) (c : t) : list (doc_id * dict) :=
  default [] (indices c !! index).

Definition count (index : pystr) (c : t) : nat :=
  length (documents index c).

(** Replace the body stored under [id], if any. *)
Fixpoint replace_doc (id : doc_id) (body : dict)
    (docs : list (doc_id * dict)) : option (list (doc_id * dict)) :=
  match docs with
  | [] => None
  | (id', body') :: docs' =>
      if decide (id' = id) then Some ((id, body) :: docs')
      else cons (id', body') <$> replace_doc id body docs'
  end.

Definition created : pyval := PyDict [(str "result", PyStr "created")].
Definition updated : pyval := PyDict [(str "result", PyStr "updated")].
Definition acknowledged : pyval := PyDict [(str "acknowledged", PyBool true)].

Definition respond (accepts : dict -> bool) : service t :=
  fun r c =>
    match r with
    | IndexDocument index None body =>
        if accepts body then
          (inr created,
           Cluster (<[index := documents index c ++ [(AutoId (next_id c), body)]]>
                      (indices c))
                   (S (next_id c)))
        else (inl (OtherException "RequestError" "mapper_parsing_exception"), c)
    | IndexDocument index (Some id) body =>
        if accepts body then
          match replace_doc (GivenId id) body (documents index c) with
          | Some docs =>
              (inr updated, Cluster (<[index := docs]> (indices c)) (next_id c))
          | None =>
              (inr created,
               Cluster (<[index := documents index c ++ [(GivenId id, body)]]>
                          (indices c))
                       (next_id c))
          end
        else (inl (OtherException "RequestError" "mapper_parsing_exception"), c)
    | IndicesCreate index _ =>
        match indices c !! index with
        | Some _ =>
            (inl (OtherException "RequestError"
                    "resource_already_exists_exception"), c)
        | None =>
            (inr acknowledged, Cluster (<[index := []]> (indices c)) (next_id c))
        end
    | IndicesDelete index =>
        match indices c !! index with
        | Some _ =>
            (inr acknowledged, Cluster (delete index (indices c)) (next_id c))
        | None =>
            (inl (OtherException "NotFoundError" "index_not_found_exception"), c)
        end
    | IndicesGetAlias _ =>
        (inr (PyDict ((fun kv => (kv.1, PyDict [(str "aliases", PyDict [])]))
                        <$> map_to_list (indices c))), c)
    | _ => (inl (OtherException "ConnectionError" []), c)
    end.
End cluster.

(** * Vocabulary of the properties *)

(** The record [extract_text_from_pdf] creates for the page at position
    [page_num] (from 0) with text [text]. *)
Definition page_record (page_num : nat) (text : pystr) : dict :=
  [(str "page_number", PyInt (Z.of_nat page_num + 1));
   (str "text", PyStr (py_strip text))].

(** The line it logs for that page. *)
Definition extracted_line (page_num : nat) (text : pystr) : event :=
  Log DEBUG [Lit "Extracted text from page ";
             Fmt (PyInt (Z.of_nat page_num + 1)); Lit ": ";
             Fmt (PyStr (take 100 text)); Lit "..."].

Definition is_space (c : N) : Prop := py_isspace c = true.

(** [t] is [s] without the whitespace at its two ends: [s] is [t] between two
    runs of whitespace, and [t] neither starts nor ends with whitespace. *)
Definition trimmed_from (s t : pystr) : Prop :=
  (exists l r, s = l ++ t ++ r /\ Forall is_space l /\ Forall is_space r) /\
  (forall c, head t = Some c -> py_isspace c = false) /\
  (forall c, last t = Some c -> py_isspace c = false).

(** A PDF of two pages, whatever the path. *)
Definition two_page_pdf : pystr -> unit -> exn + list pystr :=
  fun _ _ => inr [str "  Hello world "; str "React approach described here"].

Definition generating_line (page_number : pyval) : event :=
  Log DEBUG [Lit "Generating embedding for page "; Fmt page_number].

Definition embedding_created_line (page_number first5 : pyval) : event :=
  Log DEBUG [Lit "Embedding created for page "; Fmt page_number; Lit ": ";
             Fmt first5; Lit "..."].

Definition embedding_error_line (page_number : pyval) (e : exn) : event :=
  Log ERROR [Lit "Error creating embedding for page "; Fmt page_number;
             Lit ": "; FmtExn e].

(** A record is as it was, or as it was with [vector_field] set. *)
Definition vector_field_set (d d' : dict) : Prop :=
  d' = d \/ exists embedding, d' = dict_set "vector_field" embedding d.

(** Every page of the list is a record of the heap that has a page number. *)
Definition pages_numbered (h : list dict) (pages : list loc) : Prop :=
  forall page, page ∈ pages ->
    exists d page_number,
      h !! page = Some d /\ dict_lookup "page_number" d = Some page_number.

(** The body [ingest_data] sends for a page record: [page.get('text')] and
    [page.get('vector_field')], [None] for a key the record lacks. *)
Definition page_document (d : dict) : dict :=
  ingest_docs_with_embeddings.document_of
    (default PyNone (dict_lookup "text" d))
    (default PyNone (dict_lookup "vector_field" d)).

(** The request [ingest_data] sends for a page record: no document ID. *)
Definition index_request (index_name : pystr) (d : dict) : request :=
  IndexDocument index_name None (page_document d).

Definition titan_embed : pystr := "amazon.titan-embed-text-v1".

Definition hello_page : dict :=
  [(str "page_number", PyInt 1); (str "text", PyStr "Hello world")].

Definition react_page : dict :=
  [(str "page_number", PyInt 2);
   (str "text", PyStr "React approach described here")].

(** The embedding of the mocked model in the tests. *)
Definition mock_embedding : pyval :=
  PyList [PyFloat 0.1; PyFloat 0.2; PyFloat 0.3].

(** What LangChain raises when the model call fails. *)
Definition endpoint_error : exn :=
  ValueError "Error raised by inference endpoint".

Definition accept_all : dict -> bool := fun _ => true.

(** The names that do not start with a dot, in order. *)
Definition non_system (names : list pystr) : list pystr :=
  filter (fun name => py_startswith "." name = false) names.

(** Whether the service's answer to a delete request counts as a success for
    [delete_opensearch_index]: a response whose [acknowledged] is true. *)
Definition acknowledges (answer : exn + pyval) : bool :=
  match answer with
  | inr response =>
      match py_getitem response "acknowledged" with
      | inr v => py_truthy v
      | inl _ => false
      end
  | inl _ => false
  end.

(** The indices whose deletion fails when the names are gone through in
    order from the world [w]. *)
Fixpoint failed_deletions {W} (respond : service W) (names : list pystr)
    (w : W) : list pystr :=
  match names with
  | [] => []
  | name :: rest =>
      if py_startswith "." name then failed_deletions respond rest w
      else
        let answer := respond (IndicesDelete name) w in
        if acknowledges answer.1 then failed_deletions respond rest answer.2
        else name :: failed_deletions respond rest answer.2
  end.

Definition failed_line (index : pystr) : list fragment :=
  [Lit "Failed to delete index: "; Fmt (PyStr index)].

Definition skipping_line (index : pystr) : list fragment :=
  [Lit "Skipping system index: "; Fmt (PyStr index)].

(** The indices of the bulk deletion scenario, as [get_alias] lists them. *)
Definition three_indices : pyval :=
  PyDict [(str ".kibana", PyDict []); (str "rag", PyDict []);
          (str "rag-test", PyDict [])].

(** A cluster that lists the three indices, fails to delete the first it is
    asked to, deletes the second, and lists what remains. *)
Definition deletion_script : list (exn + pyval) :=
  [inr three_indices;
   inl (OtherException "TransportError" "index is blocked");
   inr cluster.acknowledged;
   inr (PyDict [(str ".kibana", PyDict []); (str "rag", PyDict [])])].

(** The endpoint of the tests. *)
Definition rag_endpoint : pystr :=
  "search-rag-abcdef123456.eu-central-1.es.amazonaws.com".

(** The description of a domain that has this endpoint. *)
Definition rag_domain : pyval :=
  PyDict [(str "DomainStatus", PyDict [(str "Endpoint", PyStr rag_endpoint)])].


(** [len(v)] where [v] has one: on the other values [len] raises
    [TypeError]. *)
Definition len_of (v : pyval) : option nat :=
  match py_len v with inr n => Some n | inl _ => None end.

(** What [get_secret] reads of the values of a JSON secret: the keys, and
    for each value its [len], if it has one. *)
Definition value_lengths (d : dict) : list (pystr * option nat) :=
  (fun kv => (kv.1, len_of kv.2)) <$> d.


(** The lines logged for the keys of a JSON secret, up to the first value
    without a [len]. *)
Fixpoint masked_lines (lengths : list (pystr * option nat))
    : (exn + unit) * list event :=
  match lengths with
  | [] => (inr tt, [])
  | (key, Some n) :: rest =>
      (fst (masked_lines rest),
       Log INFO (retrieve_secret.masked_line key n) :: snd (masked_lines rest))
  | (key, None) :: _ => (inl TypeError, [])
  end.

Definition contents_line : event :=
  Log INFO [Lit "Secret contents (key-value pairs):"].

Definition not_json_line : event :=
  Log INFO [Lit "Secret is not in JSON format. Raw secret (masked):"].





(** A text between double quotes. *)
Definition quoted (s : string) : pystr := [34%N] ++ str s ++ [34%N].

(** The text of a JSON object of a user name and a password. *)
Definition credentials_json (username password : string) : pystr :=
  str "{" ++ quoted "username" ++ str ": " ++ quoted username ++ str ", "
  ++ quoted "password" ++ str ": " ++ quoted password ++ str "}".

(** [repr] and [float] on the numbers of the mocked embedding; no other
    number with a fraction occurs in the examples. *)
Definition repr_examples (f : float) : pystr :=
  if (f =? 0.1)%float then str "0.1"
  else if (f =? 0.2)%float then str "0.2"
  else if (f =? 0.3)%float then str "0.3"
  else str "0.0".

Definition float_examples (s : pystr) : float :=
  if decide (s = str "0.1") then 0.1%float
  else if decide (s = str "0.2") then 0.2%float
  else if decide (s = str "0.3") then 0.3%float
  else 0%float.

(** [json.loads] in the examples. *)
Definition json_decoder : pystr -> option pyval := json.loads float_examples.

(** A secret store that holds one secret, named [rag-test]. *)
Definition vault (secret : pystr) : service unit :=
  fun r w =>
    match r with
    | ListSecrets _ =>
        (inr (PyDict [(str "SecretList",
                       PyList [PyDict [(str "Name", PyStr "rag-test")]])]), w)
    | GetSecretValue _ _ =>
        (inr (PyDict [(str "Name", PyStr "rag-test");
                      (str "SecretString", PyStr secret)]), w)
    | _ => (inl (OtherException "ConnectionError" []), w)
    end.

(** The search request of the query pipeline for a query embedding. *)
Definition search_request (embedding : pyval) : request :=
  Search "rag" (ask_question.knn_query embedding 4).

(** The request that embeds the question. *)
Definition embed_question : request :=
  EmbedQuery titan_embed (PyStr ask_question.question).

(** What the search service answers to a vector of the wrong dimension. *)
Definition dimension_mismatch : exn :=
  OtherException "RequestError" "Query vector has invalid dimension: 3. Dimension should be: 1536".

(** The services as the query pipeline meets them when the embedding model
    returns the three numbers of the mocked model: the endpoint, the list of
    secrets, the secret, the embedding, and the refusal of the search. *)
Definition mismatch_script : list (exn + pyval) :=
  [inr rag_domain;
   inr (PyDict [(str "SecretList",
                 PyList [PyDict [(str "Name", PyStr "rag-test")]])]);
   inr (PyDict [(str "SecretString", PyStr "correct horse")]);
   inr mock_embedding;
   inl dimension_mismatch].

(** The outcome of one turn of the loop of [create_embeddings] on a page whose
    record is [d], with page number [page_number], by the cases of the
    source: no text, a failed call, an embedding. *)
Definition embed_page_outcome {W} (respond : service W) (model_id : pystr) (page : loc) (d : dict)
    (page_number : pyval) (s : state W) : outcome W unit :=
  match dict_lookup "text" d with
  | None =>
      Outcome (inr tt) s
        [generating_line page_number;
         embedding_error_line page_number (KeyError "text")]
  | Some text =>
      match respond (EmbedQuery model_id text) (world s) with
      | (inl e, w) =>
          Outcome (inr tt) (State w (heap s))
            [generating_line page_number; Call (EmbedQuery model_id text);
             embedding_error_line page_number e]
      | (inr embedding, w) =>
          Outcome (inr tt)
            (State w (<[page := dict_set "vector_field" embedding d]> (heap s)))
            [generating_line page_number; Call (EmbedQuery model_id text);
             match py_slice_to 5 embedding with
             | inr first5 => embedding_created_line page_number first5
             | inl e => embedding_error_line page_number e
             end]
      end
  end.

(** The pages whose document the cluster accepts. *)
Definition accepted (accepts : dict -> bool) (records : list dict) : list dict :=
  filter (fun d => accepts (page_document d)) records.

(** The word "cafe" with an acute accent on its last letter (U+00E9), and
    what it becomes when its UTF-8 bytes are read as code page 1252. *)
Definition cafe : pystr := str "caf" ++ [0xE9%N].

Definition cafe_misread : pystr := str "caf" ++ [0xC3%N; 0xA9%N].

(** A word that ends with a right double quotation mark (U+201D). *)
Definition quoted_end : pystr := str "so" ++ [0x201D%N].

(** The pages of a document of one page with this text, embedded. *)
Definition one_page (text : pystr) : pyval :=
  PyList [PyDict [(str "page_number", PyInt 1); (str "text", PyStr text);
                  (str "vector_field", mock_embedding)]].

(** * Vocabulary of the further properties *)

Definition attempting_to_list (region_name : pystr) : event :=
  Log INFO [Lit "Attempting to list secrets in region "; Fmt (PyStr region_name)].

Definition found_line (name : pystr) : event :=
  Log INFO [Lit "Found matching secret: "; Fmt (PyStr name)].

Definition no_secret_line (pattern : pystr) : event :=
  Log WARNING [Lit "No secret found matching pattern: "; Fmt (PyStr pattern)].

(** A listed secret whose name is a string without the pattern. *)
Definition other_secret (pattern : pystr) (secret : pyval) : Prop :=
  exists name,
    py_getitem secret "Name" = inr (PyStr name) /\
    py_substring pattern name = false.

(** A secret store that lists three secrets. *)
Definition three_secrets : service unit :=
  fun r w =>
    match r with
    | ListSecrets _ =>
        (inr (PyDict [(str "SecretList",
                       PyList [PyDict [(str "Name", PyStr "prod-db")];
                               PyDict [(str "Name", PyStr "opensearch-rag-master")];
                               PyDict [(str "Name", PyStr "rag-test")]])]), w)
    | _ => (inl (OtherException "ConnectionError" []), w)
    end.

(** A secret store in which no secret is listed. *)
Definition empty_vault : service unit :=
  fun r w =>
    match r with
    | ListSecrets _ => (inr (PyDict [(str "SecretList", PyList [])]), w)
    | GetSecretValue _ PyNone =>
        (inl (OtherException "ParamValidationError" []), w)
    | _ => (inl (OtherException "ConnectionError" []), w)
    end.

(** A value that has a [len]. *)
Definition sized (v : pyval) : Prop := is_Some (len_of v).

(** A cluster that cannot be reached by the first request, and lists three
    indices at the second. *)
Definition relisting_script : list (exn + pyval) :=
  [inl (OtherException "ConnectionError" []); inr three_indices].

(** What [ingest_data] reads in the answer to an index request: the result
    it logs, or the exception of the turn. *)
Definition index_result (answer : exn + pyval) : exn + pyval :=
  match answer with
  | inr response => py_getitem response "result"
  | inl e => inl e
  end.

Definition indexed_line (d : dict) (result : pyval) : event :=
  Log INFO [Lit "Indexed page ";
            Fmt (default PyNone (dict_lookup "page_number" d));
            Lit ": "; Fmt result].

(** The two lines logged for a page that could not be indexed. *)
Definition index_error_lines (d : dict) (e : exn) : list (list fragment) :=
  [[Lit "Error indexing page ";
    Fmt (default PyNone (dict_lookup "page_number" d)); Lit ": "; FmtExn e];
   [Lit "Problematic page data: "; Fmt (PyDict d)]].

(** The pages whose turn ends in an exception, with the exception, when the
    pages are gone through in order from the world [w]. *)
Fixpoint failed_pages {W} (respond : service W) (index_name : pystr)
    (records : list dict) (w : W) : list (dict * exn) :=
  match records with
  | [] => []
  | d :: rest =>
      let answer := respond (index_request index_name d) w in
      match index_result answer.1 with
      | inl e => (d, e) :: failed_pages respond index_name rest answer.2
      | inr _ => failed_pages respond index_name rest answer.2
      end
  end.

(** The records after [create_embeddings], when the records [ds] are
    embedded in order from the world [w]: a record gets the embedding the
    model returned for its text, a record whose call failed (or that has no
    text) is as it was. *)
Fixpoint embedded_records {W} (respond : service W) (model_id : pystr)
    (ds : list dict) (w : W) : list dict :=
  match ds with
  | [] => []
  | d :: rest =>
      match dict_lookup "text" d with
      | Some text =>
          let answer := respond (EmbedQuery model_id text) w in
          match answer.1 with
          | inr embedding => dict_set "vector_field" embedding d
          | inl _ => d
          end :: embedded_records respond model_id rest answer.2
      | None => d :: embedded_records respond model_id rest w
      end
  end.

(** The world after these calls. *)
Fixpoint embedded_world {W} (respond : service W) (model_id : pystr)
    (ds : list dict) (w : W) : W :=
  match ds with
  | [] => w
  | d :: rest =>
      match dict_lookup "text" d with
      | Some text =>
          embedded_world respond model_id rest
            (respond (EmbedQuery model_id text) w).2
      | None => embedded_world respond model_id rest w
      end
  end.

(** The embedding model answers once and fails the second time. *)
Definition two_answers : list (exn + pyval) :=
  [inr mock_embedding; inl endpoint_error].

(** The page [page] is the record [d] of the heap, and [d] has a page
    number. *)
Definition page_in {W} (s : state W) (page : loc) (d : dict) : Prop :=
  heap s !! page = Some d /\ is_Some (dict_lookup "page_number" d).

(** * The entry points *)

(** [sep.join(l)] *)
Fixpoint py_join (sep : pystr) (l : list pystr) : pystr :=
  match l with
  | [] => []
  | [x] => x
  | x :: l' => x ++ sep ++ py_join sep l'
  end.

(** ** generate_embeddings.py: [main] *)

Module generate_embeddings_main.
Import generate_embeddings.
Section with_world.
Context {W : Type}.
Variable fitz_open : pystr -> W -> exn + document.
Variable respond : service W.

(** [with open(path, "w", encoding="utf-8") as f: json.dump(v, f,
    ensure_ascii=False, indent=2)]: the world with the file written, or the
    exception and the world it leaves. *)
Variable json_dump : pystr -> pyval -> W -> (exn + unit) * W.

(** The pages as [json.dump] reads them: the dicts at the locations, as they
    are at that time. *)
Fixpoint snapshot (pages : list loc) : M W (list pyval) :=
  match pages with
  | [] => mret []
  | page :: rest =>
      d ← deref page;
      ds ← snapshot rest;
      mret (PyDict d :: ds)
  end.

Definition write (output_file : pystr) (data : pyval) : M W unit :=
  fun s =>
    match json_dump output_file data (world s) with
    | (res, w) => Outcome res (State w (heap s)) []
    end.

Definition dump (output_file : pystr) (pages : list loc) : M W unit :=
  data ← snapshot pages;
  write output_file (PyList data).

Definition pdf_path : pystr := "../data/document.pdf".
Definition output_file : pystr := "../data/text_with_embeddings.json".

Definition main : M W unit :=
  let region_name : pystr := "eu-central-1" in
  let bedrock_embedding_model_id : pystr := "amazon.titan-embed-text-v1" in
  log INFO [Lit "Starting the main process."];;
  try_except
    (boto3_client "bedrock-runtime" region_name;;
     log INFO [Lit "Created Bedrock client in region ";
               Fmt (PyStr region_name); Lit "."])
    (fun e =>
       log ERROR [Lit "Failed to create Bedrock client: "; FmtExn e];;
       raise e);;
  extracted_pages ← extract_text_from_pdf fitz_open pdf_path;
  pages_with_embeddings ←
    create_embeddings respond extracted_pages bedrock_embedding_model_id;
  log INFO [Lit "Saving extracted text and embeddings to ";
            Fmt (PyStr output_file); Lit "."];;
  try_except
    (dump output_file pages_with_embeddings;;
     log INFO [Lit "Data successfully saved to "; Fmt (PyStr output_file);
               Lit "."])
    (fun e =>
       log ERROR [Lit "Failed to save data to "; Fmt (PyStr output_file);
                  Lit ": "; FmtExn e];;
       raise e);;
  match pages_with_embeddings with
  | first_page :: _ =>
      log INFO [Lit "Displaying sample of the first page."];;
      page_number ← getitem first_page "page_number";
      log INFO [Lit "Page Number: "; Fmt page_number];;
      text ← getitem first_page "text";
      content ← lift (py_slice_to 200 text);
      log INFO [Lit "Content (first 200 characters): "; Fmt content;
                Lit "..."];;
      vector_field ← getitem first_page "vector_field";
      first5 ← lift (py_slice_to 5 vector_field);
      log INFO [Lit "Embedding (first 5 values): "; Fmt first5; Lit "..."]
  | [] => mret tt
  end;;
  log INFO [Lit "Main process completed."].
End with_world.
End generate_embeddings_main.

(** ** ingest_docs_with_embeddings.py: [get_opensearch_endpoint], [main] *)

Module ingest_docs_with_embeddings_main.
Import ingest_docs_with_embeddings.
Section with_world.
Context {W : Type}.
Variable respond : service W.

(** [open(path, 'r')] and [f.read()], before decoding: the bytes of the
    file, or the exception of [open]. *)
Variable read_file : pystr -> W -> exn + codecs.bytes.

(** The encoding of the platform, and [float] on a JSON number. *)
Variable locale : codecs.encoding.
Variable float_of_literal : pystr -> float.

(** The lookup of the endpoint in this script and in create_index.py: it
    raises where the one of retrieve_endpoint.py returns [None]. *)
Definition get_opensearch_endpoint (domain_name region_name : pystr)
    : M W pyval :=
  boto3_client "es" region_name;;
  try_except
    (response ←
       call respond (DescribeElasticsearchDomain region_name domain_name);
     domain_status ← lift (py_getitem response "DomainStatus");
     lift (py_getitem domain_status "Endpoint"))
    (fun e =>
       log ERROR [Lit "Error retrieving OpenSearch endpoint: "; FmtExn e];;
       raise e).

Definition data_file : pystr := "../data/text_with_embeddings.json".

(** [with open(path, 'r') as f: data = json.load(f)] *)
Definition load_data : M W pyval :=
  fun s =>
    match read_file data_file (world s) with
    | inr file => lift (load locale float_of_literal file) s
    | inl e => raise e s
    end.

Definition main : M W unit :=
  let region_name : pystr := "eu-central-1" in
  let domain_name : pystr := "rag" in
  let index_name : pystr := "rag" in
  try_except
    (host ← get_opensearch_endpoint domain_name region_name;
     log INFO [Lit "OpenSearch endpoint: "; Fmt host];;
     password ← retrieve_secret.get_secret respond (json.loads float_of_literal);
     data ← load_data;
     log INFO [Lit "Loaded data type: "; FmtType data];;
     match data with
     | PyList (first :: _ as pages) =>
         keys ← lift (py_keys first);
         log INFO [Lit "First item keys: "; Fmt (PyStr (py_join ", " keys))];;
         log INFO [Lit "Number of pages: ";
                   Fmt (PyInt (Z.of_nat (length pages)))]
     | _ => log WARNING [Lit "Data is empty or not in the expected format"]
     end;;
     ingest_data respond index_name data;;
     log INFO [Lit "Data ingestion completed successfully"])
    (fun e =>
       log ERROR [Lit "An error occurred during script execution: ";
                  FmtExn e]).
End with_world.
End ingest_docs_with_embeddings_main.

(** The lines [main] of generate_embeddings.py logs from the saving of the
    file on, when the first page has the text [text] and no embedding. *)
Definition sample_lines (text : pystr) : list (list fragment) :=
  [[Lit "Data successfully saved to ";
    Fmt (PyStr generate_embeddings_main.output_file); Lit "."];
   [Lit "Displaying sample of the first page."];
   [Lit "Page Number: "; Fmt (PyInt 1)];
   [Lit "Content (first 200 characters): ";
    Fmt (PyStr (take 200 (py_strip text))); Lit "..."]].

(** A disk: what has been dumped, with its path, the latest first. *)
Definition dump_to_disk (path : pystr) (data : pyval)
    (disk : list (pystr * pyval)) : (exn + unit) * list (pystr * pyval) :=
  (inr tt, (path, data) :: disk).

(** A service that cannot be reached. *)
Definition unreachable {W} : service W :=
  fun _ w => (inl (OtherException "ConnectionError" []), w).

(** An embedding model that has an embedding for one text only. *)
Definition knows_hello {W} : service W :=
  fun r w =>
    match r with
    | EmbedQuery _ (PyStr text) =>
        if decide (text = str "Hello world") then (inr mock_embedding, w)
        else (inl endpoint_error, w)
    | _ => (inl (OtherException "ConnectionError" []), w)
    end.

(** A PDF of two pages, whatever the path and the world. *)
Definition hello_pdf {W} : pystr -> W -> exn + list pystr :=
  fun _ _ => inr [str "  Hello world "; str "React approach described here"].

(** The requests that index a document. *)
Definition is_index_request (r : request) : bool :=
  match r with IndexDocument _ _ _ => true | _ => false end.

(** The index requests of a trace. *)
Definition index_requests (t : list event) : list request :=
  filter (fun r => is_index_request r = true) (requests t).

(** The services as the ingestion meets them when the cluster times out:
    the endpoint, the list of secrets, the secret, and no answer to the
    index request. *)
Definition ingestion_script : list (exn + pyval) :=
  [inr rag_domain;
   inr (PyDict [(str "SecretList",
                 PyList [PyDict [(str "Name", PyStr "rag-test")]])]);
   inr (PyDict [(str "SecretString", PyStr "correct horse")]);
   inl (OtherException "ConnectionTimeout" [])].

(** The file of a document of one page, as it is saved. *)
Definition cafe_file : codecs.bytes :=
  match generate_embeddings.save repr_examples (one_page cafe) with
  | inr file => file
  | inl _ => []
  end.

(** The record of that page. *)
Definition cafe_record : dict :=
  [(str "page_number", PyInt 1); (str "text", PyStr cafe);
   (str "vector_field", mock_embedding)].

(** A directory without the file. *)
Definition no_file {W} : pystr -> W -> exn + codecs.bytes :=
  fun _ _ => inl (OtherException "FileNotFoundError" []).

(** A computation that leaves the state as it is. *)
Definition keeps_state {W A} (m : M W A) : Prop := forall s, final (m s) = s.

(** The request of the query pipeline to the language model, with the
    context the search returned. *)
Definition invoke_request (context : pyval) : request :=
  InvokeModel "amazon.titan-text-lite-v1" ask_question.model_kwargs context
    ask_question.question.

Definition answer_line (answer : pyval) : event :=
  Log INFO [Lit "The answer from Bedrock ";
            Fmt (PyStr "amazon.titan-text-lite-v1"); Lit " is: "; Fmt answer].

(** The services as the query pipeline meets them when all of them answer:
    the endpoint, the list of secrets, the secret, the embedding, the
    documents found, the answer of the model. *)
Definition answering_script : list (exn + pyval) :=
  [inr rag_domain;
   inr (PyDict [(str "SecretList",
                 PyList [PyDict [(str "Name", PyStr "rag-test")]])]);
   inr (PyDict [(str "SecretString", PyStr "correct horse")]);
   inr mock_embedding;
   inr (PyList [PyStr "React approach described here"]);
   inr (PyStr "ReAct interleaves reasoning and acting.")].

(** * Properties *)

(** ** Running the monad *)

Section Running.
Context {W : Type}.
Implicit Types s : state W.

Lemma after_nil {A} (o : outcome W A) : after [] o = o.
Proof. by destruct o. Qed.

Lemma after_after {A} t1 t2 (o : outcome W A) :
  after t1 (after t2 o) = after (t1 ++ t2) o.
Proof. unfold after; simpl. by rewrite (assoc_L (++)). Qed.

Lemma run_bind {A B} (m : M W A) (f : A -> M W B) s :
  (m ≫= f) s =
  match value (m s) with
  | inr a => after (trace (m s)) (f a (final (m s)))
  | inl e => Outcome (inl e) (final (m s)) (trace (m s))
  end.
Proof. unfold mbind, M_bind, bind. by destruct (m s) as [[e|a] s1 t1]. Qed.

Lemma value_bind {A B} (m : M W A) (f : A -> M W B) s :
  value ((m ≫= f) s) =
  match value (m s) with
  | inr a => value (f a (final (m s)))
  | inl e => inl e
  end.
Proof. rewrite run_bind. by destruct (value (m s)). Qed.

Lemma final_bind {A B} (m : M W A) (f : A -> M W B) s :
  final ((m ≫= f) s) =
  match value (m s) with
  | inr a => final (f a (final (m s)))
  | inl e => final (m s)
  end.
Proof. rewrite run_bind. by destruct (value (m s)). Qed.

Lemma trace_bind {A B} (m : M W A) (f : A -> M W B) s :
  trace ((m ≫= f) s) =
  trace (m s) ++
  match value (m s) with
  | inr a => trace (f a (final (m s)))
  | inl e => []
  end.
Proof.
  rewrite run_bind. destruct (value (m s)); simpl; [|done].
  by rewrite app_nil_r.
Qed.

Lemma bind_assoc {A B C} (m : M W A) (f : A -> M W B) (g : B -> M W C) s :
  ((m ≫= f) ≫= g) s = (m ≫= fun a => f a ≫= g) s.
Proof.
  unfold mbind, M_bind, bind.
  destruct (m s) as [[e|a] s1 t1]; [done|].
  destruct (f a s1) as [[e|b] s2 t2]; simpl; [done|].
  by rewrite after_after.
Qed.

Lemma for_app {A} (xs ys : list A) (body : A -> M W unit) s :
  for_ (xs ++ ys) body s = (for_ xs body ≫= fun _ => for_ ys body) s.
Proof.
  revert s. induction xs as [|x xs IH]; intros s; simpl.
  - unfold mbind, M_bind, bind, ret. simpl. symmetry. apply after_nil.
  - change (bind (body x) (fun _ => for_ (xs ++ ys) body) s)
      with ((body x ≫= fun _ => for_ (xs ++ ys) body) s).
    change (bind (body x) (fun _ => for_ xs body))
      with (body x ≫= fun _ => for_ xs body).
    rewrite bind_assoc. rewrite !run_bind.
    destruct (value (body x s)); [done|]. by rewrite IH, run_bind.
Qed.

Lemma run_call (respond : service W) r s :
  call respond r s
  = Outcome (respond r (world s)).1
            (State (respond r (world s)).2 (heap s)) [Call r].
Proof. unfold call. by destruct (respond r (world s)). Qed.

Lemma run_boto3_client service_name region_name s :
  boto3_client (W := W) service_name region_name s
  = if validate_region_name region_name then Outcome (inr tt) s []
    else Outcome (inl (InvalidRegionError region_name)) s [].
Proof. unfold boto3_client. by destruct (validate_region_name _). Qed.

Lemma with_client {A} service_name region_name (m : M W A) s :
  validate_region_name region_name = true ->
  (boto3_client service_name region_name;; m) s = m s.
Proof.
  intros Hvalid. rewrite run_bind, run_boto3_client, Hvalid.
  cbn [value final trace]. apply after_nil.
Qed.

Lemma without_client {A} service_name region_name (m : M W A) s :
  validate_region_name region_name = false ->
  (boto3_client service_name region_name;; m) s
  = Outcome (inl (InvalidRegionError region_name)) s [].
Proof.
  intros Hvalid. by rewrite run_bind, run_boto3_client, Hvalid.
Qed.

Lemma eu_central_1 : validate_region_name "eu-central-1" = true.
Proof. reflexivity. Qed.

Lemma run_client_eu_central_1 service_name s :
  boto3_client (W := W) service_name "eu-central-1" s = Outcome (inr tt) s [].
Proof. by rewrite run_boto3_client. Qed.

Lemma requests_app t1 t2 : requests (t1 ++ t2) = requests t1 ++ requests t2.
Proof. apply omap_app. Qed.

Lemma logged_app lvl t1 t2 :
  logged lvl (t1 ++ t2) = logged lvl t1 ++ logged lvl t2.
Proof. apply omap_app. Qed.
End Running.

(** ** Dictionaries *)

Section Dict.
Implicit Types d : dict.

Lemma dict_lookup_set_eq k v d : dict_lookup k (dict_set k v d) = Some v.
Proof.
  induction d as [|[k' v'] d IH]; simpl.
  - by rewrite decide_True.
  - destruct (decide (k' = k)); simpl.
    + by rewrite decide_True.
    + by rewrite decide_False.
Qed.

Lemma dict_lookup_set_ne k k' v d :
  k <> k' -> dict_lookup k' (dict_set k v d) = dict_lookup k' d.
Proof.
  intros Hne. induction d as [|[k1 v1] d IH]; simpl.
  - by rewrite decide_False.
  - destruct (decide (k1 = k)) as [->|]; simpl.
    + by rewrite !decide_False.
    + by rewrite IH.
Qed.

Lemma dict_set_set k v1 v2 d :
  dict_set k v2 (dict_set k v1 d) = dict_set k v2 d.
Proof.
  induction d as [|[k1 v1'] d IH]; simpl.
  - by rewrite decide_True.
  - destruct (decide (k1 = k)); simpl.
    + by rewrite decide_True.
    + by rewrite decide_False, IH.
Qed.

Lemma vector_field_set_refl d : vector_field_set d d.
Proof. by left. Qed.

Lemma vector_field_set_trans d1 d2 d3 :
  vector_field_set d1 d2 -> vector_field_set d2 d3 -> vector_field_set d1 d3.
Proof.
  intros [->|[v1 ->]] [->|[v2 ->]]; [by left | right; eauto ..].
  rewrite dict_set_set. eauto.
Qed.

Lemma vector_field_set_lookup d d' k :
  vector_field_set d d' -> k <> str "vector_field" ->
  dict_lookup k d' = dict_lookup k d.
Proof.
  intros [->|[v ->]] Hk; [done|]. by apply dict_lookup_set_ne.
Qed.

End Dict.

(** ** Text extraction *)

Section Strip.

Lemma py_lstrip_spec (s : pystr) :
  exists l, s = l ++ py_lstrip s /\ Forall is_space l /\
            forall c, head (py_lstrip s) = Some c -> py_isspace c = false.
Proof.
  induction s as [|c s (l & Hs & Hl & Hhead)]; simpl.
  - exists []. repeat split; [constructor | done].
  - destruct (py_isspace c) eqn:Hc.
    + exists (c :: l). repeat split; [by rewrite Hs at 1 | by constructor | done].
    + exists []. repeat split; [constructor | ]. simpl. by intros ? [= <-].
Qed.

Lemma py_strip_spec (s : pystr) : trimmed_from s (py_strip s).
Proof.
  unfold trimmed_from, py_strip, py_rstrip.
  destruct (py_lstrip_spec s) as (l & Hs & Hl & Hhead).
  destruct (py_lstrip_spec (reverse (py_lstrip s))) as (r & Ht & Hr & Hlast).
  set (t := py_lstrip s) in *. set (u := py_lstrip (reverse t)) in *.
  assert (Htu : t = reverse u ++ reverse r).
  { rewrite <- reverse_app, <- Ht. by rewrite reverse_involutive. }
  split; [|split].
  - exists l, (reverse r). split; [by rewrite <- Htu|].
    split; [done|]. by apply Forall_reverse.
  - intros c Hc. apply Hhead. rewrite Htu.
    destruct (reverse u); [done|]. done.
  - intros c Hc. apply Hlast. by rewrite last_reverse in Hc.
Qed.

End Strip.

Section Extraction.
Context {W : Type}.
Variable fitz_open : pystr -> W -> exn + generate_embeddings.document.
Import generate_embeddings.

Lemma run_extract_pages (before rest : list pystr) pages (s : state W) :
  extract_pages (before ++ rest) (seq (length before) (length rest)) pages s =
  Outcome (inr (pages ++ seq (length (heap s)) (length rest)))
          (State (world s)
                 (heap s ++ imap (fun i => page_record (length before + i)) rest))
          (imap (fun i => extracted_line (length before + i)) rest).
Proof.
  revert before pages s. induction rest as [|text rest IH]; intros before pages s.
  - simpl. rewrite !app_nil_r. by destruct s.
  - specialize (IH (before ++ [text])).
    rewrite <- (assoc_L (++)), length_app in IH. simpl in IH.
    rewrite Nat.add_1_r in IH.
    assert (Hrec : imap ((fun i => page_record (length before + i)) ∘ S) rest
                   = imap (fun i => page_record (S (length before) + i)) rest)
      by (apply imap_ext; intros i x _; simpl; f_equal; lia).
    assert (Hlog : imap ((fun i => extracted_line (length before + i)) ∘ S) rest
                   = imap (fun i => extracted_line (S (length before) + i)) rest)
      by (apply imap_ext; intros i x _; simpl; f_equal; lia).
    simpl. unfold get_text. rewrite list_lookup_middle by done.
    unfold mbind, M_bind, bind, mret, M_ret, ret, alloc, log, emit. simpl.
    rewrite IH, Hrec, Hlog. unfold after. simpl.
    rewrite length_app, Nat.add_1_r, Nat.add_0_r, <- !(assoc_L (++)).
    reflexivity.
Qed.

Lemma run_extract_text_from_pdf pdf_path (s : state W) doc :
  fitz_open pdf_path (world s) = inr doc ->
  extract_text_from_pdf fitz_open pdf_path s =
  Outcome (inr (seq (length (heap s)) (length doc)))
          (State (world s) (heap s ++ imap page_record doc))
          ([Log INFO [Lit "Opening PDF file: "; Fmt (PyStr pdf_path)];
            Log INFO [Lit "PDF file opened successfully."];
            Log INFO [Lit "Extracting text from ";
                      Fmt (PyInt (Z.of_nat (length doc))); Lit " pages."]]
           ++ imap extracted_line doc
           ++ [Log INFO [Lit "Text extraction completed for ";
                         Fmt (PyInt (Z.of_nat (length doc))); Lit " pages."]]).
Proof.
  intros Hopen. unfold extract_text_from_pdf.
  pose proof (run_extract_pages [] doc [] s) as Hloop. simpl in Hloop.
  unfold mbind, M_bind, bind, mret, M_ret, ret, log, emit, try_except,
    open_pdf, lift, after in *.
  simpl. rewrite Hopen. simpl. rewrite Hloop. simpl.
  by rewrite length_seq.
Qed.

(** C4.  For every PDF that opens with N pages, [extract_text_from_pdf]
    returns N page records in document order; the record at position i
    (from 0) has [page_number] i + 1 and, as [text], the text of the page
    without the whitespace at its two ends; it has these two keys and no
    [vector_field]. *)
Theorem extract_text_from_pdf_pages pdf_path (s : state W) doc :
  fitz_open pdf_path (world s) = inr doc ->
  exists pages,
    value (extract_text_from_pdf fitz_open pdf_path s) = inr pages /\
    length pages = length doc /\
    forall i text, doc !! i = Some text ->
      exists page record,
        pages !! i = Some page /\
        heap (final (extract_text_from_pdf fitz_open pdf_path s)) !! page
          = Some record /\
        record = [(str "page_number", PyInt (Z.of_nat i + 1));
                  (str "text", PyStr (py_strip text))] /\
        trimmed_from text (py_strip text) /\
        dict_lookup "vector_field" record = None.
Proof.
  intros Hopen. rewrite (run_extract_text_from_pdf _ _ _ Hopen). simpl.
  eexists. split; [reflexivity|]. split; [apply length_seq|].
  intros i text Hi. exists (length (heap s) + i), (page_record i text).
  split; [|split; [|split; [|split]]].
  - apply lookup_seq. split; [done|]. by eapply lookup_lt_Some.
  - rewrite lookup_app_r. 2:{ lia. }
    replace (length (heap s) + i - length (heap s)) with i by lia.
    by rewrite list_lookup_imap, Hi.
  - done.
  - apply py_strip_spec.
  - done.
Qed.

End Extraction.

(** A PDF of two pages gives two page records. *)
Lemma extract_text_from_pdf_pages_witness :
  exists pages,
    value (generate_embeddings.extract_text_from_pdf two_page_pdf
             "../data/document.pdf" (State tt [])) = inr pages /\
    length pages = 2.
Proof.
  destruct (extract_text_from_pdf_pages two_page_pdf "../data/document.pdf"
              (State tt []) _ eq_refl) as (pages & Hv & Hlen & _).
  exists pages. split; [exact Hv | exact Hlen].
Defined.

(** ** Ingestion *)

Section Ingestion.
Context {W : Type}.
Variable respond : service W.
Import ingest_docs_with_embeddings.
Implicit Types s : state W.

Lemma ingest_page_dict index_name d s :
  let o := ingest_page respond index_name (PyDict d) s in
  value o = inr tt /\
  final o = State (respond (index_request index_name d) (world s)).2 (heap s) /\
  requests (trace o) = [index_request index_name d].
Proof.
  unfold ingest_page, index_request, page_document.
  unfold call, log, emit, try_except, lift, py_get, py_getitem,
    mbind, M_bind, bind, mret, M_ret, ret, raise, after.
  simpl.
  destruct (respond _ (world s)) as [[e|response] w]; simpl; [done|].
  destruct response; simpl; try done.
  destruct (dict_lookup "result" d0); done.
Qed.

Lemma run_ingest_pages index_name records s :
  let o := for_ (PyDict <$> records) (ingest_page respond index_name) s in
  value o = inr tt /\
  heap (final o) = heap s /\
  requests (trace o) = index_request index_name <$> records.
Proof.
  simpl. revert s. induction records as [|d records IH]; intros s.
  - done.
  - destruct (ingest_page_dict index_name d s) as (Hv & Hf & Hr).
    destruct (IH (final (ingest_page respond index_name (PyDict d) s)))
      as (Hv' & Hh' & Hr').
    rewrite fmap_cons. cbn [for_].
    change (bind ?m ?f s) with ((m ≫= f) s).
    rewrite value_bind, final_bind, trace_bind, Hv, requests_app, Hr.
    rewrite Hv', Hh', Hr', Hf. done.
Qed.

Lemma run_ingest_data index_name records s :
  let o := ingest_data respond index_name (PyList (PyDict <$> records)) s in
  value o = inr tt /\
  heap (final o) = heap s /\
  requests (trace o) = index_request index_name <$> records.
Proof. apply run_ingest_pages. Qed.

End Ingestion.

Section Cluster.
Import ingest_docs_with_embeddings.

Lemma cluster_index_count accepts index_name d c :
  cluster.count index_name
    (cluster.respond accepts (index_request index_name d) c).2
  = cluster.count index_name c + (if accepts (page_document d) then 1 else 0).
Proof.
  unfold index_request. simpl. destruct (accepts (page_document d)); simpl.
  - unfold cluster.count, cluster.documents at 1. simpl.
    rewrite lookup_insert_eq. simpl. by rewrite length_app.
  - lia.
Qed.

Lemma cluster_ingest_count accepts index_name records (s : state cluster.t) :
  cluster.count index_name
    (world (final (ingest_data (cluster.respond accepts) index_name
                     (PyList (PyDict <$> records)) s)))
  = cluster.count index_name (world s) + length (accepted accepts records).
Proof.
  simpl. revert s. induction records as [|d records IH]; intros s.
  - simpl. lia.
  - destruct (ingest_page_dict (cluster.respond accepts) index_name d s)
      as (Hv & Hf & _).
    rewrite fmap_cons. cbn [for_].
    change (bind ?m ?f s) with ((m ≫= f) s).
    rewrite final_bind, Hv, IH, Hf. cbn [world].
    rewrite cluster_index_count. unfold accepted. rewrite filter_cons.
    destruct (accepts (page_document d)) eqn:Hacc.
    + simpl. lia.
    + simpl. lia.
Qed.

End Cluster.

Section Ingestion_claims.
Context {W : Type}.
Variable respond : service W.
Import ingest_docs_with_embeddings.

(** C5.  For every list of page records, the requests [ingest_data] sends are,
    page by page, an index request whose body has exactly the two keys
    [text] and [vector_field], with the values [page.get] gives for them in
    the page record ([None] for a key the record lacks); [page_number] is
    not in the body. *)
Theorem ingest_data_document_body index_name records (s : state W) :
  requests (trace (ingest_data respond index_name
                     (PyList (PyDict <$> records)) s))
  = (fun d => IndexDocument index_name None
                [(str "text", default PyNone (dict_lookup "text" d));
                 (str "vector_field",
                  default PyNone (dict_lookup "vector_field" d))])
    <$> records /\
  forall d, dict_keys (page_document d) = [str "text"; str "vector_field"] /\
            dict_lookup "page_number" (page_document d) = None.
Proof.
  split; [|done].
  by destruct (run_ingest_data respond index_name records s) as (_ & _ & ->).
Qed.

(** C2.  Ingestion is not idempotent.  For every list of page records, a run of
    [ingest_data] sends one index request per page, and none carries a
    document ID; a second run on the same index sends them all again.  On a
    cluster, where a document without ID gets a new one, each run adds as
    many documents as there are pages the mapping accepts: the count of an
    index that was empty doubles at the second run. *)
Theorem ingestion_not_idempotent index_name records (s : state W)
    (accepts : dict -> bool) (c : cluster.t) (h : list dict) :
  let data := PyList (PyDict <$> records) in
  let first := ingest_data respond index_name data s in
  let second := ingest_data respond index_name data (final first) in
  let first_c :=
    ingest_data (cluster.respond accepts) index_name data (State c h) in
  let second_c :=
    ingest_data (cluster.respond accepts) index_name data (final first_c) in
  let n := length (accepted accepts records) in
  (requests (trace first) = index_request index_name <$> records /\
   requests (trace second) = index_request index_name <$> records) /\
  (cluster.count index_name (world (final first_c))
   = cluster.count index_name c + n /\
   cluster.count index_name (world (final second_c))
   = cluster.count index_name c + 2 * n) /\
  (cluster.count index_name c = 0 ->
   cluster.count index_name (world (final second_c))
   = 2 * cluster.count index_name (world (final first_c))).
Proof.
  intros data first second first_c second_c n.
  pose proof (cluster_ingest_count accepts index_name records (State c h))
    as H1.
  pose proof (cluster_ingest_count accepts index_name records (final first_c))
    as H2.
  fold data first_c in H1, H2. fold second_c n in H1, H2. simpl in H1.
  split; [split|split; [split|]].
  - apply (run_ingest_data respond index_name records s).
  - apply (run_ingest_data respond index_name records (final first)).
  - exact H1.
  - lia.
  - lia.
Qed.

End Ingestion_claims.

(** ** Embeddings *)

Section Embedding.
Context {W : Type}.
Variable respond : service W.
Import generate_embeddings.
Implicit Types s : state W.

Lemma run_embed_page model_id page d page_number (s : state W) :
  heap s !! page = Some d ->
  dict_lookup "page_number" d = Some page_number ->
  embed_page respond model_id page s
  = embed_page_outcome respond model_id page d page_number s.
Proof.
  intros Hd Hpn. unfold embed_page, embed_page_outcome.
  unfold getitem, setitem, deref, call, log, emit, try_except, lift, py_getitem,
    mbind, M_bind, bind, mret, M_ret, ret, raise, after.
  simpl. rewrite Hd. simpl. rewrite Hpn. simpl. rewrite Hd. simpl.
  destruct (dict_lookup "text" d) as [text|]; simpl.
  - destruct (respond (EmbedQuery model_id text) (world s)) as [[e|embedding] w];
      simpl.
    + rewrite Hd. simpl. rewrite Hpn. simpl. done.
    + rewrite Hd. simpl.
      rewrite list_lookup_insert_eq by (by eapply lookup_lt_Some). simpl.
      rewrite dict_lookup_set_ne by done. rewrite Hpn. simpl.
      destruct (py_slice_to 5 embedding); simpl; [|done].
      rewrite list_lookup_insert_eq by (by eapply lookup_lt_Some). simpl.
      rewrite dict_lookup_set_ne by done. rewrite Hpn. done.
  - rewrite Hd. simpl. rewrite Hpn. done.
Qed.

Lemma pages_numbered_framed h h' pages :
  Forall2 vector_field_set h h' ->
  pages_numbered h pages -> pages_numbered h' pages.
Proof.
  intros Hframe Hpages page Hin.
  destruct (Hpages page Hin) as (d & pn & Hd & Hpn).
  destruct (Forall2_lookup_l _ _ _ _ _ Hframe Hd) as (d' & Hd' & Hset).
  exists d', pn. split; [done|].
  by rewrite (vector_field_set_lookup _ _ _ Hset).
Qed.

Lemma embed_page_frame model_id page d page_number s :
  heap s !! page = Some d ->
  dict_lookup "page_number" d = Some page_number ->
  value (embed_page respond model_id page s) = inr tt /\
  Forall2 vector_field_set (heap s)
          (heap (final (embed_page respond model_id page s))).
Proof.
  intros Hd Hpn. rewrite (run_embed_page _ _ _ _ _ Hd Hpn).
  unfold embed_page_outcome.
  assert (Hrefl : Forall2 vector_field_set (heap s) (heap s))
    by (apply Forall_Forall2_diag, Forall_forall; intros; apply vector_field_set_refl).
  destruct (dict_lookup "text" d) as [text|]; [|done].
  destruct (respond _ _) as [[e|embedding] w]; simpl; [done|].
  split; [done|].
  rewrite <- (list_insert_id (heap s) page d Hd) at 1.
  apply Forall2_insert; [done|]. right. eauto.
Qed.

Lemma for_embed_page_frame model_id pages s :
  pages_numbered (heap s) pages ->
  value (for_ pages (embed_page respond model_id) s) = inr tt /\
  Forall2 vector_field_set (heap s)
          (heap (final (for_ pages (embed_page respond model_id) s))).
Proof.
  revert s. induction pages as [|page pages IH]; intros s Hpages; simpl.
  - split; [done|].
    apply Forall_Forall2_diag, Forall_forall; intros; apply vector_field_set_refl.
  - destruct (Hpages page) as (d & pn & Hd & Hpn); [by left|].
    destruct (embed_page_frame model_id page d pn s Hd Hpn) as [Hv Hframe].
    change (bind ?m ?f s) with ((m ≫= f) s).
    rewrite value_bind, final_bind, Hv.
    destruct (IH (final (embed_page respond model_id page s))) as [Hv' Hframe'].
    { eapply pages_numbered_framed; [done|].
      intros p Hp. apply Hpages. by right. }
    split; [done|].
    eapply Forall2_trans; [|done..].
    intros ???. apply vector_field_set_trans.
Qed.

Lemma embed_page_untouched model_id page d page_number s l :
  heap s !! page = Some d ->
  dict_lookup "page_number" d = Some page_number ->
  l <> page ->
  heap (final (embed_page respond model_id page s)) !! l = heap s !! l.
Proof.
  intros Hd Hpn Hl. rewrite (run_embed_page _ _ _ _ _ Hd Hpn).
  unfold embed_page_outcome.
  destruct (dict_lookup "text" d) as [text|]; [|done].
  destruct (respond _ _) as [[e|embedding] w]; simpl; [done|].
  by apply list_lookup_insert_ne.
Qed.

Lemma for_embed_page_untouched model_id pages s l :
  pages_numbered (heap s) pages ->
  l ∉ pages ->
  heap (final (for_ pages (embed_page respond model_id) s)) !! l = heap s !! l.
Proof.
  revert s. induction pages as [|page pages IH]; intros s Hpages Hl; [done|].
  destruct (Hpages page) as (d & pn & Hd & Hpn); [by left|].
  destruct (embed_page_frame model_id page d pn s Hd Hpn) as [Hv Hframe].
  cbn [for_]. change (bind ?m ?f s) with ((m ≫= f) s).
  rewrite final_bind, Hv, IH.
  - apply (embed_page_untouched _ _ _ _ _ _ Hd Hpn). set_solver.
  - eapply pages_numbered_framed; [done|]. intros p Hp. apply Hpages. by right.
  - set_solver.
Qed.

Lemma run_create_embeddings pages model_id s :
  create_embeddings respond pages model_id s =
  let o := for_ pages (embed_page respond model_id) s in
  Outcome (match value o with inr _ => inr pages | inl e => inl e end)
          (final o)
          (Log INFO [Lit "Creating embeddings using model: ";
                     Fmt (PyStr model_id)]
           :: trace o ++
           match value o with
           | inr _ => [Log INFO [Lit "Embeddings creation completed."]]
           | inl _ => []
           end).
Proof.
  unfold create_embeddings, mbind, M_bind, bind, mret, M_ret, ret, log, emit,
    after.
  simpl. destruct (for_ pages (embed_page respond model_id) s) as [[e|[]] s1 t1];
    simpl; [|done].
  by rewrite app_nil_r.
Qed.

(** C10.  For every list of pages (records of the heap that have a page
    number), [create_embeddings] returns the list it was given: the same
    pages, as many, in the same order.  Every record of the heap is, after
    the run, the record it was or that record with [vector_field] set: its
    [page_number] and its [text] are what they were.  A record that is not
    in the list is not touched. *)
Theorem create_embeddings_frame pages model_id s :
  pages_numbered (heap s) pages ->
  value (create_embeddings respond pages model_id s) = inr pages /\
  length (heap (final (create_embeddings respond pages model_id s)))
  = length (heap s) /\
  forall page d,
    heap s !! page = Some d ->
    exists d',
      heap (final (create_embeddings respond pages model_id s)) !! page
      = Some d' /\
      (d' = d \/ exists embedding, d' = dict_set "vector_field" embedding d) /\
      dict_lookup "page_number" d' = dict_lookup "page_number" d /\
      dict_lookup "text" d' = dict_lookup "text" d /\
      (page ∉ pages -> d' = d).
Proof.
  intros Hpages. rewrite run_create_embeddings. cbv zeta.
  cbn [value final trace].
  destruct (for_embed_page_frame model_id pages s Hpages)
    as [Hv Hframe].
  rewrite Hv. split; [done|].
  split; [symmetry; by eapply Forall2_length|].
  intros page d Hd.
  destruct (Forall2_lookup_l _ _ _ _ _ Hframe Hd) as (d' & Hd' & Hset).
  exists d'. split; [done|]. split; [exact Hset|].
  split; [by apply vector_field_set_lookup|].
  split; [by apply vector_field_set_lookup|].
  intros Hnotin.
  rewrite (for_embed_page_untouched model_id pages s page Hpages Hnotin) in Hd'.
  congruence.
Qed.

(** C1, amended.  Let the embedding call fail for a page: the page that comes
    after the pages [before], whose turn starts in the state [s1].  Then
    [create_embeddings] does not abort.  It logs an ERROR line with the page
    number and the exception, what follows is the run of its loop on the
    remaining pages, and it returns all the pages.  The failed turn leaves
    the record as it was: so it is at the end, if the page is not listed
    again later.  The page is not excluded from ingestion: for a record that
    has no [vector_field], [ingest_data] sends the index request with the
    body [{text, vector_field: None}]. *)
Theorem embedding_failure_skips_page before page rest model_id s d
    page_number text e w :
  let pages := before ++ page :: rest in
  let s1 := final (for_ before (embed_page respond model_id) s) in
  let s2 := State w (heap s1) in
  let remaining := for_ rest (embed_page respond model_id) s2 in
  let o := create_embeddings respond pages model_id s in
  pages_numbered (heap s) pages ->
  heap s1 !! page = Some d ->
  dict_lookup "page_number" d = Some page_number ->
  dict_lookup "text" d = Some text ->
  respond (EmbedQuery model_id text) (world s1) = (inl e, w) ->
  value o = inr pages /\
  trace o
  = Log INFO [Lit "Creating embeddings using model: "; Fmt (PyStr model_id)]
    :: trace (for_ before (embed_page respond model_id) s)
    ++ [generating_line page_number; Call (EmbedQuery model_id text);
        embedding_error_line page_number e]
    ++ trace remaining
    ++ [Log INFO [Lit "Embeddings creation completed."]] /\
  final o = final remaining /\
  (page ∉ rest -> heap (final o) !! page = Some d) /\
  forall index_name records i (s' : state W),
    records !! i = Some d ->
    dict_lookup "vector_field" d = None ->
    requests (trace (ingest_docs_with_embeddings.ingest_data respond index_name
                       (PyList (PyDict <$> records)) s')) !! i
    = Some (IndexDocument index_name None
              [(str "text", text); (str "vector_field", PyNone)]).
Proof.
  intros pages s1 s2 remaining o Hpages Hd Hpn Htext Hfail.
  assert (Hbefore : pages_numbered (heap s) before).
  { intros p Hp. apply Hpages. unfold pages. set_solver. }
  assert (Hrest : pages_numbered (heap s) rest).
  { intros p Hp. apply Hpages. unfold pages. set_solver. }
  destruct (for_embed_page_frame model_id before s Hbefore)
    as [Hv1 Hframe1]. fold s1 in Hframe1.
  assert (Hrest2 : pages_numbered (heap s2) rest)
    by (by eapply pages_numbered_framed).
  destruct (for_embed_page_frame model_id rest s2 Hrest2)
    as [Hv2 _]. fold remaining in Hv2.
  assert (Hturn : embed_page respond model_id page s1
                  = Outcome (inr tt) s2
                      [generating_line page_number;
                       Call (EmbedQuery model_id text);
                       embedding_error_line page_number e]).
  { rewrite (run_embed_page _ _ _ _ _ Hd Hpn). unfold embed_page_outcome.
    by rewrite Htext, Hfail. }
  assert (Hloop : for_ pages (embed_page respond model_id) s
                  = Outcome (inr tt) (final remaining)
                      (trace (for_ before (embed_page respond model_id) s)
                       ++ [generating_line page_number;
                           Call (EmbedQuery model_id text);
                           embedding_error_line page_number e]
                       ++ trace remaining)).
  { unfold pages. rewrite for_app, run_bind, Hv1. fold s1. cbn [for_].
    unfold bind. rewrite Hturn. fold remaining.
    unfold after. simpl. rewrite Hv2. done. }
  unfold o. rewrite run_create_embeddings. cbv zeta.
  rewrite Hloop. cbn [value final trace].
  split; [done|]. split.
  { by rewrite <- !(assoc_L (++)). }
  split; [done|]. split.
  - intros Hnotin. unfold remaining.
    rewrite for_embed_page_untouched by done. done.
  - intros index_name records i s' Hi Hvf.
    destruct (run_ingest_data respond index_name records s') as (_ & _ & ->).
    rewrite list_lookup_fmap, Hi. simpl.
    unfold index_request, page_document,
      ingest_docs_with_embeddings.document_of.
    by rewrite Htext, Hvf.
Qed.

End Embedding.

(** C1 as stated fails.  The embedding of the only page fails and is logged,
    the page has no [vector_field], and [ingest_data] sends a document for
    it, which the cluster stores. *)
Lemma failed_page_is_ingested :
  let o := generate_embeddings.create_embeddings side_effect [0] titan_embed
             (State [inl endpoint_error] [hello_page]) in
  let ingestion :=
    ingest_docs_with_embeddings.ingest_data (cluster.respond accept_all) "rag"
      (PyList (PyDict <$> heap (final o))) (State cluster.empty []) in
  value o = inr [0] /\
  logged ERROR (trace o) =
    [[Lit "Error creating embedding for page "; Fmt (PyInt 1); Lit ": ";
      FmtExn endpoint_error]] /\
  heap (final o) = [hello_page] /\
  dict_lookup "vector_field" hello_page = None /\
  requests (trace ingestion) =
    [IndexDocument "rag" None
       [(str "text", PyStr "Hello world"); (str "vector_field", PyNone)]] /\
  cluster.documents "rag" (world (final ingestion)) =
    [(cluster.AutoId 0,
      [(str "text", PyStr "Hello world"); (str "vector_field", PyNone)])].
Proof. vm_compute. repeat split. Qed.

Lemma pages_numbered_two :
  pages_numbered [hello_page; react_page] [0; 1].
Proof.
  intros page Hin. apply elem_of_cons in Hin as [->|Hin].
  - by exists hello_page, (PyInt 1).
  - apply elem_of_cons in Hin as [->|Hin]; [|by apply elem_of_nil in Hin].
    by exists react_page, (PyInt 2).
Defined.

(** Two pages, of which the second cannot be embedded. *)
Lemma create_embeddings_frame_witness :
  pages_numbered [hello_page; react_page] [0; 1] /\
  value (generate_embeddings.create_embeddings side_effect [0; 1] titan_embed
           (State [inr mock_embedding; inl endpoint_error]
                  [hello_page; react_page]))
  = inr [0; 1].
Proof.
  split; [exact pages_numbered_two|].
  apply (create_embeddings_frame side_effect [0; 1] titan_embed
           (State [inr mock_embedding; inl endpoint_error]
                  [hello_page; react_page]) pages_numbered_two).
Defined.

(** Two pages, of which the first cannot be embedded. *)
Lemma embedding_failure_skips_page_witness :
  let o := generate_embeddings.create_embeddings side_effect [0; 1] titan_embed
             (State [inl endpoint_error; inr mock_embedding]
                    [hello_page; react_page]) in
  value o = inr [0; 1] /\
  heap (final o) !! 0 = Some hello_page.
Proof.
  destruct (embedding_failure_skips_page side_effect [] 0 [1] titan_embed
              (State [inl endpoint_error; inr mock_embedding]
                     [hello_page; react_page])
              hello_page (PyInt 1) (PyStr "Hello world") endpoint_error
              [inr mock_embedding]
              pages_numbered_two eq_refl eq_refl eq_refl eq_refl)
    as (Hv & _ & _ & Hkept & _).
  split; [exact Hv|]. apply Hkept. 
  intros Hin. apply elem_of_cons in Hin as [Hin|Hin]; [discriminate|].
  by apply elem_of_nil in Hin.
Defined.

(** ** Deletion of indices *)

Section Deletion.
Context {W : Type}.
Variable respond : service W.
Import delete_index.
Implicit Types s : state W.

Lemma run_delete_opensearch_index index_name s :
  let answer := respond (IndicesDelete index_name) (world s) in
  let o := delete_opensearch_index respond index_name s in
  (exists v, value o = inr v /\ py_truthy v = acknowledges answer.1 /\
             forall e, answer.1 = inl e -> v = PyBool false) /\
  final o = State answer.2 (heap s) /\
  requests (trace o) = [IndicesDelete index_name] /\
  logged WARNING (trace o) = [].
Proof.
  unfold delete_opensearch_index, acknowledges.
  unfold call, log, emit, try_except, lift, py_getitem,
    mbind, M_bind, bind, mret, M_ret, ret, raise, after.
  simpl.
  destruct (respond _ (world s)) as [[e|response] w]; simpl.
  { split; [by eexists|done]. }
  destruct response; simpl; try (split; [by eexists|done]).
  destruct (dict_lookup "acknowledged" d); simpl; (split; [by eexists|done]).
Qed.

Lemma run_delete_unless_system index s :
  let answer := respond (IndicesDelete index) (world s) in
  let o := delete_unless_system respond index s in
  value o = inr tt /\
  (if py_startswith "." index then
     o = Outcome (inr tt) s [Log INFO (skipping_line index)]
   else
     final o = State answer.2 (heap s) /\
     requests (trace o) = [IndicesDelete index] /\
     logged WARNING (trace o)
     = if acknowledges answer.1 then [] else [failed_line index]).
Proof.
  unfold delete_unless_system.
  destruct (py_startswith "." index); [done|].
  destruct (run_delete_opensearch_index index s)
    as ((v & Hv & Hack & _) & Hf & Hr & Hw).
  cbv zeta. rewrite value_bind, final_bind, !trace_bind, Hv, Hack.
  rewrite requests_app, logged_app, Hr, Hw, Hf.
  destruct (acknowledges _); done.
Qed.

Lemma non_system_cons name names :
  non_system (name :: names)
  = if py_startswith "." name then non_system names
    else name :: non_system names.
Proof.
  unfold non_system. rewrite filter_cons.
  destruct (py_startswith "." name); [by rewrite decide_False|].
  by rewrite decide_True.
Qed.

Lemma run_delete_loop names s :
  let o := for_ names (delete_unless_system respond) s in
  value o = inr tt /\
  requests (trace o) = IndicesDelete <$> non_system names /\
  logged WARNING (trace o)
  = failed_line <$> failed_deletions respond names (world s) /\
  forall name, name ∈ names -> py_startswith "." name = true ->
               Log INFO (skipping_line name) ∈ trace o.
Proof.
  cbv zeta. revert s. induction names as [|name names IH]; intros s.
  - repeat split; [done..|]. intros ? Hin. by apply elem_of_nil in Hin.
  - cbn [for_ failed_deletions]. change (bind ?m ?f s) with ((m ≫= f) s).
    destruct (run_delete_unless_system name s) as [Hv Hstep].
    rewrite value_bind, !trace_bind, Hv, requests_app, logged_app.
    destruct (IH (final (delete_unless_system respond name s)))
      as (Hv' & Hr' & Hw' & Hs').
    rewrite Hv', Hr', Hw', non_system_cons.
    destruct (py_startswith "." name) eqn:Hsys.
    + rewrite Hstep. cbn [trace final requests logged omap app].
      split; [done|]. split; [done|]. split; [done|].
      intros n [->|Hin]%elem_of_cons Hn; [by left|].
      right. rewrite Hstep in Hs'. by apply Hs'.
    + destruct Hstep as (Hf & Hr & Hw). rewrite Hr, Hw, Hf. rewrite Hf in Hs'.
      split; [done|]. split; [done|]. split.
      * cbn [world]. by destruct (acknowledges _).
      * intros n [->|Hin]%elem_of_cons Hn; [congruence|].
        apply elem_of_app. right. by apply Hs'.
Qed.

Lemma run_list_all_indices s :
  let answer := respond (IndicesGetAlias "*") (world s) in
  let o := list_all_indices respond s in
  (exists names, value o = inr names /\
     forall aliases, answer.1 = inr (PyDict aliases) ->
                     names = dict_keys aliases) /\
  final o = State answer.2 (heap s) /\
  requests (trace o) = [IndicesGetAlias "*"] /\
  logged WARNING (trace o) = [].
Proof.
  unfold list_all_indices.
  unfold call, log, emit, try_except, lift, py_keys,
    mbind, M_bind, bind, mret, M_ret, ret, raise, after.
  cbn [value final trace].
  destruct (respond _ (world s)) as [[e|response] w]; cbn.
  { split; [by eexists|done]. }
  destruct response; cbn; try (split; [by eexists|done]).
  split; [|done].
  eexists. split; [done|]. by intros ? [= ->].
Qed.

(** C6.  For every list of index names the cluster lists,
    [delete_all_indices] asks for the deletion of exactly the indices whose
    name does not start with a dot, in order, between its two listings.  It
    logs the skipping of each of the others and sends no delete request for
    them.  It logs a warning for exactly the indices whose deletion failed,
    and a failure does not stop it: it never raises.
    [delete_opensearch_index] always returns, [False] when the service
    raises. *)
Theorem delete_all_indices_skips_system s aliases w :
  respond (IndicesGetAlias "*") (world s) = (inr (PyDict aliases), w) ->
  let names := dict_keys aliases in
  let o := delete_all_indices respond s in
  value o = inr tt /\
  requests (trace o)
  = IndicesGetAlias "*" :: (IndicesDelete <$> non_system names)
    ++ [IndicesGetAlias "*"] /\
  (forall name, name ∈ names -> py_startswith "." name = true ->
     Log INFO (skipping_line name) ∈ trace o /\
     IndicesDelete name ∉ requests (trace o)) /\
  (forall name, name ∈ names -> py_startswith "." name = false ->
     IndicesDelete name ∈ requests (trace o)) /\
  logged WARNING (trace o) = failed_line <$> failed_deletions respond names w /\
  (forall index s',
     exists v,
       value (delete_opensearch_index respond index s') = inr v /\
       forall e, (respond (IndicesDelete index) (world s')).1 = inl e ->
                 v = PyBool false).
Proof.
  intros Hlist names o.
  destruct (run_list_all_indices s) as ((listed & Hv1 & Hnames) & Hf1 & Hr1 & Hw1).
  rewrite Hlist in Hnames, Hf1. cbn [fst snd] in Hnames, Hf1.
  rewrite (Hnames aliases eq_refl) in Hv1. fold names in Hv1.
  set (s1 := State w (heap s)) in *.
  destruct (run_delete_loop names s1) as (Hv2 & Hr2 & Hw2 & Hskip).
  set (loop := for_ names (delete_unless_system respond) s1) in *.
  destruct (run_list_all_indices (final loop))
    as ((remaining & Hv3 & _) & _ & Hr3 & Hw3).
  assert (Hrun :
    value o = inr tt /\
    requests (trace o)
    = IndicesGetAlias "*" :: (IndicesDelete <$> non_system names)
      ++ [IndicesGetAlias "*"] /\
    logged WARNING (trace o)
    = failed_line <$> failed_deletions respond names w /\
    forall ev, ev ∈ trace loop -> ev ∈ trace o).
  { unfold o, delete_all_indices.
    repeat (rewrite ?value_bind, ?trace_bind, ?final_bind, ?Hv1, ?Hf1;
            cbn [value final trace log emit]; fold loop;
            rewrite ?Hv2, ?Hv3).
    rewrite !requests_app, !logged_app, Hr1, Hr2, Hr3, Hw1, Hw2, Hw3.
    simpl. rewrite ?app_nil_r.
    split; [done|]. split; [done|]. split; [done|]. intros ev Hev.
    apply elem_of_app. right. apply elem_of_cons. right.
    apply elem_of_app. left. done. }
  destruct Hrun as (Hv & Hr & Hw & Hsub).
  split; [done|]. split; [done|]. split; [|split; [|split; [done|]]].
  - intros name Hin Hsys. split; [by apply Hsub, Hskip|].
    rewrite Hr. intros [? | [Hd | Hd]%elem_of_app]%elem_of_cons; [done| |].
    + apply list_elem_of_fmap in Hd as (name' & [= <-] & Hd).
      apply list_elem_of_filter in Hd as [Hd _]. congruence.
    + by apply list_elem_of_singleton in Hd.
  - intros name Hin Hsys. rewrite Hr. right. apply elem_of_app. left.
    apply list_elem_of_fmap. exists name. split; [done|].
    by apply list_elem_of_filter.
  - intros index s'.
    destruct (run_delete_opensearch_index index s')
      as ((v & Hv' & _ & Hfalse) & _).
    by exists v.
Qed.

End Deletion.

(** The indices [.kibana], [rag] and [rag-test], where the deletion of [rag]
    fails: the two are asked for, and the failure is logged. *)
Lemma delete_all_indices_skips_system_witness :
  requests (trace (delete_index.delete_all_indices side_effect
                     (State deletion_script [])))
  = [IndicesGetAlias "*"; IndicesDelete "rag"; IndicesDelete "rag-test";
     IndicesGetAlias "*"] /\
  logged WARNING (trace (delete_index.delete_all_indices side_effect
                           (State deletion_script [])))
  = [failed_line "rag"].
Proof.
  destruct (delete_all_indices_skips_system side_effect
              (State deletion_script []) _ _ eq_refl)
    as (_ & Hr & _ & _ & Hw & _).
  split; [exact Hr | exact Hw].
Defined.

(** ** The endpoint *)

Section Endpoint.
Context {W : Type}.
Variable respond : service W.
Import retrieve_endpoint.
Implicit Types s : state W.

Lemma get_opensearch_endpoint_returns domain_name region s :
  validate_region_name region = true ->
  exists host,
    value (retrieve_endpoint.get_opensearch_endpoint respond domain_name region s)
    = inr host.
Proof.
  intros Hvalid.
  unfold retrieve_endpoint.get_opensearch_endpoint.
  rewrite with_client by done.
  unfold call, print, emit, try_except, lift, py_get,
    mbind, M_bind, bind, mret, M_ret, ret, raise, after.
  cbn [value final trace].
  destruct (respond _ (world s)) as [[e|response] w]; cbn [value final trace].
  { destruct (is_ClientError e); by eexists. }
  destruct (py_getitem response "DomainStatus") as [e|status];
    cbn [value final trace].
  { destruct (is_ClientError e); by eexists. }
  destruct status; cbn [value final trace]; try (by eexists).
  cbn [default from_option id]. destruct (py_truthy _); by eexists.
Qed.

(** Creating the client is not in the [try]: for a region name that botocore
    rejects, its exception leaves [get_opensearch_endpoint] before anything
    is printed or sent. *)
Lemma get_opensearch_endpoint_no_client domain_name region s :
  validate_region_name region = false ->
  get_opensearch_endpoint respond domain_name region s
  = Outcome (inl (InvalidRegionError region)) s [].
Proof.
  intros Hvalid. unfold get_opensearch_endpoint. by apply without_client.
Qed.


End Endpoint.


(** ** The secret *)

Section Masking.
Context {W : Type}.
Variable json_loads : pystr -> option pyval.
Import retrieve_secret.
Implicit Types s : state W.

Lemma run_mask_loop (d : dict) s :
  for_ d (fun '(key, value) =>
            n ← lift (py_len value);
            log (W := W) INFO (masked_line key n)) s
  = Outcome (masked_lines (value_lengths d)).1 s
            (masked_lines (value_lengths d)).2.
Proof.
  induction d as [|[key v] d IH]; [done|].
  cbn [for_ value_lengths fmap list_fmap masked_lines fst snd].
  change (bind ?m ?f s) with ((m ≫= f) s).
  rewrite run_bind, run_bind. unfold len_of.
  destruct (py_len v) as [e|n] eqn:Hlen;
    cbn [lift ret raise log emit value final trace after app].
  { destruct v; cbn in Hlen; by simplify_eq. }
  rewrite IH. done.
Qed.

Lemma masked_lines_error lengths e :
  (masked_lines lengths).1 = inl e -> e = TypeError.
Proof.
  induction lengths as [|[key [n|]] rest IH]; cbn; [done|done|congruence].
Qed.

Lemma run_log_masked secret s :
  log_masked json_loads (PyStr secret) s =
  match json_loads secret with
  | None =>
      Outcome (inr tt) s
        [not_json_line; Log INFO [Fmt (PyStr (stars (length secret)))]]
  | Some (PyDict d) =>
      Outcome (masked_lines (value_lengths d)).1 s
        (contents_line :: (masked_lines (value_lengths d)).2)
  | Some _ => Outcome (inl AttributeError) s [contents_line]
  end.
Proof.
  unfold log_masked, try_except_only, try_except, loads.
  destruct (json_loads secret) as [decoded|]; [|done].
  rewrite run_bind. cbn [lift ret value final trace]. rewrite after_nil.
  rewrite run_bind. cbn [log emit value final trace].
  rewrite run_bind.
  destruct decoded; cbn [py_items lift raise ret value final trace after app];
    try done.
  rewrite run_mask_loop. cbn [value final trace app].
  destruct (masked_lines (value_lengths d)) as [[e|[]] t] eqn:Hlines;
    cbn [fst snd]; [|done].
  rewrite (masked_lines_error (value_lengths d) e) by (by rewrite Hlines).
  unfold raise, after. cbn. by rewrite app_nil_r.
Qed.






End Masking.



(** ** The query pipeline *)


(** C3 as stated fails.  The embedding of the question has three numbers, not
    the 1536 of the mapping.  [main] does not fail before any network call:
    it looks up the endpoint and the secret, has the question embedded and
    sends the search with the three numbers; its failure is the error of the
    search service, not a [ConfigurationError]. *)
Lemma query_of_wrong_dimension_is_sent :
  py_len mock_embedding = inr 3 /\
  create_index.dimension = 1536%Z /\
  value (ask_question.main side_effect json_decoder (State mismatch_script []))
  = inl dimension_mismatch /\
  requests (trace (ask_question.main side_effect json_decoder
                     (State mismatch_script [])))
  = [DescribeElasticsearchDomain "eu-central-1" "rag";
     ListSecrets "eu-central-1";
     GetSecretValue "eu-central-1" (PyStr "rag-test");
     embed_question;
     search_request mock_embedding].
Proof. vm_compute. repeat split. Qed.

Section Query.
Context {W : Type}.
Variable respond : service W.
Variable json_loads : pystr -> option pyval.
Import ask_question.
Implicit Types s : state W.

Lemma run_retrieve store query s embedding w :
  respond (EmbedQuery (embedding_function store) (PyStr query)) (world s)
  = (inr embedding, w) ->
  let search := Search (store_index_name store) (knn_query embedding 4) in
  retrieve respond store query s
  = Outcome (respond search w).1 (State (respond search w).2 (heap s))
      [Call (EmbedQuery (embedding_function store) (PyStr query)); Call search].
Proof.
  intros Hembed.
  assert (Hcall :
    call respond (EmbedQuery (embedding_function store) (PyStr query)) s
    = Outcome (inr embedding) (State w (heap s))
        [Call (EmbedQuery (embedding_function store) (PyStr query))])
    by (unfold call; by rewrite Hembed).
  unfold retrieve. rewrite run_bind, Hcall. cbn [value final trace].
  unfold call, after. cbn [world heap]. by destruct (respond _ w).
Qed.

(** C3, amended.  The query pipeline does not check the dimension of the query
    embedding.  When the secret has been retrieved and the embedding model
    answers, with an embedding of whatever dimension, [main] sends the
    search request with that embedding, after the requests of the two
    lookups and of the embedding; and when the search service raises, its
    exception is the failure of [main], with these requests sent. *)
Theorem query_embedding_is_not_checked s password embedding w :
  let endpoint_run :=
    retrieve_endpoint.get_opensearch_endpoint respond "rag" "eu-central-1" s in
  let secret_run :=
    retrieve_secret.get_secret respond json_loads (final endpoint_run) in
  let before := requests (trace endpoint_run) ++ requests (trace secret_run) in
  value secret_run = inr password ->
  respond embed_question (world (final secret_run)) = (inr embedding, w) ->
  (exists rest,
     requests (trace (main respond json_loads s))
     = before ++ [embed_question; search_request embedding] ++ rest) /\
  (forall e,
     (respond (search_request embedding) w).1 = inl e ->
     value (main respond json_loads s) = inl e /\
     requests (trace (main respond json_loads s))
     = before ++ [embed_question; search_request embedding]).
Proof.
  intros endpoint_run secret_run before Hsecret Hembed.
  destruct (get_opensearch_endpoint_returns respond "rag" "eu-central-1" s
              eu_central_1)
    as [host Hhost]. fold endpoint_run in Hhost.
  set (store := VectorStore "rag" "amazon.titan-embed-text-v1"
                  [Lit "https://"; Fmt host] (str "rag", password) 30 true 3).
  pose proof (run_retrieve store question (final secret_run) embedding w Hembed)
    as Hretrieve. cbv zeta in Hretrieve.
  change (Search (store_index_name store) (knn_query embedding 4))
    with (search_request embedding) in Hretrieve.
  change (EmbedQuery (embedding_function store) (PyStr question))
    with embed_question in Hretrieve.
  assert (Hrun : forall o,
    o = main respond json_loads s ->
    requests (trace o)
    = before ++ [embed_question; search_request embedding]
      ++ match (respond (search_request embedding) w).1 with
         | inl _ => []
         | inr context =>
             [InvokeModel "amazon.titan-text-lite-v1" model_kwargs context
                question]
         end /\
    forall e, (respond (search_request embedding) w).1 = inl e ->
              value o = inl e).
  { intros o ->. unfold main, bedrock_llm, bedrock_embeddings,
      opensearch_vectorstore, retrieval_chain_invoke.
    destruct (respond (search_request embedding) w) as [[e|context] w'];
      cbn [fst snd] in *.
    - repeat (rewrite ?value_bind, ?trace_bind, ?final_bind,
                ?run_client_eu_central_1;
              cbn [log emit mret M_ret ret value final trace];
              fold endpoint_run; rewrite ?Hhost; fold secret_run;
              rewrite ?Hsecret; fold store; rewrite ?Hretrieve;
              cbn [value final trace fst snd]).
      rewrite !requests_app. simpl. unfold before.
      split; [by rewrite <- (assoc_L (++))|]. by intros ? [= ->].
    - split; [|done].
      repeat (rewrite ?value_bind, ?trace_bind, ?final_bind, ?run_call,
                ?run_client_eu_central_1;
              cbn [log emit mret M_ret ret value final trace];
              fold endpoint_run; rewrite ?Hhost; fold secret_run;
              rewrite ?Hsecret; fold store; rewrite ?Hretrieve;
              cbn [value final trace fst snd world heap]).
      destruct (respond (InvokeModel (str "amazon.titan-text-lite-v1")
                           model_kwargs context question) w')
        as [[e|answer] w'']; cbn [fst snd];
        repeat (rewrite ?value_bind, ?trace_bind, ?final_bind;
                cbn [log emit mret M_ret ret lift py_get value final trace]);
        rewrite !requests_app; simpl; rewrite ?app_nil_r;
        unfold before; by rewrite <- (assoc_L (++)). }
  destruct (Hrun _ eq_refl) as [Hreq Hfail].
  split.
  - eexists. rewrite Hreq. reflexivity.
  - intros e He. split; [by apply Hfail|]. by rewrite Hreq, He.
Qed.

End Query.

(** The embedding of three numbers, which the search service refuses. *)
Lemma query_embedding_is_not_checked_witness :
  value (ask_question.main side_effect json_decoder (State mismatch_script []))
  = inl dimension_mismatch /\
  requests (trace (ask_question.main side_effect json_decoder
                     (State mismatch_script [])))
  = [DescribeElasticsearchDomain "eu-central-1" "rag";
     ListSecrets "eu-central-1";
     GetSecretValue "eu-central-1" (PyStr "rag-test")]
    ++ [embed_question; search_request mock_embedding].
Proof.
  destruct (query_embedding_is_not_checked side_effect json_decoder
              (State mismatch_script []) (PyStr "correct horse")
              mock_embedding [inl dimension_mismatch] eq_refl eq_refl)
    as [_ Hrefused].
  exact (Hrefused dimension_mismatch eq_refl).
Defined.

(** ** The intermediate file *)


(** C7.  The pages are written in UTF-8, with the non-ASCII characters as
    they are, and the file reads back to equal records when it is decoded as
    UTF-8.  [main] of the ingestion opens it without an encoding.  On a
    platform whose encoding is code page 1252, a page whose text has an
    accented letter comes back with another text, and a file with a page
    whose text has a right double quotation mark cannot be read. *)
Theorem intermediate_file_read_in_cp1252 :
  (exists file,
     generate_embeddings.save repr_examples (one_page cafe) = inr file /\
     ingest_docs_with_embeddings.load codecs.utf_8 float_examples file
     = inr (one_page cafe) /\
     ingest_docs_with_embeddings.load codecs.cp1252 float_examples file
     = inr (one_page cafe_misread)) /\
  (exists file,
     generate_embeddings.save repr_examples (one_page quoted_end) = inr file /\
     ingest_docs_with_embeddings.load codecs.utf_8 float_examples file
     = inr (one_page quoted_end) /\
     ingest_docs_with_embeddings.load codecs.cp1252 float_examples file
     = inl (OtherException "UnicodeDecodeError" [])).
Proof.
  split; eexists; (split; [vm_compute; reflexivity|]);
    split; vm_compute; reflexivity.
Qed.

(** * Further properties *)

(** ** retrieve_endpoint.py: [main] *)

Section Endpoint_main.
Context {W : Type}.
Variable respond : service W.
Import retrieve_endpoint.
Implicit Types s : state W.

(** [main] of [retrieve_endpoint.py] does not raise.  It runs the lookup and
    prints one more line: the success, when the lookup returned an
    endpoint; that no endpoint was returned, when it returned [None]; and,
    in its own [except] branch, the exception of the lookup, which is the
    one of a client that could not be created for the region name.  It
    returns [True] in the first case only: the region name is accepted and
    the description of the domain has a non-empty endpoint. *)
Theorem endpoint_main_reports domain_name region_name s :
  let answer :=
    respond (DescribeElasticsearchDomain region_name domain_name) (world s) in
  let lookup := get_opensearch_endpoint respond domain_name region_name s in
  let o := main respond domain_name region_name s in
  exists found : bool,
    value o = inr found /\
    final o = final lookup /\
    trace o = trace lookup ++
      [if found then Print stdout [Lit "Script executed successfully"]
       else if validate_region_name region_name
       then Print stderr [Lit "No endpoint returned."]
       else Print stderr [Lit "An error occurred during script execution: ";
                          FmtExn (InvalidRegionError region_name)]] /\
    (validate_region_name region_name = false ->
     value lookup = inl (InvalidRegionError region_name) /\ trace lookup = []) /\
    (found = true <->
     validate_region_name region_name = true /\
     exists response status endpoint,
       answer.1 = inr response /\
       py_getitem response "DomainStatus" = inr status /\
       py_get status "Endpoint" PyNone = inr endpoint /\
       py_truthy endpoint = true).
Proof.
  unfold main, get_opensearch_endpoint, boto3_client.
  destruct (validate_region_name region_name) eqn:Hvalid.
  2:{ exists false. unfold print, emit, try_except, raise,
        mbind, M_bind, bind, mret, M_ret, ret, after.
      cbn [value final trace app].
      do 4 (split; [done|]). split; [done|]. by intros [? _]. }
  unfold call, print, emit, try_except, lift,
    mbind, M_bind, bind, mret, M_ret, ret, raise, after.
  cbn [value final trace fst snd app].
  destruct (respond _ (world s)) as [[e|response] w];
    cbn [value final trace fst snd app].
  { exists false. destruct (is_ClientError e); cbn [value final trace py_truthy app];
      (split; [done|]); (split; [done|]); (split; [done|]); (split; [done|]);
      (split; [done|]); by intros (_&?&?&?&?&_). }
  destruct (py_getitem response "DomainStatus") as [e|status] eqn:Hstatus;
    cbn [value final trace app].
  { exists false. destruct (is_ClientError e); cbn [value final trace py_truthy app];
      (split; [done|]); (split; [done|]); (split; [done|]); (split; [done|]);
      (split; [done|]); intros (_&?&?&?&?&?&_); congruence. }
  destruct (py_get status "Endpoint" PyNone) as [e|endpoint] eqn:Hendpoint;
    cbn [value final trace app].
  { exists false. destruct (is_ClientError e); cbn [value final trace py_truthy app];
      (split; [done|]); (split; [done|]); (split; [done|]); (split; [done|]);
      (split; [done|]); intros (_&?&?&?&?&?&?&_); congruence. }
  destruct (py_truthy endpoint) eqn:Htruthy; cbn [value final trace py_truthy app].
  - rewrite Htruthy. cbn [value final trace app]. exists true.
    do 4 (split; [done|]). split; [|done]. intros _. split; [done|].
    by exists response, status, endpoint.
  - exists false. do 4 (split; [done|]). split; [done|].
    intros (_&?&?&?&?&?&?&?). congruence.
Qed.
End Endpoint_main.

(** A region name with a space in it: no client, no request, and the line of
    [main]'s own [except] branch, although the domain exists. *)
Lemma endpoint_main_reports_witness :
  value (retrieve_endpoint.main side_effect "rag" "bad region"
           (State [inr rag_domain] []))
  = inr false /\
  trace (retrieve_endpoint.main side_effect "rag" "bad region"
           (State [inr rag_domain] []))
  = [Print stderr [Lit "An error occurred during script execution: ";
                   FmtExn (InvalidRegionError "bad region")]].
Proof.
  destruct (endpoint_main_reports side_effect "rag" "bad region"
              (State [inr rag_domain] []))
    as (found & Hvalue & _ & Htrace & Hclient & Hfound).
  destruct (Hclient eq_refl) as [_ Hlookup].
  destruct found.
  - destruct Hfound as [Hfound _]. destruct (Hfound eq_refl) as [Hvalid _].
    vm_compute in Hvalid. discriminate.
  - split; [exact Hvalue|]. rewrite Htrace, Hlookup. reflexivity.
Defined.

(** ** retrieve_secret.py: [get_secret_name] *)

Section Substring.
Lemma py_startswith_spec prefix s :
  py_startswith prefix s = true <-> exists rest, s = prefix ++ rest.
Proof.
  revert s. induction prefix as [|c prefix IH]; intros s; simpl.
  - split; [by exists s|done].
  - destruct s as [|c' s]; simpl.
    + split; [done|]. by intros [rest ?].
    + rewrite andb_true_iff, bool_decide_eq_true, IH. split.
      * intros [-> [rest ->]]. by exists rest.
      * intros [rest [= -> ->]]. split; [done|]. by exists rest.
Qed.

Lemma py_substring_spec pat s :
  py_substring pat s = true <-> exists l r, s = l ++ pat ++ r.
Proof.
  induction s as [|c s IH].
  - cbn [py_substring]. rewrite orb_false_r, py_startswith_spec. split.
    + intros [rest ->]. by exists [], rest.
    + intros (l & r & Heq). symmetry in Heq.
      apply app_eq_nil in Heq as [-> Heq]. apply app_eq_nil in Heq as [-> ->].
      by exists [].
  - cbn [py_substring]. rewrite orb_true_iff, py_startswith_spec, IH. split.
    + intros [[rest ->]|(l & r & ->)].
      * by exists [], rest.
      * by exists (c :: l), r.
    + intros ([|c' l] & r & Heq).
      * left. by exists r.
      * right. injection Heq as -> ->. by exists l, r.
Qed.
End Substring.

Section Secret_name.
Context {W : Type}.
Variable respond : service W.
Import retrieve_secret.
Implicit Types s : state W.

Lemma find_secret_skip pattern before rest s :
  Forall (other_secret pattern) before ->
  find_secret (W := W) pattern (before ++ rest) s = find_secret pattern rest s.
Proof.
  induction 1 as [|secret before (name & Hname & Hno) _ IH]; [done|].
  cbn [app find_secret]. rewrite run_bind, Hname. cbn [lift ret value final trace].
  rewrite run_bind. cbn [py_contains_str lift ret value final trace].
  rewrite Hno. by rewrite !after_nil.
Qed.

Lemma find_secret_quiet pattern secrets s :
  requests (trace (find_secret (W := W) pattern secrets s)) = [] /\
  logged ERROR (trace (find_secret (W := W) pattern secrets s)) = [] /\
  forall e, value (find_secret (W := W) pattern secrets s) = inl e ->
            is_ClientError e = false.
Proof.
  induction secrets as [|secret secrets IH].
  - cbn [find_secret]. rewrite run_bind. cbn.
    do 2 (split; [done|]). by intros ? [=].
  - cbn [find_secret]. rewrite run_bind.
    destruct (py_getitem secret "Name") as [e|name] eqn:Hname;
      cbn [lift ret raise value final trace].
    { do 2 (split; [done|]). intros ? [= <-]. unfold py_getitem in Hname.
      destruct secret; try by simplify_eq.
      by (destruct (dict_lookup _ _); simplify_eq). }
    rewrite run_bind.
    destruct (py_contains_str pattern name) as [e|[]] eqn:Hin;
      cbn [lift ret raise value final trace after app].
    + do 2 (split; [done|]). intros ? [= <-]. by (destruct name; cbn [py_contains_str] in Hin; simplify_eq).
    + rewrite run_bind. cbn. do 2 (split; [done|]). by intros ? [=].
    + rewrite ?after_nil. apply IH.
Qed.

Lemma run_get_secret_name region_name domain_name s response w secrets :
  validate_region_name region_name = true ->
  respond (ListSecrets region_name) (world s) = (inr response, w) ->
  py_getitem response "SecretList" = inr (PyList secrets) ->
  get_secret_name respond region_name domain_name s
  = after [attempting_to_list region_name; Call (ListSecrets region_name)]
          (find_secret domain_name secrets (State w (heap s))).
Proof.
  intros Hvalid Hlist Hsecrets. unfold get_secret_name.
  rewrite with_client by done. unfold try_except_only, try_except.
  rewrite run_bind. cbn [log emit value final trace].
  rewrite run_bind, run_call, Hlist. cbn [fst snd value final trace].
  rewrite run_bind, Hsecrets. cbn [lift ret value final trace].
  rewrite run_bind. cbn [py_iter lift ret value final trace].
  rewrite !after_nil, !after_after. cbn [app].
  destruct (find_secret_quiet domain_name secrets (State w (heap s)))
    as (_ & _ & Hne).
  destruct (find_secret domain_name secrets (State w (heap s)))
    as [[e|name] s1 t1]; cbn [after value final trace] in *; [|done].
  rewrite (Hne e eq_refl). cbn [raise after value final trace].
  unfold after, raise. cbn [value final trace]. by rewrite app_nil_r.
Qed.

(** With a client for the region and an answer to the listing,
    [get_secret_name] returns the name of the first listed secret whose name
    contains the domain name, without a look at the secrets after it; it
    returns [None], with a warning, when no listed secret has the domain name
    in its name. *)
Theorem get_secret_name_first_match region_name domain_name s response w secrets :
  validate_region_name region_name = true ->
  respond (ListSecrets region_name) (world s) = (inr response, w) ->
  py_getitem response "SecretList" = inr (PyList secrets) ->
  let o := get_secret_name respond region_name domain_name s in
  (forall before secret rest name,
     secrets = before ++ secret :: rest ->
     Forall (other_secret domain_name) before ->
     py_getitem secret "Name" = inr (PyStr name) ->
     py_substring domain_name name = true ->
     o = Outcome (inr (PyStr name)) (State w (heap s))
           [attempting_to_list region_name; Call (ListSecrets region_name);
            found_line name]) /\
  (Forall (other_secret domain_name) secrets ->
   o = Outcome (inr PyNone) (State w (heap s))
         [attempting_to_list region_name; Call (ListSecrets region_name);
          no_secret_line domain_name]).
Proof.
  intros Hvalid Hlist Hsecrets o. subst o.
  rewrite (run_get_secret_name _ _ _ _ _ _ Hvalid Hlist Hsecrets). split.
  - intros before secret rest name -> Hbefore Hname Hin.
    rewrite find_secret_skip by done. cbn [find_secret].
    rewrite run_bind, Hname. cbn [lift ret value final trace].
    rewrite run_bind. cbn [py_contains_str lift ret value final trace].
    rewrite Hin, run_bind. by cbn.
  - intros Hnone. rewrite <- (app_nil_r secrets), find_secret_skip by done.
    cbn [find_secret]. rewrite run_bind. by cbn.
Qed.

Lemma get_secret_name_no_client region_name domain_name s :
  validate_region_name region_name = false ->
  get_secret_name respond region_name domain_name s
  = Outcome (inl (InvalidRegionError region_name)) s [].
Proof.
  intros Hvalid. unfold get_secret_name. by apply without_client.
Qed.

Lemma get_secret_name_requests region_name domain_name s :
  validate_region_name region_name = true ->
  requests (trace (get_secret_name respond region_name domain_name s))
  = [ListSecrets region_name].
Proof.
  intros Hvalid. unfold get_secret_name.
  rewrite with_client by done. unfold try_except_only, try_except.
  rewrite run_bind. cbn [log emit value final trace].
  rewrite run_bind, run_call.
  destruct (respond _ _) as [[e|response] w];
    cbn [fst snd value final trace after app].
  { destruct (is_ClientError e); [rewrite run_bind|]; by cbn. }
  rewrite run_bind.
  destruct (py_getitem response "SecretList") as [e|listed] eqn:Hlisted;
    cbn [lift ret raise value final trace after app].
  { by destruct (is_ClientError e); [rewrite run_bind|]. }
  rewrite run_bind.
  destruct (py_iter listed) as [e|secrets] eqn:Hiter;
    cbn [lift ret raise value final trace after app].
  { by destruct (is_ClientError e); [rewrite run_bind|]. }
  destruct (find_secret_quiet domain_name secrets (State w (heap s)))
    as (Hr & _ & He).
  destruct (find_secret domain_name secrets (State w (heap s)))
    as [[e|name] s1 t1]; cbn [after value final trace app] in *.
  - rewrite (He e eq_refl). cbn [raise after value final trace app].
    rewrite app_nil_r.
    change (requests (?a :: ?b :: t1)) with (requests ([a; b] ++ t1)).
    by rewrite requests_app, Hr.
  - change (requests (?a :: ?b :: t1)) with (requests ([a; b] ++ t1)).
    by rewrite requests_app, Hr.
Qed.

(** [get_secret_name] creates its client before the [try]: for a region
    name that botocore rejects it raises [InvalidRegionError], with nothing
    logged and nothing sent.  With a client, it sends one request, the
    listing, and raises what the listing raises; it logs the exception only
    when it is a [ClientError].  A response without [SecretList] is a
    [KeyError], which is not logged. *)
Theorem get_secret_name_raises region_name domain_name s :
  let answer := respond (ListSecrets region_name) (world s) in
  let o := get_secret_name respond region_name domain_name s in
  (validate_region_name region_name = false ->
   o = Outcome (inl (InvalidRegionError region_name)) s []) /\
  (validate_region_name region_name = true ->
   requests (trace o) = [ListSecrets region_name] /\
   (forall e, answer.1 = inl e ->
      value o = inl e /\
      logged ERROR (trace o)
      = if is_ClientError e
        then [[Lit "An error occurred while listing secrets: "; FmtExn e]]
        else []) /\
   (forall d, answer.1 = inr (PyDict d) -> dict_lookup "SecretList" d = None ->
      value o = inl (KeyError "SecretList") /\ logged ERROR (trace o) = [])).
Proof.
  intros answer o. subst answer o.
  split; [apply get_secret_name_no_client|]. intros Hvalid.
  unfold get_secret_name.
  rewrite with_client by done. unfold try_except_only, try_except.
  rewrite run_bind. cbn [log emit value final trace].
  rewrite run_bind, run_call.
  destruct (respond _ _) as [[e|response] w]; cbn [fst snd value final trace after app].
  { destruct (is_ClientError e) eqn:He.
    - rewrite run_bind. cbn. split; [done|]. split; [|done].
      intros ? [= <-]. by rewrite He.
    - cbn. split; [done|]. split; [|done]. intros ? [= <-]. by rewrite He. }
  rewrite run_bind.
  destruct (py_getitem response "SecretList") as [e|listed] eqn:Hlisted;
    cbn [lift ret raise value final trace after app].
  { assert (is_ClientError e = false) as ->.
    { unfold py_getitem in Hlisted. destruct response; simplify_eq; try done.
      by (destruct (dict_lookup _ _); simplify_eq). }
    cbn. split; [done|]. split; [done|]. intros d [= ->] Hnone.
    cbn in Hlisted. rewrite Hnone in Hlisted. by simplify_eq. }
  rewrite run_bind.
  destruct (py_iter listed) as [e|secrets] eqn:Hiter;
    cbn [lift ret raise value final trace after app].
  { assert (is_ClientError e = false) as ->.
    { by (destruct listed; cbn [py_iter] in Hiter; simplify_eq). }
    cbn. split; [done|]. split; [done|]. intros d [= ->] Hnone.
    cbn in Hlisted. rewrite Hnone in Hlisted. by simplify_eq. }
  destruct (find_secret_quiet domain_name secrets (State w (heap s)))
    as (Hr & _ & He).
  destruct (find_secret domain_name secrets (State w (heap s)))
    as [[e|name] s1 t1]; cbn [after value final trace app] in *.
  - rewrite (He e eq_refl). cbn [raise after value final trace app].
    rewrite app_nil_r.
    change (requests (?a :: ?b :: t1)) with (requests ([a; b] ++ t1)).
    rewrite requests_app, Hr.
    split; [done|]. split; [done|]. intros d [= ->] Hnone.
    cbn in Hlisted. rewrite Hnone in Hlisted. by simplify_eq.
  - change (requests (?a :: ?b :: t1)) with (requests ([a; b] ++ t1)).
    rewrite requests_app, Hr.
    split; [done|]. split; [done|]. intros d [= ->] Hnone.
    cbn in Hlisted. rewrite Hnone in Hlisted. by simplify_eq.
Qed.
End Secret_name.

(** Of three secrets, the second is the first with [rag] in its name; no
    name has [kibana] in it. *)
Lemma get_secret_name_first_match_witness :
  value (retrieve_secret.get_secret_name three_secrets "eu-central-1" "rag"
           (State tt []))
  = inr (PyStr "opensearch-rag-master") /\
  value (retrieve_secret.get_secret_name three_secrets "eu-central-1" "kibana"
           (State tt []))
  = inr PyNone.
Proof.
  split.
  - rewrite (proj1 (get_secret_name_first_match three_secrets "eu-central-1"
                      "rag" (State tt []) _ tt _ eq_refl eq_refl eq_refl)
               [PyDict [(str "Name", PyStr "prod-db")]]
               (PyDict [(str "Name", PyStr "opensearch-rag-master")])
               [PyDict [(str "Name", PyStr "rag-test")]]
               "opensearch-rag-master" eq_refl); [done| |done|done].
    repeat constructor. by exists (str "prod-db").
  - rewrite (proj2 (get_secret_name_first_match three_secrets "eu-central-1"
                      "kibana" (State tt []) _ tt _ eq_refl eq_refl eq_refl));
      [done|].
    repeat constructor; by eexists.
Defined.

(** ** retrieve_secret.py: [get_secret] *)

Section Secret.
Context {W : Type}.
Variable json_loads : pystr -> option pyval.
Import retrieve_secret.
Implicit Types s : state W.

Lemma masked_lines_requests lengths :
  requests (masked_lines lengths).2 = [].
Proof.
  induction lengths as [|[key [n|]] lengths IH]; cbn [masked_lines snd]; done.
Qed.

Lemma masked_lines_sized d :
  Forall (fun kv => sized kv.2) d -> (masked_lines (value_lengths d)).1 = inr tt.
Proof.
  induction 1 as [|[key v] d [n Hn] _ IH]; [done|].
  cbn [value_lengths fmap list_fmap fst snd] in *. rewrite Hn.
  cbn [masked_lines fst]. apply IH.
Qed.

Lemma masked_lines_unsized d :
  Exists (fun kv => len_of kv.2 = None) d ->
  (masked_lines (value_lengths d)).1 = inl TypeError.
Proof.
  induction 1 as [[key v] d Hn|[key v] d _ IH];
    cbn [value_lengths fmap list_fmap fst snd] in *.
  - by rewrite Hn.
  - destruct (len_of v); [|done]. cbn [masked_lines fst]. apply IH.
Qed.

Lemma log_masked_requests secret s :
  requests (trace (log_masked (W := W) json_loads secret s)) = [].
Proof.
  destruct secret as [| | | |text| |];
    try (unfold log_masked, try_except_only, try_except, loads;
         rewrite run_bind; by cbn).
  rewrite run_log_masked. destruct (json_loads text) as [[]|]; try done.
  cbn [trace]. change (requests (?a :: ?t)) with (requests ([a] ++ t)).
  by rewrite requests_app, masked_lines_requests.
Qed.

Lemma run_get_secret_value (respond : service W) s name response w secret :
  let name_run := get_secret_name respond "eu-central-1" "rag" s in
  let masked :=
    log_masked json_loads secret (State w (heap (final name_run))) in
  value name_run = inr name ->
  respond (GetSecretValue "eu-central-1" name) (world (final name_run))
  = (inr response, w) ->
  py_getitem response "SecretString" = inr secret ->
  value (get_secret respond json_loads s)
  = match value masked with inr _ => inr secret | inl e => inl e end /\
  final (get_secret respond json_loads s) = final masked.
Proof.
  intros name_run masked Hname Hget Hsecret. unfold get_secret.
  rewrite value_bind, final_bind. fold name_run. rewrite Hname.
  rewrite with_client by done. rewrite run_bind.
  unfold try_except_only, try_except.
  rewrite run_bind. cbn [log emit value final trace].
  unfold call. rewrite Hget. cbn [value final trace after app].
  rewrite run_bind, Hsecret. cbn [lift ret value final trace after app].
  rewrite run_bind. cbn [log emit value final trace after app].
  rewrite run_bind. fold masked.
  destruct (value masked); by cbn.
Qed.

(** [get_secret] returns the secret string as it is stored: a string that is
    not JSON, and also a JSON object whose values all have a length, of which
    it returns the whole text and not one of the fields. *)
Theorem get_secret_returns_secret_string (respond : service W) s name response
    w text :
  let name_run := get_secret_name respond "eu-central-1" "rag" s in
  value name_run = inr name ->
  respond (GetSecretValue "eu-central-1" name) (world (final name_run))
  = (inr response, w) ->
  py_getitem response "SecretString" = inr (PyStr text) ->
  (json_loads text = None \/
   exists d, json_loads text = Some (PyDict d) /\
             Forall (fun kv => sized kv.2) d) ->
  value (get_secret respond json_loads s) = inr (PyStr text) /\
  final (get_secret respond json_loads s) = State w (heap (final name_run)).
Proof.
  intros name_run Hname Hget Hsecret Hform.
  destruct (run_get_secret_value respond s name response w (PyStr text)
              Hname Hget Hsecret) as [-> ->].
  fold name_run. rewrite run_log_masked.
  destruct Hform as [->|(d & -> & Hsized)]; [done|].
  cbn [value final]. by rewrite masked_lines_sized.
Qed.

(** [get_secret] catches only [JSONDecodeError] around the masking.  A secret
    that is JSON but not an object (a number, as a password of digits is, a
    quoted string, a list, [true], [null]) makes it raise [AttributeError];
    a JSON object with a value that has no length (a number, a boolean,
    [null]) makes it raise [TypeError].  The retrieved secret is not
    returned. *)
Theorem get_secret_rejects_json_values (respond : service W) s name response
    w text decoded :
  let name_run := get_secret_name respond "eu-central-1" "rag" s in
  value name_run = inr name ->
  respond (GetSecretValue "eu-central-1" name) (world (final name_run))
  = (inr response, w) ->
  py_getitem response "SecretString" = inr (PyStr text) ->
  json_loads text = Some decoded ->
  ((forall d, decoded <> PyDict d) ->
   value (get_secret respond json_loads s) = inl AttributeError) /\
  (forall d, decoded = PyDict d ->
     Exists (fun kv => len_of kv.2 = None) d ->
     value (get_secret respond json_loads s) = inl TypeError).
Proof.
  intros name_run Hname Hget Hsecret Hdecoded.
  destruct (run_get_secret_value respond s name response w (PyStr text)
              Hname Hget Hsecret) as [-> _].
  fold name_run. rewrite run_log_masked, Hdecoded. split.
  - intros Hobject. destruct decoded; try done. by destruct (Hobject d).
  - intros d -> Hunsized. cbn [value]. by rewrite masked_lines_unsized.
Qed.

Lemma run_get_secret_requests (respond : service W) s name :
  let name_run := get_secret_name respond "eu-central-1" "rag" s in
  value name_run = inr name ->
  requests (trace (get_secret respond json_loads s))
  = requests (trace name_run) ++ [GetSecretValue "eu-central-1" name].
Proof.
  intros name_run Hname. unfold get_secret.
  rewrite trace_bind. fold name_run. rewrite Hname, requests_app. f_equal.
  rewrite with_client by done. rewrite run_bind.
  unfold try_except_only, try_except.
  rewrite run_bind. cbn [log emit value final trace].
  rewrite run_call.
  destruct (respond _ _) as [[e|response] w];
    cbn [fst snd value final trace after app].
  { destruct (is_ClientError e); [rewrite run_bind|]; by cbn. }
  rewrite run_bind.
  destruct (py_getitem response "SecretString") as [e|secret];
    cbn [lift raise ret value final trace after app]; [done|].
  rewrite run_bind. cbn [log emit value final trace after app].
  rewrite run_bind.
  pose proof (log_masked_requests secret (State w (heap (final name_run))))
    as Hmasked.
  destruct (log_masked _ _ _) as [[e|[]] s1 t1];
    cbn [value final trace after app ret mret M_ret] in *;
    rewrite ?app_nil_r;
    change (requests (?a :: ?b :: ?c :: t1)) with (requests ([a; b; c] ++ t1));
    by rewrite requests_app, Hmasked.
Qed.

(** [get_secret] asks for the secret under whatever [get_secret_name]
    returned.  When no secret matched, the name is [None], and [get_secret]
    goes on and asks for the secret [None]. *)
Theorem get_secret_asks_for_name (respond : service W) s name :
  let name_run := get_secret_name respond "eu-central-1" "rag" s in
  value name_run = inr name ->
  requests (trace (get_secret respond json_loads s))
  = requests (trace name_run) ++ [GetSecretValue "eu-central-1" name].
Proof. apply run_get_secret_requests. Qed.

(** The failures of [get_secret].  What [get_secret_name] raises, it raises.
    What the retrieval raises, it raises, and logs it if it is a
    [ClientError].  A response without [SecretString], as that of a binary
    secret, is a [KeyError]. *)
Theorem get_secret_raises (respond : service W) s :
  let name_run := get_secret_name respond "eu-central-1" "rag" s in
  let o := get_secret respond json_loads s in
  (forall e, value name_run = inl e -> o = Outcome (inl e) (final name_run) (trace name_run)) /\
  (forall name, value name_run = inr name ->
     let answer :=
       respond (GetSecretValue "eu-central-1" name) (world (final name_run)) in
     (forall e, answer.1 = inl e ->
        value o = inl e /\
        logged ERROR (trace o)
        = logged ERROR (trace name_run) ++
          if is_ClientError e then [[Lit "An error occurred: "; FmtExn e]]
          else []) /\
     (forall d, answer.1 = inr (PyDict d) ->
        dict_lookup "SecretString" d = None ->
        value o = inl (KeyError "SecretString"))).
Proof.
  intros name_run o. subst o. unfold get_secret. split.
  - intros e He. rewrite run_bind. fold name_run. by rewrite He.
  - intros name Hname. cbv zeta.
    rewrite run_bind. fold name_run. rewrite Hname.
    rewrite with_client by done. rewrite run_bind.
    unfold try_except_only, try_except.
    rewrite run_bind. cbn [log emit value final trace].
    rewrite run_call.
    destruct (respond _ _) as [[e|response] w];
      cbn [fst snd value final trace after app].
    + split; [|done]. intros ? [= <-].
      destruct (is_ClientError e); [rewrite run_bind|];
        cbn [log emit raise value final trace after app];
        rewrite logged_app; by cbn.
    + split; [done|]. intros d [= ->] Hnone.
      rewrite run_bind. cbn [py_getitem]. rewrite Hnone. by cbn.
Qed.
End Secret.

(** With no secret listed, [get_secret] asks for the secret [None]. *)
Lemma get_secret_asks_for_name_witness :
  value (retrieve_secret.get_secret_name empty_vault "eu-central-1" "rag"
           (State tt [])) = inr PyNone /\
  requests (trace (retrieve_secret.get_secret empty_vault json_decoder
                     (State tt [])))
  = [ListSecrets "eu-central-1"; GetSecretValue "eu-central-1" PyNone].
Proof.
  split; [reflexivity|].
  exact (get_secret_asks_for_name json_decoder empty_vault (State tt []) PyNone
           eq_refl).
Defined.

(** The secret of the tests, a user name and a password, is returned whole. *)
Lemma get_secret_returns_secret_string_witness :
  value (retrieve_secret.get_secret (vault (credentials_json "rag" "hunter22"))
           json_decoder (State tt []))
  = inr (PyStr (credentials_json "rag" "hunter22")).
Proof.
  refine (proj1 (get_secret_returns_secret_string json_decoder
            (vault (credentials_json "rag" "hunter22")) (State tt [])
            (PyStr "rag-test") _ tt _ eq_refl eq_refl eq_refl _)).
  right. eexists. split; [vm_compute; reflexivity|].
  repeat constructor; by eexists.
Defined.

(** A password of digits, stored as the secret string, and a JSON secret with
    a port number. *)
Lemma get_secret_rejects_json_values_witness :
  value (retrieve_secret.get_secret (vault "12345") json_decoder (State tt []))
  = inl AttributeError /\
  value (retrieve_secret.get_secret
           (vault (str "{" ++ quoted "port" ++ str ": 443}")) json_decoder
           (State tt []))
  = inl TypeError.
Proof.
  split.
  - refine (proj1 (get_secret_rejects_json_values json_decoder (vault "12345")
              (State tt []) (PyStr "rag-test") _ tt _ (PyInt 12345)
              eq_refl eq_refl eq_refl _) _).
    + vm_compute; reflexivity.
    + done.
  - refine (proj2 (get_secret_rejects_json_values json_decoder
              (vault (str "{" ++ quoted "port" ++ str ": 443}"))
              (State tt []) (PyStr "rag-test") _ tt _
              (PyDict [(str "port", PyInt 443)])
              eq_refl eq_refl eq_refl _) _ eq_refl _).
    + vm_compute; reflexivity.
    + by left.
Defined.

(** ** The failures of ingestion and deletion *)

Section Ingestion_errors.
Context {W : Type}.
Variable respond : service W.
Import ingest_docs_with_embeddings.
Implicit Types s : state W.

Lemma run_ingest_page index_name d s :
  let answer := respond (index_request index_name d) (world s) in
  ingest_page respond index_name (PyDict d) s
  = Outcome (inr tt) (State answer.2 (heap s))
      (Call (index_request index_name d) ::
       match index_result answer.1 with
       | inr result => [indexed_line d result]
       | inl e => Log ERROR <$> index_error_lines d e
       end).
Proof.
  unfold ingest_page, index_request, page_document, index_result.
  unfold call, log, emit, try_except, lift, py_get,
    mbind, M_bind, bind, mret, M_ret, ret, raise, after.
  cbn [value final trace fst snd].
  destruct (respond _ (world s)) as [[e|response] w];
    cbn [value final trace fst snd app]; [done|].
  by destruct (py_getitem response "result").
Qed.

(** A page that is not a dict stops the ingestion: [page.get] raises
    [AttributeError] in the [try], and again in the [except] branch that
    wants the page number for its message.  The pages before it have been
    sent, the pages after it are not, and nothing is logged for it. *)
Theorem ingest_data_stops_at_non_dict index_name records page rest s :
  (forall d, page <> PyDict d) ->
  let before := for_ (PyDict <$> records) (ingest_page respond index_name) s in
  ingest_data respond index_name
    (PyList ((PyDict <$> records) ++ page :: rest)) s
  = Outcome (inl AttributeError) (final before) (trace before) /\
  requests (trace before) = index_request index_name <$> records.
Proof.
  intros Hpage before. split; [|apply run_ingest_pages].
  cbn [ingest_data]. rewrite for_app, run_bind. fold before.
  destruct (run_ingest_pages respond index_name records s) as (Hv & _ & _).
  fold before in Hv. rewrite Hv. cbn [for_].
  change (bind ?m ?f ?s) with ((m ≫= f) s). rewrite run_bind.
  assert (ingest_page respond index_name page (final before)
          = Outcome (inl AttributeError) (final before) []) as ->.
  { unfold ingest_page, try_except. rewrite !run_bind.
    destruct page; try done. by destruct (Hpage d). }
  unfold after. cbn [value final trace]. by rewrite app_nil_r.
Qed.

(** [ingest_data] logs two ERROR lines, with the page number, the exception
    and the page, for exactly the pages whose request raised or whose
    response has no [result]; for every other page it logs one INFO line. *)
Theorem ingest_data_logs_failures index_name records s :
  let o := ingest_data respond index_name (PyList (PyDict <$> records)) s in
  let failed := failed_pages respond index_name records (world s) in
  logged ERROR (trace o)
  = flat_map (fun '(d, e) => index_error_lines d e) failed /\
  length (logged INFO (trace o)) + length failed = length records.
Proof.
  cbn [ingest_data]. cbv zeta. revert s.
  induction records as [|d records IH]; intros s; [done|].
  rewrite fmap_cons. cbn [for_ failed_pages].
  change (bind ?m ?f ?s) with ((m ≫= f) s).
  rewrite trace_bind, run_ingest_page. cbn [value final trace].
  specialize (IH (State (respond (index_request index_name d) (world s)).2
                        (heap s))).
  cbn [world] in IH. destruct IH as [IHe IHn].
  change (?a :: ?t ++ ?t') with ([a] ++ t ++ t').
  rewrite !logged_app, IHe, !length_app.
  destruct (index_result _) as [e|result]; cbn; split; (done || lia).
Qed.
End Ingestion_errors.

Section Deletion_unlisted.
Context {W : Type}.
Variable respond : service W.
Import delete_index.
Implicit Types s : state W.

Lemma list_all_indices_fails s e :
  (respond (IndicesGetAlias "*") (world s)).1 = inl e ->
  list_all_indices respond s
  = Outcome (inr []) (State (respond (IndicesGetAlias "*") (world s)).2 (heap s))
      [Call (IndicesGetAlias "*");
       Log ERROR [Lit "Error listing indices: "; FmtExn e]].
Proof.
  intros He. unfold list_all_indices, try_except.
  rewrite run_bind, run_call, He. by cbn.
Qed.

(** When the listing fails, [delete_all_indices] deletes nothing and does not
    raise: [list_all_indices] logs the error and returns the empty list, so
    that 0 indices are found and no delete request is sent.  It lists
    again, and logs as remaining what the second listing returns: the names
    of the indices when that listing is answered, the empty list when it
    fails too. *)
Theorem delete_all_indices_unlisted s e :
  let answer := respond (IndicesGetAlias "*") (world s) in
  let relisted := list_all_indices respond (State answer.2 (heap s)) in
  answer.1 = inl e ->
  exists remaining,
    value relisted = inr remaining /\
    delete_all_indices respond s
    = Outcome (inr tt) (final relisted)
        ([Call (IndicesGetAlias "*");
          Log ERROR [Lit "Error listing indices: "; FmtExn e];
          Log INFO [Lit "Found "; Fmt (PyInt 0); Lit " indices"]]
         ++ trace relisted
         ++ [Log INFO [Lit "Remaining indices after deletion: ";
                       Fmt (PyList (PyStr <$> remaining))]]) /\
    requests (trace (delete_all_indices respond s))
    = [IndicesGetAlias "*"; IndicesGetAlias "*"] /\
    (forall aliases,
       (respond (IndicesGetAlias "*") answer.2).1 = inr (PyDict aliases) ->
       remaining = dict_keys aliases) /\
    (forall e',
       (respond (IndicesGetAlias "*") answer.2).1 = inl e' ->
       remaining = []).
Proof.
  intros answer relisted He. subst answer.
  destruct (run_list_all_indices respond
              (State (respond (IndicesGetAlias "*") (world s)).2 (heap s)))
    as ((remaining & Hremaining & Hnames) & _ & Hrequests & _).
  fold relisted in Hremaining, Hrequests. cbn [world] in Hnames.
  assert (Hrun :
    delete_all_indices respond s
    = Outcome (inr tt) (final relisted)
        ([Call (IndicesGetAlias "*");
          Log ERROR [Lit "Error listing indices: "; FmtExn e];
          Log INFO [Lit "Found "; Fmt (PyInt 0); Lit " indices"]]
         ++ trace relisted
         ++ [Log INFO [Lit "Remaining indices after deletion: ";
                       Fmt (PyList (PyStr <$> remaining))]])).
  { unfold delete_all_indices.
    rewrite run_bind, (list_all_indices_fails s e He).
    cbn [value final trace]. rewrite run_bind. cbn [log emit value final trace].
    rewrite run_bind. cbn [for_ ret value final trace].
    rewrite run_bind. fold relisted. rewrite Hremaining.
    by cbn. }
  exists remaining. split; [done|]. split; [done|]. split; [|split].
  - rewrite Hrun. cbn [trace].
    rewrite !requests_app, Hrequests. done.
  - apply Hnames.
  - intros e' He'.
    pose proof (list_all_indices_fails
                  (State (respond (IndicesGetAlias "*") (world s)).2 (heap s))
                  e' He') as Hfails.
    fold relisted in Hfails. rewrite Hfails in Hremaining.
    by injection Hremaining.
Qed.
End Deletion_unlisted.

(** A cluster that cannot be reached at first, and then lists its three
    indices: none is deleted, and the three are logged as remaining. *)
Lemma delete_all_indices_unlisted_witness :
  requests (trace (delete_index.delete_all_indices side_effect
                     (State relisting_script [])))
  = [IndicesGetAlias "*"; IndicesGetAlias "*"] /\
  logged INFO (trace (delete_index.delete_all_indices side_effect
                        (State relisting_script [])))
  = [[Lit "Found "; Fmt (PyInt 0); Lit " indices"];
     [Lit "Remaining indices after deletion: ";
      Fmt (PyList [PyStr ".kibana"; PyStr "rag"; PyStr "rag-test"])]].
Proof.
  destruct (delete_all_indices_unlisted side_effect
              (State relisting_script []) _ eq_refl)
    as (remaining & _ & Hrun & Hrequests & Hnames & _).
  split; [exact Hrequests|].
  rewrite Hrun, (Hnames _ eq_refl). reflexivity.
Defined.

(** A list of one page and a string. *)
Lemma ingest_data_stops_at_non_dict_witness :
  value (ingest_docs_with_embeddings.ingest_data (cluster.respond accept_all)
           "rag" (PyList [PyDict hello_page; PyStr "page 2"; PyDict react_page])
           (State cluster.empty []))
  = inl AttributeError.
Proof.
  exact (f_equal value
           (proj1 (ingest_data_stops_at_non_dict (cluster.respond accept_all)
                     "rag" [hello_page] (PyStr "page 2") [PyDict react_page]
                     (State cluster.empty []) ltac:(done)))).
Defined.

(** ** generate_embeddings.py: the embeddings that are stored *)

Section Stored_embeddings.
Context {W : Type}.
Variable respond : service W.
Import generate_embeddings.
Implicit Types s : state W.

Lemma run_embedding_loop pages ds model_id s :
  NoDup pages ->
  Forall2 (page_in s) pages ds ->
  let o := for_ pages (embed_page respond model_id) s in
  value o = inr tt /\
  world (final o) = embedded_world respond model_id ds (world s) /\
  length (heap (final o)) = length (heap s) /\
  Forall2 (fun page d' => heap (final o) !! page = Some d') pages
          (embedded_records respond model_id ds (world s)).
Proof.
  intros Hnodup Hpages. cbv zeta. revert s Hpages.
  induction ds as [|d ds IH] in pages, Hnodup |- *; intros s Hpages.
  { apply Forall2_nil_inv_r in Hpages as ->. by repeat split. }
  apply Forall2_cons_inv_r in Hpages
    as (page & rest & [Hd [page_number Hnumber]] & Hrest & ->).
  apply NoDup_cons in Hnodup as [Hnotin Hnodup].
  cbn [for_]. change (bind ?m ?f ?s) with ((m ≫= f) s).
  rewrite value_bind, final_bind.
  rewrite (run_embed_page respond model_id page d page_number s Hd Hnumber).
  set (s' := final (embed_page_outcome respond model_id page d page_number s)).
  assert (value (embed_page_outcome respond model_id page d page_number s)
          = inr tt) as ->.
  { unfold embed_page_outcome. destruct (dict_lookup "text" d); [|done].
    by destruct (respond _ _) as [[]]. }
  assert (length (heap s') = length (heap s)) as Hlen.
  { subst s'. unfold embed_page_outcome.
    destruct (dict_lookup "text" d); [|done].
    destruct (respond _ _) as [[] ?]; cbn [final heap]; [done|].
    apply length_insert. }
  assert (forall l, l <> page -> heap s' !! l = heap s !! l) as Hother.
  { intros l Hl. subst s'. unfold embed_page_outcome.
    destruct (dict_lookup "text" d); [|done].
    destruct (respond _ _) as [[] ?]; cbn [final heap]; [done|].
    by apply list_lookup_insert_ne. }
  assert (Forall2 (page_in s') rest ds) as Hrest'.
  { apply Forall2_same_length_lookup.
    split; [by eapply Forall2_length|].
    intros i l d' Hl Hd'.
    destruct (Forall2_lookup_lr _ _ _ _ _ _ Hrest Hl Hd') as [Hd'' Hn].
    split; [|done]. rewrite Hother; [done|].
    intros ->. apply Hnotin. by eapply list_elem_of_lookup_2. }
  destruct (IH rest Hnodup s' Hrest') as (Hv & Hw & Hl & Hfinal).
  rewrite Hv, Hw, Hl. split; [done|].
  assert (pages_numbered (heap s') rest) as Hnumbered.
  { intros l Hin. apply list_elem_of_lookup_1 in Hin as [i Hi].
    destruct (Forall2_lookup_l _ _ _ _ _ Hrest' Hi) as (d' & _ & Hd' & [n Hn]).
    by exists d', n. }
  cbn [embedded_world embedded_records].
  subst s'. unfold embed_page_outcome in *.
  destruct (dict_lookup "text" d) as [text|]; cbn [final world heap] in *.
  - destruct (respond (EmbedQuery model_id text) (world s)) as [[e|emb] w];
      cbn [fst snd final world heap] in *.
    + repeat split; try done. constructor; [|done].
      rewrite for_embed_page_untouched; done.
    + repeat split; try done. constructor; [|done].
      rewrite for_embed_page_untouched by done. cbn [heap].
      rewrite list_lookup_insert, decide_True; [done|].
      split; [done|]. by eapply lookup_lt_Some.
  - repeat split; try done. constructor; [|done].
    rewrite for_embed_page_untouched; done.
Qed.

(** [create_embeddings] stores in each page exactly the embedding that the
    model returned for the text of that page, the pages being embedded in
    order; the record of a page whose call failed is as it was.  It returns
    the list of pages it was given. *)
Theorem create_embeddings_stores_embeddings pages ds model_id s :
  NoDup pages ->
  Forall2 (page_in s) pages ds ->
  let o := create_embeddings respond pages model_id s in
  value o = inr pages /\
  Forall2 (fun page d' => heap (final o) !! page = Some d') pages
          (embedded_records respond model_id ds (world s)).
Proof.
  intros Hnodup Hpages. cbv zeta. rewrite run_create_embeddings. cbv zeta.
  destruct (run_embedding_loop pages ds model_id s Hnodup Hpages)
    as (Hv & _ & _ & Hfinal).
  rewrite Hv. by cbn [value final].
Qed.
End Stored_embeddings.

(** Of two pages the first gets the embedding of the model, the second, for
    which the model fails, is as it was. *)
Lemma create_embeddings_stores_embeddings_witness :
  Forall2
    (fun page d' =>
       heap (final (generate_embeddings.create_embeddings side_effect [0; 1]
                      titan_embed (State two_answers [hello_page; react_page])))
       !! page = Some d')
    [0; 1]
    [dict_set "vector_field" mock_embedding hello_page; react_page].
Proof.
  refine (proj2 (create_embeddings_stores_embeddings side_effect [0; 1]
                   [hello_page; react_page] titan_embed
                   (State two_answers [hello_page; react_page]) _ _)).
  - compute_done.
  - repeat constructor; by eexists.
Defined.

(** ** The entry points *)

Section Quiet.
Context {W : Type}.
Implicit Types s : state W.

Lemma keeps_state_bind {A B} (m : M W A) (f : A -> M W B) :
  keeps_state m -> (forall a, keeps_state (f a)) -> keeps_state (m ≫= f).
Proof.
  intros Hm Hf s. rewrite final_bind.
  destruct (value (m s)); [apply Hm|]. by rewrite Hf, Hm.
Qed.

Lemma final_then_log {A} (m : M W A) lvl msg s :
  keeps_state m -> final ((m ≫= fun _ => log lvl msg) s) = s.
Proof.
  intros Hm. rewrite final_bind. destruct (value (m s)); by rewrite Hm.
Qed.

Lemma keeps_state_lift {A} (r : exn + A) : keeps_state (lift (W := W) r).
Proof. by destruct r. Qed.

Lemma keeps_state_log lvl msg : keeps_state (log (W := W) lvl msg).
Proof. done. Qed.

Lemma run_deref page d s :
  heap s !! page = Some d -> deref page s = Outcome (inr d) s [].
Proof. intros Hd. unfold deref. by rewrite Hd. Qed.

Lemma keeps_state_deref page : keeps_state (deref (W := W) page).
Proof. intros s. unfold deref. by destruct (heap s !! page). Qed.

Lemma keeps_state_getitem page k : keeps_state (getitem (W := W) page k).
Proof.
  intros s. unfold getitem, deref, bind.
  destruct (heap s !! page) as [d|]; [|done].
  unfold after. cbn [value final trace]. apply keeps_state_lift.
Qed.
End Quiet.

Section Generate_main.
Context {W : Type}.
Variable fitz_open : pystr -> W -> exn + generate_embeddings.document.
Variable respond : service W.
Variable json_dump : pystr -> pyval -> W -> (exn + unit) * W.
Import generate_embeddings generate_embeddings_main.
Implicit Types s : state W.

Lemma run_snapshot pages ds s :
  Forall2 (fun page d => heap s !! page = Some d) pages ds ->
  snapshot pages s = Outcome (inr (PyDict <$> ds)) s [].
Proof.
  induction 1 as [|page d pages ds Hd _ IH]; [done|].
  cbn [snapshot]. rewrite run_bind, (run_deref _ _ _ Hd).
  cbn [value final trace]. rewrite run_bind, IH. by cbn.
Qed.

Lemma sample_keeps_state (pages : list loc) :
  keeps_state (W := W)
    (match pages with
     | first_page :: _ =>
         log INFO [Lit "Displaying sample of the first page."];;
         page_number ← getitem first_page "page_number";
         log INFO [Lit "Page Number: "; Fmt page_number];;
         text ← getitem first_page "text";
         content ← lift (py_slice_to 200 text);
         log INFO [Lit "Content (first 200 characters): "; Fmt content;
                   Lit "..."];;
         vector_field ← getitem first_page "vector_field";
         first5 ← lift (py_slice_to 5 vector_field);
         log INFO [Lit "Embedding (first 5 values): "; Fmt first5; Lit "..."]
     | [] => mret tt
     end).
Proof.
  destruct pages as [|first_page pages]; [done|].
  repeat (apply keeps_state_bind; [|intros ?]);
    first [apply keeps_state_log | apply keeps_state_deref
          | apply keeps_state_lift].
Qed.
Lemma lookup_appended {A} (l1 l2 : list A) :
  Forall2 (fun i x => (l1 ++ l2) !! i = Some x)
          (seq (length l1) (length l2)) l2.
Proof.
  apply Forall2_same_length_lookup. split; [apply length_seq|].
  intros i page x [-> _]%lookup_seq Hx.
  by rewrite lookup_app_r, Nat.add_comm, Nat.add_sub by lia.
Qed.

Lemma extracted_pages_numbered (h : list dict) doc :
  pages_numbered (h ++ imap page_record doc) (seq (length h) (length doc)).
Proof.
  intros page [Hlo Hhi]%elem_of_seq.
  destruct (lookup_lt_is_Some_2 doc (page - length h)) as [text Htext]; [lia|].
  exists (page_record (page - length h) text),
         (PyInt (Z.of_nat (page - length h) + 1)).
  split; [|done].
  rewrite lookup_app_r by lia. by rewrite list_lookup_imap, Htext.
Qed.

Lemma run_getitem page d k s :
  heap s !! page = Some d ->
  getitem page k s = Outcome (py_getitem (PyDict d) k) s [].
Proof.
  intros Hd. unfold getitem, bind. rewrite (run_deref _ _ _ Hd).
  by destruct (py_getitem (PyDict d) k).
Qed.

Lemma run_bedrock_client s :
  try_except
    (boto3_client "bedrock-runtime" "eu-central-1";;
     log INFO [Lit "Created Bedrock client in region ";
               Fmt (PyStr "eu-central-1"); Lit "."])
    (fun e =>
       log ERROR [Lit "Failed to create Bedrock client: "; FmtExn e];;
       raise e) s
  = Outcome (inr tt) s
      [Log INFO [Lit "Created Bedrock client in region ";
                 Fmt (PyStr "eu-central-1"); Lit "."]].
Proof.
  unfold try_except. rewrite with_client by done. done.
Qed.

(** What [main] has after the loop of [create_embeddings]: the records of
    the pages of the document, with the embeddings that were returned. *)
Lemma run_embeddings s doc :
  let pages := seq (length (heap s)) (length doc) in
  let s1 := State (world s) (heap s ++ imap page_record doc) in
  let embedded := for_ pages (embed_page respond titan_embed) s1 in
  let records :=
    embedded_records respond titan_embed (imap page_record doc) (world s) in
  value embedded = inr tt /\
  world (final embedded)
  = embedded_world respond titan_embed (imap page_record doc) (world s) /\
  Forall2 (fun page d => heap (final embedded) !! page = Some d)
          pages records.
Proof.
  intros pages s1 embedded records. subst pages.
  assert (Forall2 (page_in s1) (seq (length (heap s)) (length doc))
            (imap page_record doc)) as Hpages.
  { apply Forall2_same_length_lookup.
    split; [by rewrite length_seq, length_imap|].
    intros i page d [-> Hi]%lookup_seq Hd. split.
    - cbn [heap s1]. by rewrite lookup_app_r, Nat.add_comm, Nat.add_sub by lia.
    - rewrite list_lookup_imap in Hd.
      destruct (doc !! i) as [text|]; [|done]. injection Hd as <-.
      by eexists. }
  destruct (run_embedding_loop respond _ _ titan_embed s1
              (NoDup_seq _ _) Hpages) as (Hv & Hw & _ & Hfinal).
  done.
Qed.

(** [main] of generate_embeddings.py hands every page of the document to
    [json.dump], in the order of the pages: the record of a page is the one
    [extract_text_from_pdf] made, with the embedding the model returned for
    it as [vector_field], or as it was if the call failed.  The dump is made
    whatever the embeddings did. *)
Theorem generate_main_saves_every_page s doc :
  fitz_open pdf_path (world s) = inr doc ->
  let records :=
    embedded_records respond titan_embed (imap page_record doc) (world s) in
  let w :=
    embedded_world respond titan_embed (imap page_record doc) (world s) in
  world (final (main fitz_open respond json_dump s))
  = (json_dump output_file (PyList (PyDict <$> records)) w).2.
Proof.
  intros Hopen records w0.
  set (embedded := for_ (seq (length (heap s)) (length doc))
                        (embed_page respond titan_embed)
                        (State (world s) (heap s ++ imap page_record doc))).
  destruct (run_embeddings s doc) as (Hv & Hw & Hlookup).
  fold embedded records w0 in Hv, Hw, Hlookup. rewrite <- Hw.
  unfold titan_embed in embedded. unfold main.
  rewrite !final_bind. cbn [log emit value final].
  rewrite run_bedrock_client. cbn [value final].
  rewrite (run_extract_text_from_pdf fitz_open pdf_path s doc Hopen).
  cbn [value final]. rewrite !final_bind. rewrite run_create_embeddings.
  cbv zeta. fold embedded. rewrite Hv. cbn [value final log emit].
  rewrite final_bind. cbn [log emit value final].
  assert (dump json_dump output_file (seq (length (heap s)) (length doc))
            (final embedded)
          = Outcome
              (json_dump output_file (PyList (PyDict <$> records))
                 (world (final embedded))).1
              (State (json_dump output_file (PyList (PyDict <$> records))
                        (world (final embedded))).2
                     (heap (final embedded))) []) as Hdump.
  { unfold dump. rewrite run_bind, (run_snapshot _ _ _ Hlookup).
    cbn [value final trace]. unfold write.
    by destruct (json_dump _ _ _). }
  rewrite final_bind. unfold try_except. rewrite run_bind, Hdump.
  cbn [value final trace].
  destruct (json_dump _ _ _) as [[e|[]] w]; cbn [fst snd].
  - rewrite run_bind. cbn. reflexivity.
  - cbn [log emit after value final trace].
    by rewrite final_then_log by apply sample_keeps_state.
Qed.
(** When the embedding of the first page fails, [main] of
    generate_embeddings.py raises [KeyError] where it displays the sample:
    the first page has no [vector_field].  This is after the pages have been
    written to the file. *)
Theorem generate_main_raises_after_saving s text doc e :
  fitz_open pdf_path (world s) = inr (text :: doc) ->
  (respond (EmbedQuery titan_embed (PyStr (py_strip text))) (world s)).1
  = inl e ->
  (forall data w, (json_dump output_file data w).1 = inr tt) ->
  let o := main fitz_open respond json_dump s in
  value o = inl (KeyError "vector_field") /\
  (Log INFO <$> sample_lines text) `suffix_of` trace o.
Proof.
  intros Hopen Hfail Hdisk o.
  set (p0 := length (heap s)).
  set (s1 := State (world s) (heap s ++ imap page_record (text :: doc))).
  set (embedded := for_ (seq p0 (length (text :: doc)))
                        (embed_page respond "amazon.titan-embed-text-v1") s1).
  destruct (run_embeddings s (text :: doc)) as (Hv & _ & Hlookup).
  set (records := embedded_records respond titan_embed
                    (imap page_record (text :: doc)) (world s)) in Hlookup.
  unfold titan_embed in Hv, Hlookup. fold p0 s1 embedded in Hv, Hlookup.
  assert (heap (final embedded) !! p0 = Some (page_record 0 text)) as Hp0.
  { pose proof (extracted_pages_numbered (heap s) (text :: doc)) as Hpages.
    fold p0 in Hpages. cbn [length seq] in Hpages.
    assert (heap s1 !! p0 = Some (page_record 0 text)) as Hd.
    { cbn [heap s1]. unfold p0. by rewrite lookup_app_r, Nat.sub_diag by lia. }
    subst embedded. cbn [length seq for_].
    change (bind ?m ?f ?s) with ((m ≫= f) s). rewrite final_bind.
    rewrite (run_embed_page respond _ p0 _ (PyInt 1) s1 Hd eq_refl).
    unfold embed_page_outcome.
    change (dict_lookup "text" (page_record 0 text))
      with (Some (PyStr (py_strip text))).
    unfold titan_embed in Hfail. cbn [world s1].
    destruct (respond _ (world s)) as [answer w]. cbn [fst] in Hfail.
    subst answer. cbn [value final].
    rewrite for_embed_page_untouched.
    - done.
    - intros page Hpage. apply Hpages. by right.
    - intros [Hlo _]%elem_of_seq. lia. }
  assert (py_getitem (PyDict (page_record 0 text)) "page_number"
          = inr (PyInt 1)) as Hnumber by reflexivity.
  assert (py_getitem (PyDict (page_record 0 text)) "text"
          = inr (PyStr (py_strip text))) as Htext by reflexivity.
  assert (py_getitem (PyDict (page_record 0 text)) "vector_field"
          = inl (KeyError "vector_field")) as Hvector by reflexivity.
  specialize (Hdisk (PyList (PyDict <$> records)) (world (final embedded))).
  destruct (json_dump output_file (PyList (PyDict <$> records))
              (world (final embedded))) as [dumped w] eqn:Hdump.
  cbn [fst] in Hdisk. subst dumped.
  remember (State w (heap (final embedded))) as s3 eqn:Hs3.
  assert (heap s3 !! p0 = Some (page_record 0 text)) as Hp3
    by (by rewrite Hs3).
  assert (dump json_dump output_file (seq p0 (length (text :: doc)))
            (final embedded) = Outcome (inr tt) s3 []) as Hdumped.
  { unfold dump. rewrite run_bind, (run_snapshot _ _ _ Hlookup).
    cbn [value final trace]. unfold write. by rewrite Hdump, Hs3. }
  subst o. unfold main.
  rewrite run_bind. cbn [log emit value final trace].
  rewrite run_bind, run_bedrock_client. cbn [value final trace].
  rewrite run_bind, (run_extract_text_from_pdf fitz_open pdf_path s _ Hopen).
  cbn [value final trace]. fold p0 s1.
  rewrite run_bind, run_create_embeddings. cbv zeta. fold embedded.
  rewrite Hv. cbn [value final trace].
  rewrite run_bind. cbn [log emit value final trace].
  rewrite run_bind. unfold try_except.
  rewrite run_bind, Hdumped. cbn [value final trace log emit after app].
  cbn [length seq].
  match goal with
  | |- context [(?m ≫= _) s3] =>
      assert (m s3 = Outcome (inl (KeyError "vector_field")) s3
                (Log INFO <$> tail (sample_lines text))) as Hsample
  end.
  { rewrite run_bind. cbn [log emit value final trace].
    rewrite run_bind, (run_getitem p0 _ _ s3 Hp3), Hnumber.
    cbn [value final trace].
    rewrite run_bind. cbn [log emit value final trace].
    rewrite run_bind, (run_getitem p0 _ _ s3 Hp3), Htext.
    cbn [value final trace].
    rewrite run_bind. cbn [py_slice_to lift ret value final trace].
    rewrite run_bind. cbn [log emit value final trace].
    rewrite run_bind, (run_getitem p0 _ _ s3 Hp3), Hvector.
    by cbn [value final trace after app]. }
  rewrite run_bind, Hsample. cbn [value final trace after app].
  split; [done|]. rewrite ?app_nil_r.
  repeat first [ exact (reflexivity (R := suffix) _)
               | apply suffix_app_r | apply suffix_cons_r ].
Qed.
End Generate_main.

Section Ingest_main.
Context {W : Type}.
Variable respond : service W.
Variable read_file : pystr -> W -> exn + codecs.bytes.
Variable locale : codecs.encoding.
Variable float_of_literal : pystr -> float.
Import ingest_docs_with_embeddings ingest_docs_with_embeddings_main.
Implicit Types s : state W.

Lemma index_requests_app t1 t2 :
  index_requests (t1 ++ t2) = index_requests t1 ++ index_requests t2.
Proof. unfold index_requests. by rewrite requests_app, filter_app. Qed.

Lemma index_requests_bind {A B} (m : M W A) (f : A -> M W B) s :
  index_requests (trace ((m ≫= f) s))
  = index_requests (trace (m s)) ++
    match value (m s) with
    | inr a => index_requests (trace (f a (final (m s))))
    | inl _ => []
    end.
Proof.
  rewrite trace_bind, index_requests_app. by destruct (value (m s)).
Qed.

Lemma get_opensearch_endpoint_no_es_client domain_name region_name s :
  validate_region_name region_name = false ->
  get_opensearch_endpoint respond domain_name region_name s
  = Outcome (inl (InvalidRegionError region_name)) s [].
Proof.
  intros Hvalid. unfold get_opensearch_endpoint. by apply without_client.
Qed.

Lemma run_get_opensearch_endpoint domain_name region_name s :
  validate_region_name region_name = true ->
  let r := DescribeElasticsearchDomain region_name domain_name in
  let answer := respond r (world s) in
  get_opensearch_endpoint respond domain_name region_name s
  = match answer.1 with
    | inr response =>
        match py_getitem response "DomainStatus" with
        | inr domain_status =>
            match py_getitem domain_status "Endpoint" with
            | inr host => Outcome (inr host) (State answer.2 (heap s)) [Call r]
            | inl e =>
                Outcome (inl e) (State answer.2 (heap s))
                  [Call r;
                   Log ERROR [Lit "Error retrieving OpenSearch endpoint: ";
                              FmtExn e]]
            end
        | inl e =>
            Outcome (inl e) (State answer.2 (heap s))
              [Call r;
               Log ERROR [Lit "Error retrieving OpenSearch endpoint: ";
                          FmtExn e]]
        end
    | inl e =>
        Outcome (inl e) (State answer.2 (heap s))
          [Call r;
           Log ERROR [Lit "Error retrieving OpenSearch endpoint: "; FmtExn e]]
    end.
Proof.
  intros Hvalid. cbv zeta. unfold get_opensearch_endpoint.
  rewrite with_client by done. unfold try_except.
  rewrite run_bind, run_call.
  destruct (respond _ _) as [[e|response] w]; cbn [fst snd value final trace].
  { rewrite run_bind. by cbn. }
  rewrite run_bind.
  destruct (py_getitem response "DomainStatus") as [e|domain_status];
    cbn [lift ret raise value final trace after app].
  { rewrite run_bind. by cbn. }
  destruct (py_getitem domain_status "Endpoint") as [e|host];
    cbn [lift ret raise value final trace after app]; [|done].
  rewrite run_bind. by cbn.
Qed.
Lemma index_requests_try {A} (m : M W A) (h : exn -> M W A) s :
  index_requests (trace (try_except m h s))
  = index_requests (trace (m s)) ++
    match value (m s) with
    | inl e => index_requests (trace (h e (final (m s))))
    | inr _ => []
    end.
Proof.
  unfold try_except. destruct (m s) as [[e|a] s1 t1]; cbn [value final trace].
  - unfold after. cbn [trace]. apply index_requests_app.
  - by rewrite app_nil_r.
Qed.

Lemma endpoint_no_index domain_name region_name s :
  index_requests
    (trace (get_opensearch_endpoint respond domain_name region_name s)) = [].
Proof.
  destruct (validate_region_name region_name) eqn:Hvalid;
    [|by rewrite get_opensearch_endpoint_no_es_client].
  rewrite run_get_opensearch_endpoint by done. cbv zeta.
  destruct (respond _ _).1 as [e|response]; [done|].
  destruct (py_getitem response "DomainStatus") as [e|status]; [done|].
  by destruct (py_getitem status "Endpoint").
Qed.

Lemma get_secret_no_index json_loads s :
  index_requests (trace (retrieve_secret.get_secret respond json_loads s))
  = [].
Proof.
  unfold index_requests.
  destruct (value (retrieve_secret.get_secret_name respond "eu-central-1"
                     "rag" s)) as [e|name] eqn:Hname.
  - unfold retrieve_secret.get_secret. rewrite trace_bind, Hname, app_nil_r.
    by rewrite get_secret_name_requests by done.
  - rewrite (run_get_secret_requests json_loads respond s name Hname).
    by rewrite get_secret_name_requests by done.
Qed.


Lemma run_load_data s :
  load_data read_file locale float_of_literal s
  = Outcome (match read_file data_file (world s) with
             | inr file => load locale float_of_literal file
             | inl e => inl e
             end) s [].
Proof.
  unfold load_data. destruct (read_file _ _) as [e|file]; [done|].
  by destruct (load _ _ _).
Qed.

Lemma ingest_data_non_list index_name data s :
  (forall pages, data <> PyList pages) ->
  index_requests (trace (ingest_data respond index_name data s)) = [].
Proof.
  intros Hdata. destruct data; try done. by destruct (Hdata l).
Qed.

(** [main] of ingest_docs_with_embeddings.py sends no index request when
    the file cannot be read as a JSON list: when it is missing, when it
    cannot be decoded, when it is not JSON, when it holds another JSON
    value. *)
Theorem ingest_main_needs_list s :
  (forall w file pages,
     read_file data_file w = inr file ->
     load locale float_of_literal file <> inr (PyList pages)) ->
  index_requests (trace (main respond read_file locale float_of_literal s))
  = [].
Proof.
  intros Hfile. unfold main. rewrite index_requests_try.
  match goal with |- context [index_requests (trace (?body s))] =>
    assert (index_requests (trace (body s)) = []) as ->;
      [|by destruct (value (body s))]
  end.
  rewrite index_requests_bind, endpoint_no_index.
  destruct (value (get_opensearch_endpoint _ _ _ _)) as [e|host]; [done|].
  rewrite index_requests_bind. cbn [log emit value final trace app].
  rewrite index_requests_bind, get_secret_no_index.
  destruct (value (retrieve_secret.get_secret _ _ _)) as [e|password];
    [done|].
  rewrite index_requests_bind, run_load_data. cbn [value final trace app].
  match goal with |- context [read_file data_file ?w] =>
    specialize (Hfile w); destruct (read_file data_file w) as [e|file];
      [done|]
  end.
  specialize (Hfile file).
  destruct (load locale float_of_literal file) as [e|data]; [done|].
  assert (forall pages, data <> PyList pages) as Hdata.
  { intros pages ->. by eapply Hfile. }
  rewrite index_requests_bind. cbn [log emit value final trace app].
  rewrite index_requests_bind.
  assert (forall s', (match data with
                      | PyList (first :: _ as pages) =>
                          keys ← lift (py_keys first);
                          log INFO [Lit "First item keys: ";
                                    Fmt (PyStr (py_join ", " keys))];;
                          log INFO [Lit "Number of pages: ";
                                    Fmt (PyInt (Z.of_nat (length pages)))]
                      | _ => log (W := W) WARNING
                               [Lit "Data is empty or not in the expected format"]
                      end) s'
                     = Outcome (inr tt) s'
                         [Log WARNING
                            [Lit "Data is empty or not in the expected format"]])
    as ->.
  { intros s'. destruct data; try done. by destruct (Hdata l). }
  cbn [value final trace app].
  rewrite index_requests_bind, ingest_data_non_list by done.
  by destruct (value _).
Qed.
Lemma index_requests_of_records index_name (records : list dict) :
  filter (fun r => is_index_request r = true)
         (index_request index_name <$> records)
  = index_request index_name <$> records.
Proof.
  induction records as [|d records IH]; [done|].
  rewrite fmap_cons, filter_cons_True by done. by rewrite IH.
Qed.

Lemma index_requests_ingest_data index_name (records : list dict) s :
  index_requests
    (trace (ingest_data respond index_name (PyList (PyDict <$> records)) s))
  = index_request index_name <$> records.
Proof.
  unfold index_requests.
  destruct (run_ingest_data respond index_name records s) as (_ & _ & ->).
  apply index_requests_of_records.
Qed.

(** When the lookups succeed and the file holds a JSON list of objects,
    [main] of ingest_docs_with_embeddings.py sends one index request for
    every object of the file, in order, as [ingest_data] builds them, and it
    ends with the line that reports success, whatever the cluster answered
    to the requests. *)
Theorem ingest_main_ingests_file s host password file records :
  let lookup := get_opensearch_endpoint respond "rag" "eu-central-1" s in
  let secret :=
    retrieve_secret.get_secret respond (json.loads float_of_literal)
      (final lookup) in
  value lookup = inr host ->
  value secret = inr password ->
  read_file data_file (world (final secret)) = inr file ->
  load locale float_of_literal file = inr (PyList (PyDict <$> records)) ->
  let o := main respond read_file locale float_of_literal s in
  index_requests (trace o) = index_request "rag" <$> records /\
  last (trace o)
  = Some (Log INFO [Lit "Data ingestion completed successfully"]).
Proof.
  intros lookup secret Hlookup Hsecret Hread Hload o.
  assert (forall s',
            exists t,
              (match PyList (PyDict <$> records) with
               | PyList (first :: _ as pages) =>
                   keys ← lift (py_keys first);
                   log INFO [Lit "First item keys: ";
                             Fmt (PyStr (py_join ", " keys))];;
                   log INFO [Lit "Number of pages: ";
                             Fmt (PyInt (Z.of_nat (length pages)))]
               | _ => log (W := W) WARNING
                        [Lit "Data is empty or not in the expected format"]
               end) s' = Outcome (inr tt) s' t /\ index_requests t = [])
    as Hreport.
  { intros s'. destruct records as [|d records]; [by eexists|].
    rewrite fmap_cons. cbn [py_keys]. rewrite run_bind.
    cbn [lift ret value final trace]. rewrite run_bind.
    cbn [log emit value final trace after app]. by eexists. }
  subst o. unfold main, try_except.
  match goal with |- context [match ?body s with _ => _ end] =>
    assert (exists s1 t1,
              body s = Outcome (inr tt) s1
                         (t1 ++ [Log INFO
                                   [Lit "Data ingestion completed successfully"]])
              /\ index_requests t1 = index_request "rag" <$> records)
      as (s1 & t1 & -> & Ht1)
  end.
  2:{ cbn [trace]. split; [|apply last_snoc].
      by rewrite index_requests_app, Ht1, app_nil_r. }
  rewrite run_bind. fold lookup. rewrite Hlookup.
  rewrite run_bind. cbn [log emit value final trace].
  rewrite run_bind. fold secret. rewrite Hsecret.
  rewrite run_bind, run_load_data, Hread, Hload. cbn [value final trace].
  rewrite run_bind. cbn [log emit value final trace].
  rewrite run_bind.
  destruct (Hreport (final secret)) as (t & -> & Ht).
  cbn [value final trace].
  rewrite run_bind.
  destruct (run_ingest_data respond "rag" records (final secret))
    as (Hv & _ & Hr).
  rewrite Hv. cbn [log emit value final trace after app].
  eexists _, _. split.
  - unfold after. cbn [value final trace]. f_equal.
    rewrite !app_assoc. reflexivity.
  - subst lookup secret.
    rewrite !index_requests_app, endpoint_no_index, get_secret_no_index, Ht.
    by rewrite index_requests_ingest_data.
Qed.
(** The two lookups of the endpoint in the repository, on the same request
    and with the same state left.  Where the one of
    ingest_docs_with_embeddings.py and create_index.py returns a non-empty
    endpoint, the one of retrieve_endpoint.py returns the same, and [None]
    where the first returns an empty value.  Where the first raises, the
    second returns [None] if the client had been created; if it had not,
    for a region name that botocore rejects, both raise its exception, with
    nothing sent, logged or printed. *)
Theorem endpoint_lookups_agree domain_name region_name s :
  let raising := get_opensearch_endpoint respond domain_name region_name s in
  let quiet :=
    retrieve_endpoint.get_opensearch_endpoint respond domain_name region_name
      s in
  final quiet = final raising /\
  requests (trace quiet) = requests (trace raising) /\
  (forall host, value raising = inr host ->
     value quiet = inr (if py_truthy host then host else PyNone)) /\
  (forall e, value raising = inl e ->
     if validate_region_name region_name then value quiet = inr PyNone
     else e = InvalidRegionError region_name /\ value quiet = inl e /\
          trace raising = [] /\ trace quiet = []).
Proof.
  cbv zeta. destruct (validate_region_name region_name) eqn:Hvalid.
  2:{ rewrite get_opensearch_endpoint_no_es_client by done.
      rewrite get_opensearch_endpoint_no_client by done.
      do 2 (split; [done|]). split; [done|]. by intros e [= <-]. }
  rewrite run_get_opensearch_endpoint by done. cbv zeta.
  unfold retrieve_endpoint.get_opensearch_endpoint.
  rewrite with_client by done.
  unfold call, print, emit, try_except, lift,
    mbind, M_bind, bind, mret, M_ret, ret, raise, after.
  cbn [value final trace fst snd].
  destruct (respond _ (world s)) as [[e|response] w];
    cbn [value final trace fst snd].
  { by destruct (is_ClientError e). }
  destruct (py_getitem response "DomainStatus") as [e|status] eqn:Hstatus;
    cbn [value final trace].
  { by destruct (is_ClientError e). }
  destruct status as [| | | | | |status];
    cbn [py_get py_getitem value final trace]; try done.
  destruct (dict_lookup "Endpoint" status) as [endpoint|];
    cbn [default from_option id value final trace]; [|done].
  destruct (py_truthy endpoint) eqn:Htruthy; cbn [value final trace].
  - do 2 (split; [done|]).
    split; [|done]. intros host [= <-]. by rewrite Htruthy.
  - do 2 (split; [done|]).
    split; [|done]. intros host [= <-]. by rewrite Htruthy.
Qed.
End Ingest_main.

(** The two pages are written: the first with the embedding the model
    returned for it, the second, for which the model failed, as it was
    extracted. *)
Lemma generate_main_saves_every_page_witness :
  world (final (generate_embeddings_main.main hello_pdf knows_hello
                  dump_to_disk (State [] [])))
  = [(generate_embeddings_main.output_file,
      PyList [PyDict [(str "page_number", PyInt 1);
                      (str "text", PyStr "Hello world");
                      (str "vector_field", mock_embedding)];
              PyDict [(str "page_number", PyInt 2);
                      (str "text", PyStr "React approach described here")]])].
Proof.
  exact (generate_main_saves_every_page hello_pdf knows_hello dump_to_disk
           (State [] []) _ eq_refl).
Defined.

(** With the model out of reach, [main] ends in the [KeyError]. *)
Lemma generate_main_raises_after_saving_witness :
  value (generate_embeddings_main.main hello_pdf unreachable dump_to_disk
           (State [] []))
  = inl (KeyError "vector_field").
Proof.
  exact (proj1 (generate_main_raises_after_saving hello_pdf unreachable
                  dump_to_disk (State [] []) _ _ _ eq_refl eq_refl
                  (fun _ _ => eq_refl))).
Defined.

(** Without the file nothing is indexed. *)
Lemma ingest_main_needs_list_witness :
  index_requests
    (trace (ingest_docs_with_embeddings_main.main side_effect no_file
              codecs.utf_8 float_examples (State ingestion_script [])))
  = [].
Proof.
  apply ingest_main_needs_list. by intros w file pages [=].
Defined.

(** The page of the file is sent, and the script reports success though the
    cluster did not answer. *)
Lemma ingest_main_ingests_file_witness :
  index_requests
    (trace (ingest_docs_with_embeddings_main.main side_effect
              (fun _ _ => inr cafe_file) codecs.utf_8 float_examples
              (State ingestion_script [])))
  = [index_request "rag" cafe_record] /\
  logged ERROR
    (trace (ingest_docs_with_embeddings_main.main side_effect
              (fun _ _ => inr cafe_file) codecs.utf_8 float_examples
              (State ingestion_script [])))
  <> [] /\
  last (trace (ingest_docs_with_embeddings_main.main side_effect
                 (fun _ _ => inr cafe_file) codecs.utf_8 float_examples
                 (State ingestion_script [])))
  = Some (Log INFO [Lit "Data ingestion completed successfully"]).
Proof.
  destruct (ingest_main_ingests_file side_effect (fun _ _ => inr cafe_file)
              codecs.utf_8 float_examples (State ingestion_script [])
              (PyStr rag_endpoint) (PyStr "correct horse") cafe_file
              [cafe_record])
    as [Hrequests Hlast]; try (vm_compute; reflexivity).
  split; [exact Hrequests|]. split; [|exact Hlast].
  vm_compute. discriminate.
Defined.

(** ** ask_question.py: [main] *)

Section Ask.
Context {W : Type}.
Variable respond : service W.
Variable json_loads : pystr -> option pyval.
Import ask_question.
Implicit Types s : state W.

Lemma quiet_endpoint_requests domain_name region s :
  validate_region_name region = true ->
  requests (trace (retrieve_endpoint.get_opensearch_endpoint respond
                     domain_name region s))
  = [DescribeElasticsearchDomain region domain_name].
Proof.
  intros Hvalid. unfold retrieve_endpoint.get_opensearch_endpoint.
  rewrite with_client by done.
  unfold call, print, emit, try_except, lift, py_get,
    mbind, M_bind, bind, mret, M_ret, ret, raise, after.
  cbn [value final trace].
  destruct (respond _ (world s)) as [[e|response] w]; cbn [value final trace].
  { by destruct (is_ClientError e). }
  destruct (py_getitem response "DomainStatus") as [e|status];
    cbn [value final trace].
  { by destruct (is_ClientError e). }
  destruct status; cbn [value final trace]; try done.
  cbn [default from_option id]. by destruct (py_truthy _).
Qed.

Lemma requests_bind {A B} (m : M W A) (f : A -> M W B) s :
  requests (trace ((m ≫= f) s))
  = requests (trace (m s)) ++
    match value (m s) with
    | inr a => requests (trace (f a (final (m s))))
    | inl _ => []
    end.
Proof. rewrite trace_bind, requests_app. by destruct (value (m s)). Qed.

Lemma run_bedrock_llm bedrock_model_id s :
  bedrock_llm bedrock_model_id s
  = Outcome (inr (bedrock_model_id, model_kwargs)) s
      [Log INFO [Lit "Creating Bedrock LLM with model: ";
                 Fmt (PyStr bedrock_model_id)]].
Proof. reflexivity. Qed.

Lemma run_bedrock_embeddings model_id s :
  bedrock_embeddings model_id s
  = Outcome (inr model_id) s
      [Log INFO [Lit "Creating LangChain vector embedding using Bedrock model: ";
                 Fmt (PyStr model_id)]].
Proof. reflexivity. Qed.

Lemma run_opensearch_vectorstore index_name password embeddings host s :
  opensearch_vectorstore index_name password embeddings host s
  = Outcome (inr (VectorStore index_name embeddings
                    [Lit "https://"; Fmt host] (index_name, password)
                    30 true 3)) s
      [Log INFO [Lit "Creating OpenSearch vector search client for index: ";
                 Fmt (PyStr index_name)]].
Proof. reflexivity. Qed.

Lemma get_secret_lists_first s :
  exists rest,
    requests (trace (retrieve_secret.get_secret respond json_loads s))
    = ListSecrets "eu-central-1" :: rest.
Proof.
  destruct (value (retrieve_secret.get_secret_name respond "eu-central-1"
                     "rag" s)) as [e|name] eqn:Hname.
  - unfold retrieve_secret.get_secret.
    rewrite trace_bind, Hname, app_nil_r, get_secret_name_requests by done.
    by eexists.
  - rewrite (run_get_secret_requests json_loads respond _ name Hname).
    rewrite get_secret_name_requests by done. by eexists.
Qed.

(** [main] of ask_question.py does not look at the endpoint it was given:
    whatever the lookup of the endpoint did, also when it failed and
    returned [None], [main] goes on and lists the secrets. *)
Theorem ask_main_goes_on_without_endpoint s :
  exists rest,
    requests (trace (main respond json_loads s))
    = [DescribeElasticsearchDomain "eu-central-1" "rag";
       ListSecrets "eu-central-1"] ++ rest.
Proof.
  destruct (get_opensearch_endpoint_returns respond "rag" "eu-central-1" s
              eu_central_1)
    as [host Hhost].
  unfold main.
  rewrite requests_bind. cbn [log emit value final trace].
  rewrite requests_bind. cbn [log emit value final trace].
  rewrite requests_bind, run_client_eu_central_1. cbn [value final trace].
  rewrite requests_bind, run_bedrock_llm. cbn [value final trace].
  rewrite requests_bind, run_bedrock_embeddings. cbn [value final trace].
  rewrite requests_bind, quiet_endpoint_requests, Hhost by done.
  rewrite requests_bind.
  destruct (get_secret_lists_first
              (final (retrieve_endpoint.get_opensearch_endpoint respond "rag"
                        "eu-central-1" s))) as [rest ->].
  by eexists.
Qed.
(** When every service answers, [main] of ask_question.py gives the model
    the documents that the search returned for the embedding of the
    question, logs the answer of the model as its last line, and returns. *)
Theorem ask_main_logs_answer s password embedding w context w' answer w'' :
  let endpoint_run :=
    retrieve_endpoint.get_opensearch_endpoint respond "rag" "eu-central-1" s in
  let secret_run :=
    retrieve_secret.get_secret respond json_loads (final endpoint_run) in
  value secret_run = inr password ->
  respond embed_question (world (final secret_run)) = (inr embedding, w) ->
  respond (search_request embedding) w = (inr context, w') ->
  respond (invoke_request context) w' = (inr answer, w'') ->
  let o := main respond json_loads s in
  value o = inr tt /\
  requests (trace o)
  = requests (trace endpoint_run) ++ requests (trace secret_run)
    ++ [embed_question; search_request embedding; invoke_request context] /\
  last (trace o) = Some (answer_line answer).
Proof.
  intros endpoint_run secret_run Hsecret Hembed Hsearch Hinvoke o.
  destruct (get_opensearch_endpoint_returns respond "rag" "eu-central-1" s
              eu_central_1)
    as [host Hhost]. fold endpoint_run in Hhost.
  set (store := VectorStore "rag" "amazon.titan-embed-text-v1"
                  [Lit "https://"; Fmt host] (str "rag", password) 30 true 3).
  pose proof (run_retrieve respond store question (final secret_run)
                embedding w Hembed) as Hretrieve.
  cbv zeta in Hretrieve.
  change (Search (store_index_name store) (knn_query embedding 4))
    with (search_request embedding) in Hretrieve.
  change (EmbedQuery (embedding_function store) (PyStr question))
    with embed_question in Hretrieve.
  rewrite Hsearch in Hretrieve. cbn [fst snd] in Hretrieve.
  assert (o = Outcome (inr tt) (State w'' (heap (final secret_run)))
                ([Log INFO [Lit "Starting the LangChain with Bedrock and OpenSearch workflow..."];
                  Log INFO [Lit "Creating Bedrock client with model ";
                            Fmt (PyStr "amazon.titan-text-lite-v1");
                            Lit ", and embeddings with ";
                            Fmt (PyStr "amazon.titan-embed-text-v1")];
                  Log INFO [Lit "Creating Bedrock LLM with model: ";
                            Fmt (PyStr "amazon.titan-text-lite-v1")];
                  Log INFO [Lit "Creating LangChain vector embedding using Bedrock model: ";
                            Fmt (PyStr "amazon.titan-embed-text-v1")]]
                 ++ trace endpoint_run ++ trace secret_run
                 ++ [Log INFO [Lit "Creating OpenSearch vector search client for index: ";
                               Fmt (PyStr "rag")];
                     Call embed_question; Call (search_request embedding);
                     Call (invoke_request context); answer_line answer]))
    as ->.
  { subst o. unfold main.
    rewrite run_bind. cbn [log emit value final trace].
    rewrite run_bind. cbn [log emit value final trace].
    rewrite run_bind, run_client_eu_central_1. cbn [value final trace].
    rewrite run_bind, run_bedrock_llm. cbn [value final trace].
    rewrite run_bind, run_bedrock_embeddings. cbn [value final trace].
    rewrite run_bind. fold endpoint_run. rewrite Hhost.
    rewrite run_bind. fold secret_run. rewrite Hsecret.
    rewrite run_bind, run_opensearch_vectorstore. cbn [value final trace].
    fold store. rewrite run_bind.
    unfold retrieval_chain_invoke.
    rewrite run_bind, Hretrieve. cbn [value final trace fst snd].
    rewrite run_bind, run_call. cbn [world heap fst snd].
    change (InvokeModel _ _ context question) with (invoke_request context).
    rewrite Hinvoke. cbn [fst snd value final trace].
    unfold after. cbn [mret M_ret ret value final trace].
    rewrite run_bind.
    change (py_get _ "answer" PyNone) with (inr (B := pyval) (A := exn) answer).
    cbn [lift ret value final trace log emit].
    unfold after. cbn [value final trace]. f_equal. }
  cbn [value trace]. split; [done|]. split.
  - by rewrite !requests_app.
  - rewrite !app_assoc.
    change (?t ++ [?a; ?b; ?c; ?d; ?e]) with (t ++ [a; b; c; d] ++ [e]).
    rewrite app_assoc. apply last_snoc.
Qed.
End Ask.

(** The run of the tests' kind: every service answers. *)
Lemma ask_main_logs_answer_witness :
  value (ask_question.main side_effect json_decoder (State answering_script []))
  = inr tt /\
  last (trace (ask_question.main side_effect json_decoder
                 (State answering_script [])))
  = Some (answer_line (PyStr "ReAct interleaves reasoning and acting.")).
Proof.
  destruct (ask_main_logs_answer side_effect json_decoder
              (State answering_script []) (PyStr "correct horse")
              mock_embedding
              [inr (PyList [PyStr "React approach described here"]);
               inr (PyStr "ReAct interleaves reasoning and acting.")]
              (PyList [PyStr "React approach described here"])
              [inr (PyStr "ReAct interleaves reasoning and acting.")]
              (PyStr "ReAct interleaves reasoning and acting.") [])
    as (Hv & _ & Hlast); try (vm_compute; reflexivity).
  by split.
Defined.
